(** * tsgm.models.cgan: GAN and ConditionalGAN training steps

    A shallow embedding of [src/tsgm/models/cgan.py].  Tensors are dense
    row-major arrays over the rationals, the Keras collaborators
    (generator, discriminator, optimizers, loss function, gradient tape)
    are parameters, and the Python methods are state-passing functions in
    a monad that keeps the store reached when an exception is raised. *)

From Stdlib Require Import String.
From Stdlib Require Import List Arith ZArith QArith Bool Lia.
Import ListNotations.

Close Scope Q_scope.
Close Scope Z_scope.
Open Scope nat_scope.

Set Implicit Arguments.

(** ** Exceptions and results *)

Inductive exn : Type :=
| InvalidArgumentError   (* tf.errors.InvalidArgumentError / ValueError of a tf op *)
| IndexError             (* indexing a shape or a tensor out of range *)
| AttributeError         (* attribute read before [compile] bound it *)
| TypeError              (* a [None] where a number is needed *)
| ValueError             (* Keras argument checks *)
| ExternalError (tag : string).  (* raised by an injected collaborator *)

Inductive result (A : Type) : Type :=
| Ok (a : A)
| Raise (e : exn).
Arguments Ok {A} a.
Arguments Raise {A} e.

Definition rbind {A B} (r : result A) (k : A -> result B) : result B :=
  match r with
  | Ok a => k a
  | Raise e => Raise e
  end.


(** ** Tensors *)

Module Tensor.

(** A dense tensor: its static shape and its entries in row-major order. *)
Record t : Type := mk { shape : list nat; data : list Q }.

Definition numel (sh : list nat) : nat := fold_right Nat.mul 1 sh.

Definition rank (x : t) : nat := length (shape x).

Definition well_formed (x : t) : Prop := length (data x) = numel (shape x).

Definition scalar (q : Q) : t := mk [] [q].

(** Row-major offset of a multi-index, [None] when out of bounds. *)
Fixpoint ravel (sh idx : list nat) : option nat :=
  match sh, idx with
  | [], [] => Some 0
  | d :: sh', i :: idx' =>
      if i <? d
      then option_map (fun o => i * numel sh' + o) (ravel sh' idx')
      else None
  | _, _ => None
  end.

(** [x[i0, i1, ...]] for a full multi-index. *)
Definition at_index (x : t) (idx : list nat) : option Q :=
  match ravel (shape x) idx with
  | Some o => nth_error (data x) o
  | None => None
  end.

Definition slice {A} (l : list A) (start len : nat) : list A :=
  firstn len (skipn start l).

(** [tf.ones(shape)], [tf.zeros(shape)] *)
Definition ones (sh : list nat) : t := mk sh (repeat 1%Q (numel sh)).
Definition zeros (sh : list nat) : t := mk sh (repeat 0%Q (numel sh)).

(** Python's negative axis: [-1] is the last one. *)
Definition normalize_axis (r : nat) (axis : Z) : option nat :=
  if (0 <=? axis)%Z
  then (if (Z.to_nat axis <? r) then Some (Z.to_nat axis) else None)
  else (if (- axis <=? Z.of_nat r)%Z then Some (r - Z.to_nat (- axis)) else None).

Fixpoint replace_nth (n : nat) (v : nat) (l : list nat) : list nat :=
  match l, n with
  | [], _ => []
  | _ :: l', O => v :: l'
  | x :: l', S n' => x :: replace_nth n' v l'
  end.

(** Shapes that may be concatenated along [ax]: same rank, same
    dimensions everywhere but at [ax]. *)
Definition concat_compatible (ax : nat) (s1 s2 : list nat) : bool :=
  (length s1 =? length s2)
  && forallb (fun n => Nat.eqb n 0)
       (map (fun i => if i =? ax then 0
                      else if nth i s1 0 =? nth i s2 0 then 0 else 1)
            (seq 0 (length s1))).

(** [tf.concat(xs, axis)] *)
Definition concat (xs : list t) (axis : Z) : result t :=
  match xs with
  | [] => Raise ValueError
  | x0 :: rest =>
      match normalize_axis (rank x0) axis with
      | None => Raise InvalidArgumentError
      | Some ax =>
          if forallb (fun x => concat_compatible ax (shape x0) (shape x)) rest
          then
            let outer := numel (firstn ax (shape x0)) in
            let chunk x := numel (skipn ax (shape x)) in
            let dim := fold_right Nat.add 0 (map (fun x => nth ax (shape x) 0) xs) in
            Ok (mk (replace_nth ax dim (shape x0))
                  (flat_map
                     (fun o => flat_map (fun x => slice (data x) (o * chunk x) (chunk x)) xs)
                     (seq 0 outer)))
          else Raise InvalidArgumentError
      end
  end.

(** [x[:, :, None]]: two full slices, then a new axis of length 1. *)
Definition getitem_slice_slice_newaxis (x : t) : result t :=
  match shape x with
  | d0 :: d1 :: rest => Ok (mk (d0 :: d1 :: 1 :: rest) (data x))
  | _ => Raise IndexError
  end.

(** [tf.repeat(x, repeats=[n])] with no axis: the input is flattened and
    every entry is repeated [n] times in place. *)
Definition repeat_flat (x : t) (n : nat) : t :=
  let d := flat_map (fun v => repeat v n) (data x) in
  mk [length d] d.

(** [tf.reshape(x, (-1, d1, d2))]: the leading dimension is inferred. *)
Definition reshape_infer (x : t) (d1 d2 : nat) : result t :=
  let size := length (data x) in
  let known := d1 * d2 in
  if known =? 0 then Raise InvalidArgumentError
  else if size mod known =? 0
       then Ok (mk [size / known; d1; d2] (data x))
       else Raise InvalidArgumentError.

(** [tf.shape(x)[0]] *)
Definition shape0 (x : t) : result nat :=
  match shape x with
  | d :: _ => Ok d
  | [] => Raise InvalidArgumentError
  end.

(** [x.shape[i]] *)
Definition shape_getitem (x : t) (i : nat) : result nat :=
  match nth_error (shape x) i with
  | Some d => Ok d
  | None => Raise IndexError
  end.

(** NumPy-style broadcasting of two shapes, aligned on the right. *)
Fixpoint broadcast_shapes_rev (a b : list nat) : option (list nat) :=
  match a, b with
  | [], _ => Some b
  | _, [] => Some a
  | x :: a', y :: b' =>
      match broadcast_shapes_rev a' b' with
      | None => None
      | Some r =>
          if x =? y then Some (x :: r)
          else if x =? 1 then Some (y :: r)
          else if y =? 1 then Some (x :: r)
          else None
      end
  end.

Definition broadcast_shapes (a b : list nat) : option (list nat) :=
  option_map (@rev nat) (broadcast_shapes_rev (rev a) (rev b)).

Fixpoint unravel (sh : list nat) (i : nat) : list nat :=
  match sh with
  | [] => []
  | d :: sh' => (i / numel sh') mod d :: unravel sh' i
  end.

(** Offset in a tensor of shape [sh] of the entry that a broadcast
    multi-index reads: axes of length 1 are read at 0. *)
Fixpoint broadcast_offset (sh idx : list nat) : nat :=
  match sh, idx with
  | d :: sh', i :: idx' =>
      (if d =? 1 then 0 else i) * numel sh' + broadcast_offset sh' idx'
  | _, _ => 0
  end.

Definition broadcast_read (x : t) (idx : list nat) : Q :=
  nth (broadcast_offset (shape x) (skipn (length idx - rank x) idx)) (data x) 0%Q.

(** An element-wise binary operator with broadcasting ([a - b], [a * b], ...). *)
Definition binop (f : Q -> Q -> Q) (a b : t) : result t :=
  match broadcast_shapes (shape a) (shape b) with
  | None => Raise InvalidArgumentError
  | Some sh =>
      Ok (mk sh (map (fun i => let idx := unravel sh i in
                               f (broadcast_read a idx) (broadcast_read b idx))
                     (seq 0 (numel sh))))
  end.

Definition add : t -> t -> result t := binop Qplus.
Definition sub : t -> t -> result t := binop Qminus.
Definition mul : t -> t -> result t := binop Qmult.

Definition map_entries (f : Q -> Q) (x : t) : t := mk (shape x) (map f (data x)).

Definition sumQ (l : list Q) : Q := fold_right Qplus 0%Q l.

(** [tf.reduce_mean(x)] over all entries.  (Division by zero is [0] in
    [Q]; TensorFlow yields NaN on an empty tensor.) *)
Definition reduce_mean (x : t) : Q :=
  (sumQ (data x) / inject_Z (Z.of_nat (length (data x))))%Q.

(** [tf.reduce_sum(x, axis=[1, 2])] *)
Definition reduce_sum_axes_1_2 (x : t) : result t :=
  match shape x with
  | d0 :: d1 :: d2 :: rest =>
      let r := numel rest in
      let m := d1 * d2 in
      Ok (mk (d0 :: rest)
            (flat_map
               (fun b => map (fun k => sumQ (map (fun j => nth (b * m * r + j * r + k) (data x) 0%Q)
                                                 (seq 0 m)))
                             (seq 0 r))
               (seq 0 d0)))
  | _ => Raise InvalidArgumentError
  end.

End Tensor.

(** ** The store: Keras variables, optimizer slots, the random generator, the log *)

(** The distribution a [tf.random] call asks for. *)
Inductive distribution : Type :=
| Normal (mean stddev : Q)      (* tf.random.normal(shape, mean, stddev) *)
| Uniform (minval maxval : Q).  (* tf.random.uniform(shape, minval, maxval) *)

(** The values a distribution can yield. *)
Definition in_support (d : distribution) (x : Q) : Prop :=
  match d with
  | Normal _ _ => True
  | Uniform lo hi => (lo < hi -> lo <= x /\ x < hi)%Q
  end.

Inductive level : Type := DEBUG | INFO | WARNING | ERROR.

Record LogRecord : Type := { levelno : level; msg : string }.

Record World : Type := {
  weights_of : nat -> list Tensor.t;  (* variables of the Keras model with a given id *)
  slots_of : nat -> list Tensor.t;    (* state of the optimizer with a given id *)
  entropy : distribution -> nat -> Q; (* the n-th number the generator yields *)
  rng_counter : nat;                  (* numbers drawn so far *)
  records : list LogRecord            (* what the 'models' logger received, oldest first *)
}.

Definition set_weights_of (id : nat) (ws : list Tensor.t) (w : World) : World :=
  {| weights_of := fun i => if i =? id then ws else weights_of w i;
     slots_of := slots_of w;
     entropy := entropy w;
     rng_counter := rng_counter w;
     records := records w |}.

Definition set_slots_of (id : nat) (sl : list Tensor.t) (w : World) : World :=
  {| weights_of := weights_of w;
     slots_of := fun i => if i =? id then sl else slots_of w i;
     entropy := entropy w;
     rng_counter := rng_counter w;
     records := records w |}.

Definition advance_rng (n : nat) (w : World) : World :=
  {| weights_of := weights_of w;
     slots_of := slots_of w;
     entropy := entropy w;
     rng_counter := rng_counter w + n;
     records := records w |}.

Definition emit (r : LogRecord) (w : World) : World :=
  {| weights_of := weights_of w;
     slots_of := slots_of w;
     entropy := entropy w;
     rng_counter := rng_counter w;
     records := records w ++ [r] |}.

(** ** A state monad that keeps the store on failure

    A Python exception does not roll back the assignments made before it:
    a computation returns its result, or the exception, together with the
    store it reached. *)

Definition M (S A : Type) : Type := S -> result A * S.

Definition ret {S A} (a : A) : M S A := fun s => (Ok a, s).

Definition bind {S A B} (m : M S A) (k : A -> M S B) : M S B :=
  fun s => match m s with
           | (Ok a, s') => k a s'
           | (Raise e, s') => (Raise e, s')
           end.

Definition raise {S A} (e : exn) : M S A := fun s => (Raise e, s).

Definition lift {S A} (r : result A) : M S A := fun s => (r, s).

Definition get_state {S} : M S S := fun s => (Ok s, s).

Definition modify {S} (f : S -> S) : M S unit := fun s => (Ok tt, f s).

(** An attribute that exists only once [compile] has set it. *)
Definition getattr {S A} (o : option A) : M S A :=
  match o with
  | Some a => ret a
  | None => raise AttributeError
  end.

Declare Scope py_scope.
Delimit Scope py_scope with py.
Notation "x <- m ;; k" := (bind m (fun x => k))
  (at level 61, m at next level, right associativity) : py_scope.
Notation "m ;; k" := (bind m (fun _ => k))
  (at level 61, right associativity) : py_scope.

(** ** Keras objects *)

(** A Keras model: an id naming its variables in the store, its forward
    pass as a function of the variable values, the [training] argument
    ([None] when the call omits it) and the input, and its declared
    output shape (unknown dimensions are [None]). *)
Record Model : Type := {
  model_id : nat;
  call : list Tensor.t -> option bool -> Tensor.t -> result Tensor.t;
  output_shape : list (option nat)
}.

(** [zip(grads, variables)] as the optimizer receives it; a gradient is
    [None] for a variable the loss does not depend on. *)
Definition grads_and_vars : Type := list (option Tensor.t * Tensor.t).

(** A gradient tape that has recorded a forward pass, seen through its
    one method [tape.gradient(loss, variables)]: the recorded loss as a
    function of the variables, and the point at which it is
    differentiated. *)
Definition Tape : Type :=
  (list Tensor.t -> result Q) -> list Tensor.t -> result (list (option Tensor.t)).

(** A Keras optimizer: the names of the classes in its method resolution
    order, [apply_gradients], and the [minimize(loss, var_list, tape)] of
    the differentially private optimizers, which differentiates on the
    tape it is handed.  Both take the slots first and return the new
    slots and the new values of the variables they were given. *)
Record Optimizer : Type := {
  optimizer_id : nat;
  mro : list string;
  apply_gradients : list Tensor.t -> grads_and_vars ->
                    result unit * (list Tensor.t * list Tensor.t);
  minimize : list Tensor.t -> (list Tensor.t -> result Q) -> list Tensor.t -> Tape ->
             result unit * (list Tensor.t * list Tensor.t)
}.

(** [keras.metrics.Mean]: a running sum and a running count.  On a scalar
    loss [update_state] and [result] always return. *)
Record Mean : Type := { total : Q; count : Q }.

Definition Mean_init : Mean := {| total := 0%Q; count := 0%Q |}.

Definition update_state (v : Q) (m : Mean) : Mean :=
  {| total := (total m + v)%Q; count := (count m + 1)%Q |}.

(** [Mean.result()]: [div_no_nan(total, count)] *)
Definition Mean_result (m : Mean) : Q := (total m / count m)%Q.

(** What TensorFlow's automatic differentiation and numerics provide. *)
Record Engine : Type := {
  (* tape.gradient(loss, variables): the recorded loss as a function of
     the variables, and the point at which it is differentiated *)
  tape_gradient : Tape;
  (* gp_tape.gradient(pred, [x])[0] for a watched input x *)
  tape_gradient_input : (Tensor.t -> result Tensor.t) -> Tensor.t -> result Tensor.t;
  tf_sqrt : Q -> Q
}.

(** After an optimizer step the first variables take the values the
    optimizer returned; variables it was not given keep theirs. *)
Definition write_back (vals old : list Tensor.t) : list Tensor.t :=
  firstn (length old) vals ++ skipn (length vals) old.

(** ** Detection of differentially private optimizers *)

Definition isinstance (o : Optimizer) (cls : string) : bool :=
  existsb (String.eqb cls) (mro o).

(** [_is_dp_optimizer], with the module flag [__tf_privacy_available]
    passed in. *)
Definition _is_dp_optimizer (tf_privacy_available : bool) (optimizer : Optimizer) : bool :=
  tf_privacy_available
  && (isinstance optimizer "DPKerasAdagradOptimizer"
      || isinstance optimizer "DPKerasAdamOptimizer"
      || isinstance optimizer "DPKerasSGDOptimizer").

Definition str_of_bool (b : bool) : string := if b then "True" else "False".

(** The f-string of the warning in [compile]. *)
Definition dp_mismatch_message (generator_dp discriminator_dp : bool) : string :=
  ("One of the optimizers is DP and another one is not. generator_dp="
   ++ str_of_bool generator_dp ++ ", discriminator_dp=" ++ str_of_bool discriminator_dp)%string.

(** ** Method frames *)

(** The store a method runs in: the object bound to [self] and the rest
    of the world. *)
Record Frame (Self : Type) : Type := { self : Self; world : World }.
Arguments self {Self} f.
Arguments world {Self} f.

Definition with_world {Self} (f : World -> World) (s : Frame Self) : Frame Self :=
  {| self := self s; world := f (world s) |}.

Definition with_self {Self} (f : Self -> Self) (s : Frame Self) : Frame Self :=
  {| self := f (self s); world := world s |}.

(** The tensor a [tf.random] call returns: the next [numel sh] numbers of
    the generator for that distribution. *)
Definition draw (d : distribution) (sh : list nat) (w : World) : Tensor.t :=
  Tensor.mk sh (map (fun i => entropy w d (rng_counter w + i)) (seq 0 (Tensor.numel sh))).

Definition tf_random {Self} (d : distribution) (sh : list nat) : M (Frame Self) Tensor.t :=
  fun s => (Ok (draw d sh (world s)), with_world (advance_rng (Tensor.numel sh)) s).

(** [tf.random.normal(shape, mean=0.0, stddev=1.0)] *)
Definition tf_random_normal {Self} (sh : list nat) (mean stddev : Q) : M (Frame Self) Tensor.t :=
  tf_random (Normal mean stddev) sh.

(** [tf.random.uniform(shape, minval=0.0, maxval=1.0)] *)
Definition tf_random_uniform {Self} (sh : list nat) (minval maxval : Q) : M (Frame Self) Tensor.t :=
  tf_random (Uniform minval maxval) sh.

(** [logger.warning(msg)] *)
Definition logger_warning {Self} (m : string) : M (Frame Self) unit :=
  modify (with_world (emit {| levelno := WARNING; msg := m |})).

(** [optimizer.apply_gradients(zip(grads, model.trainable_weights))] *)
Definition optimizer_apply_gradients {Self} (opt : Optimizer)
    (grads : list (option Tensor.t)) (m : Model) : M (Frame Self) unit :=
  fun s =>
    let w := world s in
    let vars := weights_of w (model_id m) in
    let '(r, (sl, vals)) := apply_gradients opt (slots_of w (optimizer_id opt)) (combine grads vars) in
    (r, with_world (fun _ => set_weights_of (model_id m) (write_back vals vars)
                                (set_slots_of (optimizer_id opt) sl w)) s).

(** [optimizer.minimize(loss, model.trainable_weights, tape=tape)] *)
Definition optimizer_minimize {Self} (opt : Optimizer)
    (loss : list Tensor.t -> result Q) (m : Model) (tape : Tape) : M (Frame Self) unit :=
  fun s =>
    let w := world s in
    let vars := weights_of w (model_id m) in
    let '(r, (sl, vals)) := minimize opt (slots_of w (optimizer_id opt)) loss vars tape in
    (r, with_world (fun _ => set_weights_of (model_id m) (write_back vals vars)
                                (set_slots_of (optimizer_id opt) sl w)) s).

(** The value [train_step] returns: a dict with keys "g_loss" and "d_loss". *)
Definition losses_dict (g d : Mean) : list (string * Q) :=
  [("g_loss"%string, Mean_result g); ("d_loss"%string, Mean_result d)].

(** ** class GAN *)

Module GAN.

Local Open Scope py_scope.

(** The attributes [__init__] and [compile] assign; those of [compile]
    are absent until it has run. *)
Record t : Type := {
  discriminator : Model;
  generator : Model;
  latent_dim : nat;
  _seq_len : option nat;
  use_wgan : bool;
  gp_weight : Q;
  gen_loss_tracker : Mean;
  disc_loss_tracker : Mean;
  d_optimizer : option Optimizer;
  g_optimizer : option Optimizer;
  loss_fn : option (Tensor.t -> Tensor.t -> result Q);
  dp : option bool
}.

Definition set_gen_loss_tracker (m : Mean) (o : t) : t :=
  {| discriminator := discriminator o; generator := generator o;
     latent_dim := latent_dim o; _seq_len := _seq_len o;
     use_wgan := use_wgan o; gp_weight := gp_weight o;
     gen_loss_tracker := m; disc_loss_tracker := disc_loss_tracker o;
     d_optimizer := d_optimizer o; g_optimizer := g_optimizer o;
     loss_fn := loss_fn o; dp := dp o |}.

Definition set_disc_loss_tracker (m : Mean) (o : t) : t :=
  {| discriminator := discriminator o; generator := generator o;
     latent_dim := latent_dim o; _seq_len := _seq_len o;
     use_wgan := use_wgan o; gp_weight := gp_weight o;
     gen_loss_tracker := gen_loss_tracker o; disc_loss_tracker := m;
     d_optimizer := d_optimizer o; g_optimizer := g_optimizer o;
     loss_fn := loss_fn o; dp := dp o |}.

(** [GAN.__init__] *)
Definition __init__ (discriminator generator : Model) (latent_dim : nat)
    (use_wgan : bool) : result t :=
  match nth_error (output_shape generator) 1 with
  | None => Raise IndexError
  | Some seq_len =>
      Ok {| discriminator := discriminator; generator := generator;
            latent_dim := latent_dim; _seq_len := seq_len;
            use_wgan := use_wgan; gp_weight := 10%Q;
            gen_loss_tracker := Mean_init; disc_loss_tracker := Mean_init;
            d_optimizer := None; g_optimizer := None;
            loss_fn := None; dp := None |}
  end.

(** [GAN.wgan_discriminator_loss] *)
Definition wgan_discriminator_loss (real_sample fake_sample : Tensor.t) : Q :=
  let real_loss := Tensor.reduce_mean real_sample in
  let fake_loss := Tensor.reduce_mean fake_sample in
  (fake_loss - real_loss)%Q.

(** [GAN.wgan_generator_loss] *)
Definition wgan_generator_loss (fake_sample : Tensor.t) : Q :=
  (- Tensor.reduce_mean fake_sample)%Q.

(** [GAN.metrics] *)
Definition metrics (o : t) : list Mean := [gen_loss_tracker o; disc_loss_tracker o].

(** [GAN.compile]: binds the optimizers and the loss, and derives [dp]. *)
Definition compile (tf_privacy_available : bool) (d_optimizer g_optimizer : Optimizer)
    (loss_fn : Tensor.t -> Tensor.t -> result Q) : M (Frame t) unit :=
  modify (with_self (fun o =>
    {| discriminator := discriminator o; generator := generator o;
       latent_dim := latent_dim o; _seq_len := _seq_len o;
       use_wgan := use_wgan o; gp_weight := gp_weight o;
       gen_loss_tracker := gen_loss_tracker o; disc_loss_tracker := disc_loss_tracker o;
       d_optimizer := Some d_optimizer; g_optimizer := Some g_optimizer;
       loss_fn := Some loss_fn; dp := dp o |})) ;;
  let generator_dp := _is_dp_optimizer tf_privacy_available d_optimizer in
  let discriminator_dp := _is_dp_optimizer tf_privacy_available g_optimizer in
  (if negb (Bool.eqb generator_dp discriminator_dp)
   then logger_warning (dp_mismatch_message generator_dp discriminator_dp)
   else ret tt) ;;
  modify (with_self (fun o =>
    {| discriminator := discriminator o; generator := generator o;
       latent_dim := latent_dim o; _seq_len := _seq_len o;
       use_wgan := use_wgan o; gp_weight := gp_weight o;
       gen_loss_tracker := gen_loss_tracker o; disc_loss_tracker := disc_loss_tracker o;
       d_optimizer := GAN.d_optimizer o; g_optimizer := GAN.g_optimizer o;
       loss_fn := GAN.loss_fn o; dp := Some (generator_dp && discriminator_dp) |})).

(** [GAN._get_random_vector_labels]; [labels] is [None] by default. *)
Definition _get_random_vector_labels (batch_size : nat) (labels : option Tensor.t)
    : M (Frame t) Tensor.t :=
  s <- get_state ;;
  tf_random_normal [batch_size; latent_dim (self s)] 0 1.

Section WithEngine.

Variable tf : Engine.

(** The first three statements of [gradient_penalty]: the mixing
    coefficients and the interpolated samples. *)
Definition gradient_penalty_alpha (batch_size : nat) : M (Frame t) Tensor.t :=
  tf_random_normal [batch_size; 1; 1] 0 1.

Definition gradient_penalty_interpolated (batch_size : nat)
    (real_samples fake_samples : Tensor.t) : M (Frame t) Tensor.t :=
  alpha <- gradient_penalty_alpha batch_size ;;
  diff <- lift (Tensor.sub fake_samples real_samples) ;;
  scaled <- lift (Tensor.mul alpha diff) ;;
  lift (Tensor.add real_samples scaled).

(** [GAN.gradient_penalty].  [dw] holds the values of the
    discriminator's variables in the forward pass being recorded. *)
Definition gradient_penalty (dw : list Tensor.t) (batch_size : nat)
    (real_samples fake_samples : Tensor.t) : M (Frame t) Q :=
  interpolated <- gradient_penalty_interpolated batch_size real_samples fake_samples ;;
  s <- get_state ;;
  let D := call (discriminator (self s)) dw (Some true) in
  pred <- lift (D interpolated) ;;
  grads <- lift (tape_gradient_input tf D interpolated) ;;
  sq <- lift (Tensor.reduce_sum_axes_1_2 (Tensor.map_entries (fun g => g * g)%Q grads)) ;;
  let norm := Tensor.map_entries (tf_sqrt tf) sq in
  let gp := Tensor.reduce_mean (Tensor.map_entries (fun n => (n - 1) ^ 2)%Q norm) in
  ret gp.

(** The block under the first [tf.GradientTape()] of [train_step]:
    the discriminator loss as recorded for variable values [dw]. *)
Definition discriminator_forward (real_data fake_data combined_data desc_labels : Tensor.t)
    (batch_size : nat) (dw : list Tensor.t) : M (Frame t) Q :=
  s <- get_state ;;
  let me := self s in
  predictions <- lift (call (discriminator me) dw None combined_data) ;;
  if use_wgan me then
    fake_logits <- lift (call (discriminator me) dw (Some true) fake_data) ;;
    real_logits <- lift (call (discriminator me) dw (Some true) real_data) ;;
    let d_cost := wgan_discriminator_loss real_logits fake_logits in
    gp <- gradient_penalty dw batch_size real_data fake_data ;;
    ret (d_cost + gp * gp_weight me)%Q
  else
    loss <- getattr (loss_fn me) ;;
    lift (loss desc_labels predictions).

(** The block under the second [tf.GradientTape()]: the generator
    loss as recorded for generator variable values [gw]. *)
Definition generator_forward (random_vector misleading_labels : Tensor.t)
    (gw : list Tensor.t) : M (Frame t) Q :=
  s <- get_state ;;
  let me := self s in
  fake_data <- lift (call (generator me) gw None random_vector) ;;
  predictions <- lift (call (discriminator me)
                         (weights_of (world s) (model_id (discriminator me)))
                         None fake_data) ;;
  if use_wgan me then
    ret (wgan_generator_loss predictions)
  else
    loss <- getattr (loss_fn me) ;;
    lift (loss misleading_labels predictions).

(** The labels of the discriminator batch, as [train_step] builds them. *)
Definition desc_labels (batch_size : nat) : result Tensor.t :=
  Tensor.concat [Tensor.ones [batch_size; 1]; Tensor.zeros [batch_size; 1]] 0.

(** [GAN.train_step] *)
Definition train_step (data : Tensor.t) : M (Frame t) (list (string * Q)) :=
  let real_data := data in
  batch_size <- lift (Tensor.shape0 real_data) ;;
  random_vector <- _get_random_vector_labels batch_size None ;;
  s <- get_state ;;
  fake_data <- lift (call (generator (self s))
                       (weights_of (world s) (model_id (generator (self s))))
                       None random_vector) ;;
  combined_data <- lift (Tensor.concat [fake_data; real_data] 0) ;;
  labels <- lift (desc_labels batch_size) ;;
  s0 <- get_state ;;
  let dw := weights_of (world s0) (model_id (discriminator (self s0))) in
  let recorded_d := discriminator_forward real_data fake_data combined_data labels batch_size in
  d_loss <- recorded_d dw ;;
  grads <- lift (tape_gradient tf (fun w => fst (recorded_d w s0)) dw) ;;
  d_opt <- getattr (d_optimizer (self s0)) ;;
  optimizer_apply_gradients d_opt grads (discriminator (self s0)) ;;
  random_vector <- _get_random_vector_labels batch_size None ;;
  let misleading_labels := Tensor.zeros [batch_size; 1] in
  s1 <- get_state ;;
  let gw := weights_of (world s1) (model_id (generator (self s1))) in
  let recorded_g := generator_forward random_vector misleading_labels in
  g_loss <- recorded_g gw ;;
  grads <- lift (tape_gradient tf (fun w => fst (recorded_g w s1)) gw) ;;
  g_opt <- getattr (g_optimizer (self s1)) ;;
  optimizer_apply_gradients g_opt grads (generator (self s1)) ;;
  modify (with_self (fun o => set_gen_loss_tracker (update_state g_loss (gen_loss_tracker o)) o)) ;;
  modify (with_self (fun o => set_disc_loss_tracker (update_state d_loss (disc_loss_tracker o)) o)) ;;
  s2 <- get_state ;;
  ret (losses_dict (gen_loss_tracker (self s2)) (disc_loss_tracker (self s2))).

(** [GAN.generate] *)
Definition generate (num : nat) : M (Frame t) Tensor.t :=
  random_vector_labels <- _get_random_vector_labels num None ;;
  s <- get_state ;;
  lift (call (generator (self s))
          (weights_of (world s) (model_id (generator (self s))))
          None random_vector_labels).

End WithEngine.

(** What a Python expression of type "GAN or None" evaluates to. *)
Inductive pyvalue : Type :=
| PyNone
| PyGAN (o : t).

Definition tracker_variables (o : t) : list Tensor.t :=
  [Tensor.scalar (total (gen_loss_tracker o)); Tensor.scalar (count (gen_loss_tracker o));
   Tensor.scalar (total (disc_loss_tracker o)); Tensor.scalar (count (disc_loss_tracker o))].

(** [keras.Model.weights] of a GAN: the variables of the tracked
    sub-models in attribute order, then, in the Keras versions that
    count metric variables as weights ([metric_weights]), those of the
    two trackers. *)
Definition keras_weights (metric_weights : bool) (o : t) (w : World) : list Tensor.t :=
  weights_of w (model_id (discriminator o))
  ++ weights_of w (model_id (generator o))
  ++ (if metric_weights then tracker_variables o else []).

(** [keras.Model.get_weights] *)
Definition get_weights (metric_weights : bool) (o : t) (w : World) : list Tensor.t :=
  keras_weights metric_weights o w.

Definition same_shape (p : Tensor.t * Tensor.t) : bool :=
  if list_eq_dec Nat.eq_dec (Tensor.shape (fst p)) (Tensor.shape (snd p)) then true else false.

Definition read_scalar (x : option Tensor.t) (default : Q) : Q :=
  match x with
  | Some v => nth 0 (Tensor.data v) default
  | None => default
  end.

(** [keras.Model.set_weights]: checks the number and the shapes of the
    values, assigns them to the variables, and returns nothing. *)
Definition set_weights (metric_weights : bool) (o : t) (ws : list Tensor.t) (w : World)
    : result pyvalue * (t * World) :=
  let current := keras_weights metric_weights o w in
  if (length ws =? length current) && forallb same_shape (combine ws current) then
    let nd := length (weights_of w (model_id (discriminator o))) in
    let ng := length (weights_of w (model_id (generator o))) in
    let w' := set_weights_of (model_id (generator o)) (Tensor.slice ws nd ng)
                (set_weights_of (model_id (discriminator o)) (firstn nd ws) w) in
    let tr := skipn (nd + ng) ws in
    let o' :=
      if metric_weights then
        set_disc_loss_tracker
          {| total := read_scalar (nth_error tr 2) (total (disc_loss_tracker o));
             count := read_scalar (nth_error tr 3) (count (disc_loss_tracker o)) |}
          (set_gen_loss_tracker
             {| total := read_scalar (nth_error tr 0) (total (gen_loss_tracker o));
                count := read_scalar (nth_error tr 1) (count (gen_loss_tracker o)) |} o)
      else o in
    (Ok PyNone, (o', w'))
  else (Raise ValueError, (o, w)).

(** [GAN.clone].  The local name [copy_model] is bound twice: to the
    new object, then to what [set_weights] returns. *)
Definition clone (metric_weights : bool) : M (Frame t) pyvalue :=
  fun s =>
    let me := self s in
    match __init__ (discriminator me) (generator me) (latent_dim me) false with
    | Raise e => (Raise e, s)
    | Ok copy_model =>
        let '(copy_model, (_, w')) :=
          set_weights metric_weights copy_model (get_weights metric_weights me (world s)) (world s) in
        (copy_model, {| self := me; world := w' |})
    end.

End GAN.

(** ** class ConditionalGAN *)

Module ConditionalGAN.

Local Open Scope py_scope.

Record t : Type := {
  discriminator : Model;
  generator : Model;
  latent_dim : nat;
  _seq_len : option nat;
  gen_loss_tracker : Mean;
  disc_loss_tracker : Mean;
  _temporal : bool;
  d_optimizer : option Optimizer;
  g_optimizer : option Optimizer;
  loss_fn : option (Tensor.t -> Tensor.t -> result Q);
  dp : option bool
}.

Definition set_gen_loss_tracker (m : Mean) (o : t) : t :=
  {| discriminator := discriminator o; generator := generator o;
     latent_dim := latent_dim o; _seq_len := _seq_len o;
     gen_loss_tracker := m; disc_loss_tracker := disc_loss_tracker o;
     _temporal := _temporal o;
     d_optimizer := d_optimizer o; g_optimizer := g_optimizer o;
     loss_fn := loss_fn o; dp := dp o |}.

Definition set_disc_loss_tracker (m : Mean) (o : t) : t :=
  {| discriminator := discriminator o; generator := generator o;
     latent_dim := latent_dim o; _seq_len := _seq_len o;
     gen_loss_tracker := gen_loss_tracker o; disc_loss_tracker := m;
     _temporal := _temporal o;
     d_optimizer := d_optimizer o; g_optimizer := g_optimizer o;
     loss_fn := loss_fn o; dp := dp o |}.

(** [ConditionalGAN.__init__]; the [use_wgan] argument is accepted and
    not stored. *)
Definition __init__ (discriminator generator : Model) (latent_dim : nat)
    (temporal use_wgan : bool) : result t :=
  match nth_error (output_shape generator) 1 with
  | None => Raise IndexError
  | Some seq_len =>
      Ok {| discriminator := discriminator; generator := generator;
            latent_dim := latent_dim; _seq_len := seq_len;
            gen_loss_tracker := Mean_init; disc_loss_tracker := Mean_init;
            _temporal := temporal;
            d_optimizer := None; g_optimizer := None;
            loss_fn := None; dp := None |}
  end.

(** [ConditionalGAN.metrics] *)
Definition metrics (o : t) : list Mean := [gen_loss_tracker o; disc_loss_tracker o].

(** [ConditionalGAN.compile] *)
Definition compile (tf_privacy_available : bool) (d_optimizer g_optimizer : Optimizer)
    (loss_fn : Tensor.t -> Tensor.t -> result Q) : M (Frame t) unit :=
  modify (with_self (fun o =>
    {| discriminator := discriminator o; generator := generator o;
       latent_dim := latent_dim o; _seq_len := _seq_len o;
       gen_loss_tracker := gen_loss_tracker o; disc_loss_tracker := disc_loss_tracker o;
       _temporal := _temporal o;
       d_optimizer := Some d_optimizer; g_optimizer := Some g_optimizer;
       loss_fn := Some loss_fn; dp := dp o |})) ;;
  let generator_dp := _is_dp_optimizer tf_privacy_available d_optimizer in
  let discriminator_dp := _is_dp_optimizer tf_privacy_available g_optimizer in
  (if negb (Bool.eqb generator_dp discriminator_dp)
   then logger_warning (dp_mismatch_message generator_dp discriminator_dp)
   else ret tt) ;;
  modify (with_self (fun o =>
    {| discriminator := discriminator o; generator := generator o;
       latent_dim := latent_dim o; _seq_len := _seq_len o;
       gen_loss_tracker := gen_loss_tracker o; disc_loss_tracker := disc_loss_tracker o;
       _temporal := _temporal o;
       d_optimizer := ConditionalGAN.d_optimizer o;
       g_optimizer := ConditionalGAN.g_optimizer o;
       loss_fn := ConditionalGAN.loss_fn o;
       dp := Some (generator_dp && discriminator_dp) |})).

(** A shape entry that must be a number: [self._seq_len] is [None] when
    the generator declares no static length. *)
Definition as_dim {S} (d : option nat) : M S nat :=
  match d with
  | Some n => ret n
  | None => raise TypeError
  end.

(** [ConditionalGAN._get_random_vector_labels] *)
Definition _get_random_vector_labels (batch_size : nat) (labels : Tensor.t)
    : M (Frame t) Tensor.t :=
  s <- get_state ;;
  let me := self s in
  if _temporal me then
    seq_len <- as_dim (_seq_len me) ;;
    random_latent_vectors <- tf_random_normal [batch_size; seq_len; latent_dim me] 0 1 ;;
    channel <- lift (Tensor.getitem_slice_slice_newaxis labels) ;;
    lift (Tensor.concat [random_latent_vectors; channel] 2)
  else
    random_latent_vectors <- tf_random_normal [batch_size; latent_dim me] 0 1 ;;
    lift (Tensor.concat [random_latent_vectors; labels] 1).

(** [ConditionalGAN._get_output_shape] *)
Definition _get_output_shape (me : t) (labels : Tensor.t) : result nat :=
  if _temporal me then
    if length (Tensor.shape labels) =? 2 then Ok 1
    else Tensor.shape_getitem labels 2
  else Tensor.shape_getitem labels 1.

(** The label channel of [train_step]: the statements from
    [if not self._temporal] to the [tf.reshape]. *)
Definition rep_labels (me : t) (labels : Tensor.t) (output_dim : nat) : result Tensor.t :=
  match (if negb (_temporal me) then
           match Tensor.getitem_slice_slice_newaxis labels, _seq_len me with
           | Ok r, Some seq_len => Ok (Tensor.repeat_flat r seq_len)
           | Ok _, None => Raise TypeError
           | Raise e, _ => Raise e
           end
         else Ok labels), _seq_len me with
  | Ok r, Some seq_len => Tensor.reshape_infer r seq_len output_dim
  | Ok _, None => Raise TypeError
  | Raise e, _ => Raise e
  end.

Definition desc_labels (batch_size : nat) : result Tensor.t :=
  Tensor.concat [Tensor.ones [batch_size; 1]; Tensor.zeros [batch_size; 1]] 0.

Section WithEngine.

Variable tf : Engine.

(** The block under the first [tf.GradientTape()]. *)
Definition discriminator_forward (combined_data labels01 : Tensor.t)
    (dw : list Tensor.t) : M (Frame t) Q :=
  s <- get_state ;;
  let me := self s in
  predictions <- lift (call (discriminator me) dw None combined_data) ;;
  loss <- getattr (loss_fn me) ;;
  lift (loss labels01 predictions).

(** The block under the second [tf.GradientTape()]. *)
Definition generator_forward (random_vector_labels rep misleading_labels : Tensor.t)
    (gw : list Tensor.t) : M (Frame t) Q :=
  s <- get_state ;;
  let me := self s in
  fake_samples <- lift (call (generator me) gw None random_vector_labels) ;;
  fake_data <- lift (Tensor.concat [fake_samples; rep] (-1)) ;;
  predictions <- lift (call (discriminator me)
                         (weights_of (world s) (model_id (discriminator me)))
                         None fake_data) ;;
  loss <- getattr (loss_fn me) ;;
  lift (loss misleading_labels predictions).

(** [ConditionalGAN.train_step] on [data = (real_ts, labels)]. *)
Definition train_step (data : Tensor.t * Tensor.t) : M (Frame t) (list (string * Q)) :=
  let '(real_ts, labels) := data in
  s <- get_state ;;
  output_dim <- lift (_get_output_shape (self s) labels) ;;
  batch_size <- lift (Tensor.shape0 real_ts) ;;
  rep <- lift (rep_labels (self s) labels output_dim) ;;
  random_vector_labels <- _get_random_vector_labels batch_size labels ;;
  s <- get_state ;;
  generated_ts <- lift (call (generator (self s))
                          (weights_of (world s) (model_id (generator (self s))))
                          None random_vector_labels) ;;
  fake_data <- lift (Tensor.concat [generated_ts; rep] (-1)) ;;
  real_data <- lift (Tensor.concat [real_ts; rep] (-1)) ;;
  combined_data <- lift (Tensor.concat [fake_data; real_data] 0) ;;
  labels01 <- lift (desc_labels batch_size) ;;
  s0 <- get_state ;;
  let dw := weights_of (world s0) (model_id (discriminator (self s0))) in
  let recorded_d := discriminator_forward combined_data labels01 in
  d_loss <- recorded_d dw ;;
  is_dp <- getattr (dp (self s0)) ;;
  (if is_dp : bool then
     d_opt <- getattr (d_optimizer (self s0)) ;;
     optimizer_minimize d_opt (fun w => fst (recorded_d w s0)) (discriminator (self s0))
       (tape_gradient tf)
   else
     grads <- lift (tape_gradient tf (fun w => fst (recorded_d w s0)) dw) ;;
     d_opt <- getattr (d_optimizer (self s0)) ;;
     optimizer_apply_gradients d_opt grads (discriminator (self s0))) ;;
  random_vector_labels <- _get_random_vector_labels batch_size labels ;;
  let misleading_labels := Tensor.zeros [batch_size; 1] in
  s1 <- get_state ;;
  let gw := weights_of (world s1) (model_id (generator (self s1))) in
  let recorded_g := generator_forward random_vector_labels rep misleading_labels in
  g_loss <- recorded_g gw ;;
  is_dp <- getattr (dp (self s1)) ;;
  (if is_dp : bool then
     g_opt <- getattr (g_optimizer (self s1)) ;;
     optimizer_minimize g_opt (fun w => fst (recorded_g w s1)) (generator (self s1))
       (tape_gradient tf)
   else
     grads <- lift (tape_gradient tf (fun w => fst (recorded_g w s1)) gw) ;;
     g_opt <- getattr (g_optimizer (self s1)) ;;
     optimizer_apply_gradients g_opt grads (generator (self s1))) ;;
  modify (with_self (fun o => set_gen_loss_tracker (update_state g_loss (gen_loss_tracker o)) o)) ;;
  modify (with_self (fun o => set_disc_loss_tracker (update_state d_loss (disc_loss_tracker o)) o)) ;;
  s2 <- get_state ;;
  ret (losses_dict (gen_loss_tracker (self s2)) (disc_loss_tracker (self s2))).

(** [ConditionalGAN.generate] *)
Definition generate (labels : Tensor.t) : M (Frame t) Tensor.t :=
  batch_size <- lift (Tensor.shape_getitem labels 0) ;;
  random_vector_labels <- _get_random_vector_labels batch_size labels ;;
  s <- get_state ;;
  lift (call (generator (self s))
          (weights_of (world s) (model_id (generator (self s))))
          None random_vector_labels).

End WithEngine.

End ConditionalGAN.

(** ** Test doubles

    Small collaborators on which the methods can be run: a generator that
    fills its output with its first variable, a discriminator that scores
    each sample by its first entry, a loss, an autodiff engine, plain and
    differentially private optimizers, and a store. *)

Module Doubles.

Definition first_entry (ws : list Tensor.t) : Q :=
  match ws with
  | w :: _ => nth 0 (Tensor.data w) 0%Q
  | [] => 0%Q
  end.

(** A generator with output shape (None, seq_len, feat): every entry of
    its output is the first entry of its first variable. *)
Definition filling_generator (id seq_len feat : nat) : Model :=
  {| model_id := id;
     call := fun ws _ x =>
               match Tensor.shape x with
               | b :: _ => Ok (Tensor.mk [b; seq_len; feat]
                                 (repeat (first_entry ws) (b * (seq_len * (feat * 1)))))
               | [] => Raise InvalidArgumentError
               end;
     output_shape := [None; Some seq_len; Some feat] |}.

(** A discriminator with output shape (None, 1): the score of a sample
    is its first entry. *)
Definition head_discriminator (id : nat) : Model :=
  {| model_id := id;
     call := fun _ _ x =>
               match Tensor.shape x with
               | b :: rest =>
                   Ok (Tensor.mk [b; 1]
                         (map (fun i => nth (i * Tensor.numel rest) (Tensor.data x) 0%Q) (seq 0 b)))
               | [] => Raise InvalidArgumentError
               end;
     output_shape := [None; Some 1] |}.

(** A discriminator that rejects every input once its first variable
    has left the value 2. *)
Definition brittle_discriminator (id : nat) : Model :=
  {| model_id := id;
     call := fun ws t x =>
               if Qeq_bool (first_entry ws) 2
               then call (head_discriminator id) ws t x
               else Raise (ExternalError "discriminator");
     output_shape := [None; Some 1] |}.

(** The sum of the scores of the samples labelled 1. *)
Definition dot_loss (labels predictions : Tensor.t) : result Q :=
  if length (Tensor.data labels) =? length (Tensor.data predictions)
  then Ok (Tensor.sumQ (map (fun p => (fst p * snd p)%Q)
                          (combine (Tensor.data labels) (Tensor.data predictions))))
  else Raise InvalidArgumentError.

Definition sqrt_floor (q : Q) : Q := Qmake (Z.sqrt (Qnum q)) (Pos.sqrt (Qden q)).

(** Every variable gets the gradient 1 in each entry; the gradient of a
    model with respect to its input is the input itself, as it is for
    the model that maps x to half its squared norm. *)
Definition engine : Engine :=
  {| tape_gradient := fun loss ws =>
       match loss ws with
       | Ok _ => Ok (map (fun w => Some (Tensor.ones (Tensor.shape w))) ws)
       | Raise e => Raise e
       end;
     tape_gradient_input := fun _ x => Ok x;
     tf_sqrt := sqrt_floor |}.

Definition descend (gv : option Tensor.t * Tensor.t) : Tensor.t :=
  match fst gv with
  | Some g => Tensor.mk (Tensor.shape (snd gv))
                (map (fun p => (fst p - snd p)%Q) (combine (Tensor.data (snd gv)) (Tensor.data g)))
  | None => snd gv
  end.

(** Gradient descent with learning rate 1 under a given class hierarchy;
    [minimize] takes its gradients from the tape it is handed. *)
Definition sgd_with_mro (id : nat) (classes : list string) : Optimizer :=
  {| optimizer_id := id;
     mro := classes;
     apply_gradients := fun sl gv => (Ok tt, (sl, map descend gv));
     minimize := fun sl loss vars tape =>
       match tape loss vars with
       | Ok grads => (Ok tt, (sl, map descend (combine grads vars)))
       | Raise e => (Raise e, (sl, vars))
       end |}.

Definition plain_sgd (id : nat) : Optimizer :=
  sgd_with_mro id ["SGD"; "OptimizerV2"; "Trackable"; "object"]%string.

Definition dp_sgd (id : nat) : Optimizer :=
  sgd_with_mro id ["DPKerasSGDOptimizer"; "SGD"; "OptimizerV2"; "Trackable"; "object"]%string.

Definition dp_adam (id : nat) : Optimizer :=
  sgd_with_mro id ["DPKerasAdamOptimizer"; "Adam"; "OptimizerV2"; "Trackable"; "object"]%string.

(** An optimizer whose [apply_gradients] raises, as Keras does when it
    is given no gradient at all. *)
Definition refusing_optimizer (id : nat) : Optimizer :=
  {| optimizer_id := id;
     mro := ["SGD"; "OptimizerV2"; "Trackable"; "object"]%string;
     apply_gradients := fun sl gv => (Raise ValueError, (sl, map snd gv));
     minimize := fun sl _ vars _ => (Raise ValueError, (sl, vars)) |}.

(** Generator variables (id 0) start at 7, discriminator variables
    (id 1) at 2; normal draws are 3/2 and uniform draws sit at the lower
    end of their interval. *)
Definition world0 : World :=
  {| weights_of := fun id => if id =? 0 then [Tensor.scalar 7] else [Tensor.scalar 2];
     slots_of := fun _ => [];
     entropy := fun d _ => match d with
                           | Normal _ _ => (3 # 2)%Q
                           | Uniform lo _ => lo
                           end;
     rng_counter := 0;
     records := [] |}.

Definition gan0 (wgan : bool) (D : Model) (d_opt g_opt : Optimizer) : GAN.t :=
  {| GAN.discriminator := D;
     GAN.generator := filling_generator 0 2 1;
     GAN.latent_dim := 3;
     GAN._seq_len := Some 2;
     GAN.use_wgan := wgan;
     GAN.gp_weight := 10%Q;
     GAN.gen_loss_tracker := Mean_init;
     GAN.disc_loss_tracker := Mean_init;
     GAN.d_optimizer := Some d_opt;
     GAN.g_optimizer := Some g_opt;
     GAN.loss_fn := Some dot_loss;
     GAN.dp := Some false |}.

Definition cgan0 (temporal is_dp : bool) (D : Model) (d_opt g_opt : Optimizer)
    : ConditionalGAN.t :=
  {| ConditionalGAN.discriminator := D;
     ConditionalGAN.generator := filling_generator 0 2 1;
     ConditionalGAN.latent_dim := 3;
     ConditionalGAN._seq_len := Some 2;
     ConditionalGAN.gen_loss_tracker := Mean_init;
     ConditionalGAN.disc_loss_tracker := Mean_init;
     ConditionalGAN._temporal := temporal;
     ConditionalGAN.d_optimizer := Some d_opt;
     ConditionalGAN.g_optimizer := Some g_opt;
     ConditionalGAN.loss_fn := Some dot_loss;
     ConditionalGAN.dp := Some is_dp |}.

Definition plain_gan (wgan : bool) : GAN.t :=
  gan0 wgan (head_discriminator 1) (plain_sgd 10) (plain_sgd 11).

Definition plain_cgan (temporal : bool) : ConditionalGAN.t :=
  cgan0 temporal false (head_discriminator 1) (plain_sgd 10) (plain_sgd 11).

(** One real sequence of length 2 with one feature: [[[9], [9]]]. *)
Definition real_batch : Tensor.t := Tensor.mk [1; 2; 1] [9%Q; 9%Q].

End Doubles.

(** ** Vocabulary of the properties *)

(** An optimizer of one of the three differentially private classes. *)
Definition dp_flavored (o : Optimizer) : bool :=
  isinstance o "DPKerasAdagradOptimizer"
  || isinstance o "DPKerasAdamOptimizer"
  || isinstance o "DPKerasSGDOptimizer".

(** The record the mismatch warning leaves in the log. *)
Definition dp_warning (generator_dp discriminator_dp : bool) : LogRecord :=
  {| levelno := WARNING; msg := dp_mismatch_message generator_dp discriminator_dp |}.

(** The store right after an optimizer has stepped the variables of [m]. *)
Definition after_optimizer (opt : Optimizer) (m : Model) (sl vals : list Tensor.t)
    (w : World) : World :=
  set_weights_of (model_id m) (write_back vals (weights_of w (model_id m)))
    (set_slots_of (optimizer_id opt) sl w).

(** A computation that never assigns to an attribute of [self]. *)
Definition keeps_self {Self A} (m : M (Frame Self) A) : Prop :=
  forall s r s', m s = (r, s') -> self s' = self s.

(** A computation whose effect on [self] is described by [R], whatever
    the store it starts from. *)
Definition self_spec {Self A} (R : Self -> result A -> Self -> Prop)
    (m : M (Frame Self) A) : Prop :=
  forall s r s', m s = (r, s') -> R (self s) r (self s').

(** Every number the generator yields lies in the support of the
    distribution it was asked for. *)
Definition faithful_entropy (w : World) : Prop :=
  forall d n, in_support d (entropy w d n).

(** The value of a call that returned, [d] had it raised. *)
Definition returned {A} (r : result A) (d : A) : A :=
  match r with
  | Ok a => a
  | Raise _ => d
  end.

(** Sample [i] of a batch: the entries under index [i] of the first axis. *)
Definition sample (x : Tensor.t) (i : nat) : list Q :=
  Tensor.slice (Tensor.data x)
    (i * Tensor.numel (tl (Tensor.shape x))) (Tensor.numel (tl (Tensor.shape x))).

Definition gan_frame (wgan : bool) : Frame GAN.t :=
  {| self := Doubles.plain_gan wgan; world := Doubles.world0 |}.

Definition gan_frame0 : Frame GAN.t := gan_frame false.

Definition cgan_frame (temporal : bool) : Frame ConditionalGAN.t :=
  {| self := Doubles.plain_cgan temporal; world := Doubles.world0 |}.

Definition cgan_frame0 : Frame ConditionalGAN.t := cgan_frame false.

(** What one training step may do to the trainer: nothing when it
    raises; when it returns, one [update_state] on each tracker, with the
    losses of the step, and the dict of the two running means. *)
Definition gan_step_effect (o : GAN.t) (r : result (list (string * Q))) (o' : GAN.t) : Prop :=
  match r with
  | Raise _ => o' = o
  | Ok d =>
      exists g_loss d_loss,
        o' = GAN.set_disc_loss_tracker (update_state d_loss (GAN.disc_loss_tracker o))
               (GAN.set_gen_loss_tracker (update_state g_loss (GAN.gen_loss_tracker o)) o)
        /\ d = losses_dict (update_state g_loss (GAN.gen_loss_tracker o))
                 (update_state d_loss (GAN.disc_loss_tracker o))
  end.

Definition cgan_step_effect (o : ConditionalGAN.t) (r : result (list (string * Q)))
    (o' : ConditionalGAN.t) : Prop :=
  match r with
  | Raise _ => o' = o
  | Ok d =>
      exists g_loss d_loss,
        o' = ConditionalGAN.set_disc_loss_tracker
               (update_state d_loss (ConditionalGAN.disc_loss_tracker o))
               (ConditionalGAN.set_gen_loss_tracker
                  (update_state g_loss (ConditionalGAN.gen_loss_tracker o)) o)
        /\ d = losses_dict (update_state g_loss (ConditionalGAN.gen_loss_tracker o))
                 (update_state d_loss (ConditionalGAN.disc_loss_tracker o))
  end.

(** Trainers whose discriminator raises once its variable has moved. *)
Definition brittle_gan_frame : Frame GAN.t :=
  {| self := Doubles.gan0 false (Doubles.brittle_discriminator 1)
               (Doubles.plain_sgd 10) (Doubles.plain_sgd 11);
     world := Doubles.world0 |}.

Definition brittle_cgan_frame : Frame ConditionalGAN.t :=
  {| self := Doubles.cgan0 false false (Doubles.brittle_discriminator 1)
               (Doubles.plain_sgd 10) (Doubles.plain_sgd 11);
     world := Doubles.world0 |}.

(** One label per sample, for a batch of one sample. *)
Definition one_label : Tensor.t := Tensor.mk [1; 1] [5%Q].

(** [Q] holds of the outcome of [m] run from [s]. *)
Definition wp {S A} (m : M S A) (Q : result A -> S -> Prop) (s : S) : Prop :=
  Q (fst (m s)) (snd (m s)).

(** ** Vocabulary of the further properties *)

(** The attributes of the unconditional trainer that [__init__] fixes. *)
Definition gan_architecture (o : GAN.t)
    : Model * Model * nat * option nat * bool * Q :=
  (GAN.discriminator o, GAN.generator o, GAN.latent_dim o, GAN._seq_len o,
   GAN.use_wgan o, GAN.gp_weight o).

(** The attributes of the conditional trainer that [__init__] fixes. *)
Definition cgan_architecture (o : ConditionalGAN.t)
    : Model * Model * nat * option nat * bool :=
  (ConditionalGAN.discriminator o, ConditionalGAN.generator o,
   ConditionalGAN.latent_dim o, ConditionalGAN._seq_len o, ConditionalGAN._temporal o).

(** The ids of the optimizers bound to a trainer, if any. *)
Definition bound_optimizer_ids (d g : option Optimizer) : list nat :=
  match d with Some x => [optimizer_id x] | None => [] end
  ++ match g with Some x => [optimizer_id x] | None => [] end.

(** What a method may do to the store when it only steps the models in
    [models] with the optimizers in [optimizers] and draws random
    numbers: every other variable and slot, the random source and the log
    are as before, and the draw counter has not gone back. *)
Definition world_frame (models optimizers : list nat) (w w' : World) : Prop :=
  (forall id, ~ In id models -> weights_of w' id = weights_of w id)
  /\ (forall id, ~ In id optimizers -> slots_of w' id = slots_of w id)
  /\ entropy w' = entropy w
  /\ rng_counter w <= rng_counter w'
  /\ records w' = records w.

(** The two losses a training step of the unconditional trainer computes
    from [s]: [d_loss] is what the discriminator block returns on the
    first fake batch, [g_loss] what the generator block returns on a
    second latent, in the store the optimizer of the discriminator has
    left. *)
Definition gan_losses_of_step (tf : Engine) (data : Tensor.t) (s : Frame GAN.t)
    (d_loss g_loss : Q) : Prop :=
  exists bs fake combined labels s_f grads_d d_opt sl vals,
    let o := self s in
    let D := GAN.discriminator o in
    let G := GAN.generator o in
    let s1 := with_world (advance_rng (Tensor.numel [bs; GAN.latent_dim o])) s in
    let dw := weights_of (world s) (model_id D) in
    let s_d := {| self := o; world := after_optimizer d_opt D sl vals (world s_f) |} in
    let s2 := with_world (advance_rng (Tensor.numel [bs; GAN.latent_dim o])) s_d in
    let z2 := draw (Normal 0 1) [bs; GAN.latent_dim o] (world s_d) in
    let gw := weights_of (world s_d) (model_id G) in
    Tensor.shape0 data = Ok bs
    /\ call G (weights_of (world s) (model_id G)) None
         (draw (Normal 0 1) [bs; GAN.latent_dim o] (world s)) = Ok fake
    /\ Tensor.concat [fake; data] 0 = Ok combined
    /\ GAN.desc_labels bs = Ok labels
    /\ GAN.discriminator_forward tf data fake combined labels bs dw s1 = (Ok d_loss, s_f)
    /\ tape_gradient tf
         (fun w => fst (GAN.discriminator_forward tf data fake combined labels bs w s1)) dw
       = Ok grads_d
    /\ GAN.d_optimizer o = Some d_opt
    /\ apply_gradients d_opt (slots_of (world s_f) (optimizer_id d_opt))
         (combine grads_d (weights_of (world s_f) (model_id D))) = (Ok tt, (sl, vals))
    /\ GAN.generator_forward z2 (Tensor.zeros [bs; 1]) gw s2 = (Ok g_loss, s2).

(** The same for the conditional trainer, whose optimizers step through
    [minimize] when [dp] is set and through [apply_gradients] otherwise. *)
Definition cgan_losses_of_step (tf : Engine) (real_ts labels : Tensor.t)
    (c : Frame ConditionalGAN.t) (d_loss g_loss : Q) : Prop :=
  exists output_dim bs rep z c1 generated fake_data real_data combined labels01
         is_dp d_opt sl vals z2 c3,
    let o := self c in
    let D := ConditionalGAN.discriminator o in
    let G := ConditionalGAN.generator o in
    let dw := weights_of (world c1) (model_id D) in
    let recorded_d :=
      fun w => fst (ConditionalGAN.discriminator_forward combined labels01 w c1) in
    let c2 := {| self := o; world := after_optimizer d_opt D sl vals (world c1) |} in
    ConditionalGAN._get_output_shape o labels = Ok output_dim
    /\ Tensor.shape0 real_ts = Ok bs
    /\ ConditionalGAN.rep_labels o labels output_dim = Ok rep
    /\ ConditionalGAN._get_random_vector_labels bs labels c = (Ok z, c1)
    /\ call G (weights_of (world c1) (model_id G)) None z = Ok generated
    /\ Tensor.concat [generated; rep] (-1) = Ok fake_data
    /\ Tensor.concat [real_ts; rep] (-1) = Ok real_data
    /\ Tensor.concat [fake_data; real_data] 0 = Ok combined
    /\ ConditionalGAN.desc_labels bs = Ok labels01
    /\ recorded_d dw = Ok d_loss
    /\ ConditionalGAN.dp o = Some is_dp
    /\ ConditionalGAN.d_optimizer o = Some d_opt
    /\ (if is_dp
        then minimize d_opt (slots_of (world c1) (optimizer_id d_opt)) recorded_d dw
               (tape_gradient tf) = (Ok tt, (sl, vals))
        else exists grads,
               tape_gradient tf recorded_d dw = Ok grads
               /\ apply_gradients d_opt (slots_of (world c1) (optimizer_id d_opt))
                    (combine grads dw) = (Ok tt, (sl, vals)))
    /\ ConditionalGAN._get_random_vector_labels bs labels c2 = (Ok z2, c3)
    /\ fst (ConditionalGAN.generator_forward z2 rep (Tensor.zeros [bs; 1])
              (weights_of (world c3) (model_id G)) c3) = Ok g_loss.




(** * Properties *)

Unset Implicit Arguments.

(** ** Reasoning about the monad *)

Lemma bind_ok {S A B} (m : M S A) (k : A -> M S B) s a s' :
  m s = (Ok a, s') -> bind m k s = k a s'.
Proof. unfold bind. intros ->. reflexivity. Qed.

Lemma bind_raise {S A B} (m : M S A) (k : A -> M S B) s e s' :
  m s = (Raise e, s') -> bind m k s = (Raise e, s').
Proof. unfold bind. intros ->. reflexivity. Qed.

Lemma bind_inv_ok {S A B} (m : M S A) (k : A -> M S B) s b s' :
  bind m k s = (Ok b, s') ->
  exists a s1, m s = (Ok a, s1) /\ k a s1 = (Ok b, s').
Proof.
  unfold bind. destruct (m s) as [[a | e] s1]; intros H.
  - exists a, s1. split; [reflexivity | exact H].
  - discriminate H.
Qed.

Lemma bind_inv_raise {S A B} (m : M S A) (k : A -> M S B) s e s' :
  bind m k s = (Raise e, s') ->
  m s = (Raise e, s') \/ exists a s1, m s = (Ok a, s1) /\ k a s1 = (Raise e, s').
Proof.
  unfold bind. destruct (m s) as [[a | e0] s1]; intros H.
  - right. exists a, s1. split; [reflexivity | exact H].
  - left. injection H as -> ->. reflexivity.
Qed.

Lemma lift_inv {S A} (r r' : result A) (s s' : S) :
  lift r s = (r', s') -> r = r' /\ s' = s.
Proof. unfold lift. intros [= -> ->]. auto. Qed.

Lemma get_state_inv {S} (r : result S) (s s' : S) :
  get_state s = (r, s') -> r = Ok s /\ s' = s.
Proof. unfold get_state. intros [= <- <-]. auto. Qed.

Lemma ret_inv {S A} (a : A) (r : result A) (s s' : S) :
  ret a s = (r, s') -> r = Ok a /\ s' = s.
Proof. unfold ret. intros [= <- <-]. auto. Qed.

Lemma modify_inv {S} (f : S -> S) (r : result unit) (s s' : S) :
  modify f s = (r, s') -> r = Ok tt /\ s' = f s.
Proof. unfold modify. intros [= <- <-]. auto. Qed.

Lemma getattr_inv {S A} (o : option A) (a : A) (s s' : S) :
  getattr o s = (Ok a, s') -> o = Some a /\ s' = s.
Proof. destruct o; cbn; intros [= <- <-]; auto. Qed.

Lemma tf_random_inv {Self} d sh (r : result Tensor.t) (s s' : Frame Self) :
  tf_random d sh s = (r, s') ->
  r = Ok (draw d sh (world s)) /\ s' = with_world (advance_rng (Tensor.numel sh)) s.
Proof. unfold tf_random. intros [= <- <-]. auto. Qed.

Lemma optimizer_apply_gradients_inv {Self} opt grads m (r : result unit) (s s' : Frame Self) :
  optimizer_apply_gradients opt grads m s = (r, s') ->
  exists sl vals,
    apply_gradients opt (slots_of (world s) (optimizer_id opt))
      (combine grads (weights_of (world s) (model_id m))) = (r, (sl, vals))
    /\ s' = {| self := self s; world := after_optimizer opt m sl vals (world s) |}.
Proof.
  unfold optimizer_apply_gradients.
  destruct (apply_gradients _ _ _) as [r0 [sl vals]]. intros [= <- <-].
  exists sl, vals. split; reflexivity.
Qed.

Lemma optimizer_minimize_inv {Self} opt loss m tape (r : result unit) (s s' : Frame Self) :
  optimizer_minimize opt loss m tape s = (r, s') ->
  exists sl vals,
    minimize opt (slots_of (world s) (optimizer_id opt)) loss
      (weights_of (world s) (model_id m)) tape = (r, (sl, vals))
    /\ s' = {| self := self s; world := after_optimizer opt m sl vals (world s) |}.
Proof.
  unfold optimizer_minimize.
  destruct (minimize _ _ _ _ _) as [r0 [sl vals]]. intros [= <- <-].
  exists sl, vals. split; reflexivity.
Qed.

(** *** Computations that leave [self] alone *)

Create HintDb keeps discriminated.

Lemma keeps_self_bind {Self A B} (m : M (Frame Self) A) (k : A -> M (Frame Self) B) :
  keeps_self m -> (forall a, keeps_self (k a)) -> keeps_self (bind m k).
Proof.
  intros Hm Hk s r s' H. unfold bind in H.
  destruct (m s) as [[a | e] s1] eqn:E.
  - rewrite (Hk a _ _ _ H). exact (Hm _ _ _ E).
  - injection H as <- <-. exact (Hm _ _ _ E).
Qed.

Lemma keeps_self_lift {Self A} (r : result A) : keeps_self (Self := Self) (lift r).
Proof. intros s r' s' [= _ <-]. reflexivity. Qed.

Lemma keeps_self_ret {Self A} (a : A) : keeps_self (Self := Self) (ret a).
Proof. intros s r' s' [= _ <-]. reflexivity. Qed.

Lemma keeps_self_raise {Self A} (e : exn) : keeps_self (Self := Self) (A := A) (raise e).
Proof. intros s r' s' [= _ <-]. reflexivity. Qed.

Lemma keeps_self_get_state {Self} : keeps_self (Self := Self) get_state.
Proof. intros s r' s' [= _ <-]. reflexivity. Qed.

Lemma keeps_self_getattr {Self A} (o : option A) : keeps_self (Self := Self) (getattr o).
Proof. destruct o; [apply keeps_self_ret | apply keeps_self_raise]. Qed.

Lemma keeps_self_as_dim {Self} (o : option nat) :
  keeps_self (Self := Self) (ConditionalGAN.as_dim o).
Proof. destruct o; [apply keeps_self_ret | apply keeps_self_raise]. Qed.

Lemma keeps_self_tf_random {Self} d sh : keeps_self (Self := Self) (tf_random d sh).
Proof. intros s r' s' [= _ <-]. reflexivity. Qed.

Lemma keeps_self_tf_random_normal {Self} sh mean stddev :
  keeps_self (Self := Self) (tf_random_normal sh mean stddev).
Proof. apply keeps_self_tf_random. Qed.

Lemma keeps_self_logger_warning {Self} m : keeps_self (Self := Self) (logger_warning m).
Proof. intros s r' s' [= _ <-]. reflexivity. Qed.

Lemma keeps_self_apply_gradients {Self} opt grads m :
  keeps_self (Self := Self) (optimizer_apply_gradients opt grads m).
Proof.
  intros s r s' H. apply optimizer_apply_gradients_inv in H.
  destruct H as (sl & vals & _ & ->). reflexivity.
Qed.

Lemma keeps_self_minimize {Self} opt loss m tape :
  keeps_self (Self := Self) (optimizer_minimize opt loss m tape).
Proof.
  intros s r s' H. apply optimizer_minimize_inv in H.
  destruct H as (sl & vals & _ & ->). reflexivity.
Qed.

Lemma keeps_self_if {Self A} (b : bool) (m1 m2 : M (Frame Self) A) :
  keeps_self m1 -> keeps_self m2 -> keeps_self (if b then m1 else m2).
Proof. destruct b; auto. Qed.

#[local] Hint Resolve keeps_self_lift keeps_self_ret keeps_self_raise keeps_self_get_state
  keeps_self_getattr keeps_self_as_dim keeps_self_tf_random keeps_self_tf_random_normal
  keeps_self_logger_warning keeps_self_apply_gradients keeps_self_minimize : keeps.

(** Walks down a block of binds and branches whose parts all keep [self]. *)
Ltac keeps_self_blocks :=
  repeat first
    [ progress cbv beta zeta
    | solve [auto with keeps]
    | apply keeps_self_if
    | apply keeps_self_bind; [| intros ?] ].

(** A prefix that keeps [self] may be skipped when describing what a
    computation does to [self], provided the description accepts a
    failure that changed nothing. *)
Lemma self_spec_bind {Self A B} (R : Self -> result B -> Self -> Prop)
    (m : M (Frame Self) A) (k : A -> M (Frame Self) B) :
  (forall o e, R o (Raise e) o) ->
  keeps_self m -> (forall a, self_spec R (k a)) -> self_spec R (bind m k).
Proof.
  intros Hfail Hm Hk s r s' H. unfold bind in H.
  destruct (m s) as [[a | e] s1] eqn:E.
  - rewrite <- (Hm _ _ _ E). exact (Hk a _ _ _ H).
  - injection H as <- <-. rewrite (Hm _ _ _ E). apply Hfail.
Qed.

Lemma self_spec_if {Self A} (R : Self -> result A -> Self -> Prop)
    (b : bool) (m1 m2 : M (Frame Self) A) :
  self_spec R m1 -> self_spec R m2 -> self_spec R (if b then m1 else m2).
Proof. destruct b; auto. Qed.

(** ** Output-shape inference *)

Section OutputShape.

Import ConditionalGAN.

Variable me : ConditionalGAN.t.
Variable labels : Tensor.t.

(** C9. [_get_output_shape] returns 1 for a 2-D label tensor when the
    trainer is temporal, the third dimension of a 3-D label tensor when
    temporal, and the second dimension of the label tensor when not
    temporal. *)
Theorem get_output_shape_cases :
  (_temporal me = true -> Tensor.rank labels = 2 ->
   _get_output_shape me labels = Ok 1)
  /\ (_temporal me = true -> forall d0 d1 d2, Tensor.shape labels = [d0; d1; d2] ->
      _get_output_shape me labels = Ok d2)
  /\ (_temporal me = false -> forall d0 d1 rest, Tensor.shape labels = d0 :: d1 :: rest ->
      _get_output_shape me labels = Ok d1).
Proof.
  unfold _get_output_shape, Tensor.shape_getitem, Tensor.rank.
  repeat split.
  - intros -> ->. reflexivity.
  - intros -> d0 d1 d2 ->. reflexivity.
  - intros -> d0 d1 rest ->. reflexivity.
Qed.

End OutputShape.

Lemma get_output_shape_cases_witness :
  ConditionalGAN._get_output_shape (Doubles.plain_cgan true) (Tensor.zeros [4; 2]) = Ok 1
  /\ ConditionalGAN._get_output_shape (Doubles.plain_cgan true) (Tensor.zeros [4; 2; 5]) = Ok 5
  /\ ConditionalGAN._get_output_shape (Doubles.plain_cgan false) (Tensor.zeros [4; 5]) = Ok 5.
Proof.
  split; [| split].
  - apply (proj1 (get_output_shape_cases (Doubles.plain_cgan true) (Tensor.zeros [4; 2])));
      reflexivity.
  - apply (proj1 (proj2 (get_output_shape_cases (Doubles.plain_cgan true) (Tensor.zeros [4; 2; 5])))
             eq_refl 4 2 5).
    reflexivity.
  - apply (proj2 (proj2 (get_output_shape_cases (Doubles.plain_cgan false) (Tensor.zeros [4; 5])))
             eq_refl 4 5 []).
    reflexivity.
Defined.

(** ** The unconditional latent vector *)

(** C10. [GAN._get_random_vector_labels] does not look at [labels]:
    whatever is passed, [None] included, the call returns the same
    standard-normal draw of shape (batch_size, latent_dim) and leaves the
    same store. *)
Theorem gan_random_vector_ignores_labels
    (batch_size : nat) (labels labels' : option Tensor.t) (s : Frame GAN.t) :
  GAN._get_random_vector_labels batch_size labels s
  = GAN._get_random_vector_labels batch_size labels' s
  /\ exists x,
       fst (GAN._get_random_vector_labels batch_size labels s) = Ok x
       /\ x = draw (Normal 0 1) [batch_size; GAN.latent_dim (self s)] (world s)
       /\ Tensor.shape x = [batch_size; GAN.latent_dim (self s)]
       /\ Tensor.well_formed x.
Proof.
  split; [reflexivity |].
  eexists. split; [reflexivity |]. split; [reflexivity |]. split; [reflexivity |].
  unfold Tensor.well_formed, draw. cbn [Tensor.data Tensor.shape].
  rewrite length_map, length_seq. reflexivity.
Qed.

(** ** Differential-privacy detection in [compile] *)

Lemma is_dp_optimizer_available (o : Optimizer) :
  _is_dp_optimizer true o = dp_flavored o.
Proof. reflexivity. Qed.

Lemma is_dp_optimizer_unavailable (o : Optimizer) :
  _is_dp_optimizer false o = false.
Proof. reflexivity. Qed.

Lemma gan_compile_run avail d g loss (s : Frame GAN.t) :
  let a := _is_dp_optimizer avail d in
  let b := _is_dp_optimizer avail g in
  fst (GAN.compile avail d g loss s) = Ok tt
  /\ GAN.dp (self (snd (GAN.compile avail d g loss s))) = Some (a && b)
  /\ records (world (snd (GAN.compile avail d g loss s)))
     = records (world s) ++ (if Bool.eqb a b then [] else [dp_warning a b]).
Proof.
  intros a b. unfold GAN.compile, bind, modify, logger_warning, ret.
  fold a b. destruct (Bool.eqb a b); cbn; rewrite ?app_nil_r; auto.
Qed.

Lemma cgan_compile_run avail d g loss (s : Frame ConditionalGAN.t) :
  let a := _is_dp_optimizer avail d in
  let b := _is_dp_optimizer avail g in
  fst (ConditionalGAN.compile avail d g loss s) = Ok tt
  /\ ConditionalGAN.dp (self (snd (ConditionalGAN.compile avail d g loss s))) = Some (a && b)
  /\ records (world (snd (ConditionalGAN.compile avail d g loss s)))
     = records (world s) ++ (if Bool.eqb a b then [] else [dp_warning a b]).
Proof.
  intros a b. unfold ConditionalGAN.compile, bind, modify, logger_warning, ret.
  fold a b. destruct (Bool.eqb a b); cbn; rewrite ?app_nil_r; auto.
Qed.

(** C5. After [compile] on either trainer, [dp] is true exactly when the
    DP check holds of both optimizers, and with the privacy extension
    available the check holds exactly of the instances of the three DP
    optimizer classes.  When the check differs on the two optimizers a
    warning is logged, no exception is raised and [dp] is false.  Without
    the extension the check is false of every optimizer and [dp] is
    false. *)
Theorem compile_dp_flag
    (avail : bool) (d g : Optimizer) (loss : Tensor.t -> Tensor.t -> result Q)
    (s : Frame GAN.t) (c : Frame ConditionalGAN.t) :
  let a := _is_dp_optimizer avail d in
  let b := _is_dp_optimizer avail g in
  let s' := GAN.compile avail d g loss s in
  let c' := ConditionalGAN.compile avail d g loss c in
  (fst s' = Ok tt /\ fst c' = Ok tt)
  /\ (GAN.dp (self (snd s')) = Some true <-> a = true /\ b = true)
  /\ (ConditionalGAN.dp (self (snd c')) = Some true <-> a = true /\ b = true)
  /\ (avail = true -> a = dp_flavored d /\ b = dp_flavored g)
  /\ (a <> b ->
      records (world (snd s')) = records (world s) ++ [dp_warning a b]
      /\ records (world (snd c')) = records (world c) ++ [dp_warning a b]
      /\ GAN.dp (self (snd s')) = Some false
      /\ ConditionalGAN.dp (self (snd c')) = Some false)
  /\ (a = b ->
      records (world (snd s')) = records (world s)
      /\ records (world (snd c')) = records (world c))
  /\ (avail = false ->
      (forall o, _is_dp_optimizer avail o = false)
      /\ GAN.dp (self (snd s')) = Some false
      /\ ConditionalGAN.dp (self (snd c')) = Some false).
Proof.
  intros a b s' c'.
  destruct (gan_compile_run avail d g loss s) as (Hr & Hdp & Hlog).
  destruct (cgan_compile_run avail d g loss c) as (Hr' & Hdp' & Hlog').
  fold a b in Hdp, Hlog, Hdp', Hlog'. fold s' in Hr, Hdp, Hlog. fold c' in Hr', Hdp', Hlog'.
  assert (Hav : avail = true -> a = dp_flavored d /\ b = dp_flavored g)
    by (intros ->; split; reflexivity).
  assert (Hoff : avail = false -> (forall o, _is_dp_optimizer avail o = false)
                                  /\ a = false /\ b = false)
    by (intros ->; repeat split; reflexivity).
  clearbody s' c' a b.
  split; [split; assumption |].
  split; [rewrite Hdp; destruct a, b; cbn; intuition congruence |].
  split; [rewrite Hdp'; destruct a, b; cbn; intuition congruence |].
  split; [exact Hav |].
  split.
  { intros Hab. rewrite Hlog, Hlog', Hdp, Hdp'.
    destruct a, b; try congruence; cbn; auto. }
  split.
  { intros Hab. rewrite Hlog, Hlog', Hab, Bool.eqb_reflx, !app_nil_r. auto. }
  intros Hno. destruct (Hoff Hno) as (Hall & -> & ->).
  rewrite Hdp, Hdp'. cbn. auto.
Qed.

Lemma compile_dp_flag_witness :
  (* one DP optimizer, one plain: a warning, and dp is false *)
  (records (world (snd (GAN.compile true (Doubles.dp_sgd 10) (Doubles.plain_sgd 11)
                          Doubles.dot_loss gan_frame0)))
   = [dp_warning true false]
   /\ GAN.dp (self (snd (GAN.compile true (Doubles.dp_sgd 10) (Doubles.plain_sgd 11)
                           Doubles.dot_loss gan_frame0))) = Some false)
  (* two DP optimizers: no warning, and dp is true *)
  /\ (records (world (snd (GAN.compile true (Doubles.dp_sgd 10) (Doubles.dp_adam 11)
                             Doubles.dot_loss gan_frame0))) = []
      /\ GAN.dp (self (snd (GAN.compile true (Doubles.dp_sgd 10) (Doubles.dp_adam 11)
                              Doubles.dot_loss gan_frame0))) = Some true)
  (* no privacy extension: dp is false *)
  /\ ConditionalGAN.dp (self (snd (ConditionalGAN.compile false (Doubles.dp_sgd 10)
                                     (Doubles.dp_adam 11) Doubles.dot_loss cgan_frame0)))
     = Some false.
Proof.
  split; [| split].
  - destruct (compile_dp_flag true (Doubles.dp_sgd 10) (Doubles.plain_sgd 11)
                Doubles.dot_loss gan_frame0 cgan_frame0)
      as (_ & _ & _ & _ & Hmis & _ & _).
    destruct Hmis as (Hlog & _ & Hdp & _); [vm_compute; discriminate |].
    split; [exact Hlog | exact Hdp].
  - destruct (compile_dp_flag true (Doubles.dp_sgd 10) (Doubles.dp_adam 11)
                Doubles.dot_loss gan_frame0 cgan_frame0)
      as (_ & Hiff & _ & Hav & _ & Hsame & _).
    destruct (Hav eq_refl) as [_ _].
    destruct Hsame as (Hlog & _); [reflexivity |].
    split; [exact Hlog |].
    apply (proj2 Hiff). split; reflexivity.
  - destruct (compile_dp_flag false (Doubles.dp_sgd 10) (Doubles.dp_adam 11)
                Doubles.dot_loss gan_frame0 cgan_frame0)
      as (_ & _ & _ & _ & _ & _ & Hoff).
    destruct (Hoff eq_refl) as (_ & _ & Hdp). exact Hdp.
Defined.

(** ** [clone] *)

Section Clone.

Import GAN.

Lemma same_shape_refl (x : Tensor.t) : same_shape (x, x) = true.
Proof.
  unfold same_shape. cbn.
  destruct (list_eq_dec Nat.eq_dec (Tensor.shape x) (Tensor.shape x)); congruence.
Qed.

Lemma same_shape_common_prefix (l a b : list Tensor.t) :
  forallb same_shape (combine (l ++ a) (l ++ b)) = forallb same_shape (combine a b).
Proof.
  induction l as [| x l IH]; [reflexivity |].
  cbn [app combine forallb]. rewrite same_shape_refl, IH. reflexivity.
Qed.

Lemma init_keeps_models D G n wgan o :
  __init__ D G n wgan = Ok o ->
  discriminator o = D /\ generator o = G.
Proof.
  unfold __init__. destruct (nth_error (output_shape G) 1); [| discriminate].
  intros [= <-]. split; reflexivity.
Qed.

Lemma set_weights_accepts_own_weights mw (me copy : t) (w : World) :
  discriminator copy = discriminator me ->
  generator copy = generator me ->
  exists o' w',
    set_weights mw copy (get_weights mw me w) w = (Ok PyNone, (o', w'))
    /\ forall id, weights_of w' id = weights_of w id.
Proof.
  intros HD HG. unfold set_weights, get_weights, keras_weights.
  rewrite HD, HG.
  set (dws := weights_of w (model_id (discriminator me))).
  set (gws := weights_of w (model_id (generator me))).
  assert (Hlen : (length (dws ++ gws ++ (if mw then tracker_variables me else []))
                  =? length (dws ++ gws ++ (if mw then tracker_variables copy else []))) = true).
  { apply Nat.eqb_eq. rewrite !length_app. destruct mw; reflexivity. }
  rewrite Hlen. rewrite !same_shape_common_prefix.
  assert (Hsh : forallb same_shape
                  (combine (if mw then tracker_variables me else [])
                           (if mw then tracker_variables copy else [])) = true)
    by (destruct mw; reflexivity).
  rewrite Hsh. cbn [andb].
  eexists _, _. split; [reflexivity |].
  intros id. cbn [weights_of set_weights_of].
  assert (Hg : Tensor.slice (dws ++ gws ++ (if mw then tracker_variables me else []))
                 (length dws) (length gws) = gws).
  { unfold Tensor.slice. rewrite skipn_app, skipn_all, Nat.sub_diag. cbn [skipn app].
    rewrite firstn_app, firstn_all, Nat.sub_diag. cbn [firstn]. apply app_nil_r. }
  assert (Hd : firstn (length dws) (dws ++ gws ++ (if mw then tracker_variables me else [])) = dws).
  { rewrite firstn_app, firstn_all, Nat.sub_diag. cbn [firstn]. apply app_nil_r. }
  rewrite Hg, Hd.
  destruct (Nat.eqb_spec id (model_id (generator me))) as [-> | _]; [reflexivity |].
  destruct (Nat.eqb_spec id (model_id (discriminator me))) as [-> | _]; reflexivity.
Qed.

(** C7. [clone] builds a new trainer, binds its name to what
    [set_weights] returns, and returns that: the result is [None], never
    a trainer, and the object just built is dropped.  The caller and
    the variables of the two models are left as they were. *)
Theorem clone_returns_none (metric_weights : bool) (s : Frame GAN.t) (seq_len : option nat) :
  nth_error (output_shape (generator (self s))) 1 = Some seq_len ->
  fst (clone metric_weights s) = Ok PyNone
  /\ (forall o, fst (clone metric_weights s) <> Ok (PyGAN o))
  /\ self (snd (clone metric_weights s)) = self s
  /\ forall id, weights_of (world (snd (clone metric_weights s))) id = weights_of (world s) id.
Proof.
  intros Hshape.
  assert (Hclone : fst (clone metric_weights s) = Ok PyNone
                   /\ self (snd (clone metric_weights s)) = self s
                   /\ forall id, weights_of (world (snd (clone metric_weights s))) id
                                 = weights_of (world s) id).
  { unfold clone.
    destruct (__init__ (discriminator (self s)) (generator (self s)) (latent_dim (self s)) false)
      as [copy | e] eqn:Hinit.
    - destruct (init_keeps_models _ _ _ _ _ Hinit) as [HD HG].
      destruct (set_weights_accepts_own_weights metric_weights (self s) copy (world s) HD HG)
        as (o' & w' & Hset & Hw).
      rewrite Hset. cbn. auto.
    - unfold __init__ in Hinit. rewrite Hshape in Hinit. discriminate Hinit. }
  destruct Hclone as (Hret & Hself & Hw).
  repeat split; try assumption.
  intros o. rewrite Hret. discriminate.
Qed.

End Clone.

Lemma clone_returns_none_witness :
  fst (GAN.clone true gan_frame0) = Ok GAN.PyNone.
Proof.
  apply (clone_returns_none true gan_frame0 (Some 2)).
  reflexivity.
Defined.

(** ** Loss trackers *)


Lemma keeps_self_gan_random_vector bs labels :
  keeps_self (GAN._get_random_vector_labels bs labels).
Proof. unfold GAN._get_random_vector_labels. keeps_self_blocks. Qed.

Lemma keeps_self_gradient_penalty_alpha bs :
  keeps_self (GAN.gradient_penalty_alpha bs).
Proof. unfold GAN.gradient_penalty_alpha. auto with keeps. Qed.

#[local] Hint Resolve keeps_self_gradient_penalty_alpha : keeps.

Lemma keeps_self_gradient_penalty tf dw bs real fake :
  keeps_self (GAN.gradient_penalty tf dw bs real fake).
Proof.
  unfold GAN.gradient_penalty, GAN.gradient_penalty_interpolated.
  keeps_self_blocks.
Qed.

#[local] Hint Resolve keeps_self_gan_random_vector keeps_self_gradient_penalty : keeps.

Lemma keeps_self_gan_discriminator_forward tf real fake combined labels bs dw :
  keeps_self (GAN.discriminator_forward tf real fake combined labels bs dw).
Proof. unfold GAN.discriminator_forward. keeps_self_blocks. Qed.

Lemma keeps_self_gan_generator_forward rv misleading gw :
  keeps_self (GAN.generator_forward rv misleading gw).
Proof. unfold GAN.generator_forward. keeps_self_blocks. Qed.

Lemma keeps_self_cgan_random_vector bs labels :
  keeps_self (ConditionalGAN._get_random_vector_labels bs labels).
Proof. unfold ConditionalGAN._get_random_vector_labels. keeps_self_blocks. Qed.

Lemma keeps_self_cgan_discriminator_forward combined labels dw :
  keeps_self (ConditionalGAN.discriminator_forward combined labels dw).
Proof. unfold ConditionalGAN.discriminator_forward. keeps_self_blocks. Qed.

Lemma keeps_self_cgan_generator_forward rv rep misleading gw :
  keeps_self (ConditionalGAN.generator_forward rv rep misleading gw).
Proof. unfold ConditionalGAN.generator_forward. keeps_self_blocks. Qed.

#[local] Hint Resolve keeps_self_gan_discriminator_forward keeps_self_gan_generator_forward
  keeps_self_cgan_random_vector keeps_self_cgan_discriminator_forward
  keeps_self_cgan_generator_forward : keeps.

Lemma gan_step_effect_raise o e : gan_step_effect o (Raise e) o.
Proof. reflexivity. Qed.

Lemma cgan_step_effect_raise o e : cgan_step_effect o (Raise e) o.
Proof. reflexivity. Qed.

Lemma gan_train_step_effect tf data :
  self_spec gan_step_effect (GAN.train_step tf data).
Proof.
  unfold GAN.train_step. cbv zeta.
  repeat (apply self_spec_bind;
          [exact gan_step_effect_raise | solve [keeps_self_blocks] | intros ?]).
  intros s r s' H. cbn in H. injection H as <- <-. cbn.
  eexists _, _. split; reflexivity.
Qed.

Lemma cgan_train_step_effect tf data :
  self_spec cgan_step_effect (ConditionalGAN.train_step tf data).
Proof.
  unfold ConditionalGAN.train_step. destruct data as [real_ts labels]. cbv zeta.
  repeat (apply self_spec_bind;
          [exact cgan_step_effect_raise | solve [keeps_self_blocks] | intros ?]).
  intros s r s' H. cbn in H. injection H as <- <-. cbn.
  eexists _, _. split; reflexivity.
Qed.

(** ** What a training step that returns has done *)

Lemma gan_random_vector_inv bs labels (r : result Tensor.t) (s s' : Frame GAN.t) :
  GAN._get_random_vector_labels bs labels s = (r, s') ->
  r = Ok (draw (Normal 0 1) [bs; GAN.latent_dim (self s)] (world s))
  /\ s' = with_world (advance_rng (Tensor.numel [bs; GAN.latent_dim (self s)])) s.
Proof. unfold GAN._get_random_vector_labels. cbn. intros [= <- <-]. auto. Qed.

Ltac clean_ok :=
  repeat match goal with
         | H : Ok _ = Ok _ |- _ => injection H as H
         | H : ?x = ?y |- _ => is_var y; subst y
         | H : ?x = ?y |- _ => is_var x; subst x
         end.

Ltac inv_bind H :=
  let a := fresh "v" in
  let s1 := fresh "st" in
  let H1 := fresh "E" in
  apply bind_inv_ok in H; destruct H as (a & s1 & H1 & H);
  try first
    [ apply gan_random_vector_inv in H1; destruct H1 as [H1 ->]
    | apply getattr_inv in H1; destruct H1 as [H1 ->]
    | apply lift_inv in H1; destruct H1 as [H1 ->]
    ];
  cbv beta zeta in H.

Lemma Qmult_comm_eq (x y : Q) : (x * y)%Q = (y * x)%Q.
Proof. unfold Qmult. f_equal; [apply Z.mul_comm | apply Pos.mul_comm]. Qed.

Lemma gan_generator_forward_ok rv ml gw (s s' : Frame GAN.t) g_loss :
  GAN.generator_forward rv ml gw s = (Ok g_loss, s') ->
  s' = s
  /\ exists fake predictions,
       call (GAN.generator (self s)) gw None rv = Ok fake
       /\ call (GAN.discriminator (self s))
            (weights_of (world s) (model_id (GAN.discriminator (self s)))) None fake
          = Ok predictions
       /\ if GAN.use_wgan (self s)
          then g_loss = GAN.wgan_generator_loss predictions
          else exists loss, GAN.loss_fn (self s) = Some loss
                            /\ loss ml predictions = Ok g_loss.
Proof.
  unfold GAN.generator_forward. intros H.
  inv_bind H. inv_bind H. inv_bind H. clean_ok.
  destruct (GAN.use_wgan (self s)).
  - apply ret_inv in H. destruct H as [H ->]. clean_ok. eauto 10.
  - inv_bind H. apply lift_inv in H. destruct H as [H ->]. eauto 10.
Qed.

Lemma gan_discriminator_forward_ok tf real fake combined labels bs dw (s s' : Frame GAN.t) d_loss :
  GAN.discriminator_forward tf real fake combined labels bs dw s = (Ok d_loss, s') ->
  exists predictions,
    call (GAN.discriminator (self s)) dw None combined = Ok predictions
    /\ if GAN.use_wgan (self s)
       then exists fake_logits real_logits gp,
              call (GAN.discriminator (self s)) dw (Some true) fake = Ok fake_logits
              /\ call (GAN.discriminator (self s)) dw (Some true) real = Ok real_logits
              /\ GAN.gradient_penalty tf dw bs real fake s = (Ok gp, s')
              /\ d_loss = (GAN.wgan_discriminator_loss real_logits fake_logits
                           + gp * GAN.gp_weight (self s))%Q
       else s' = s
            /\ exists loss, GAN.loss_fn (self s) = Some loss
                            /\ loss labels predictions = Ok d_loss.
Proof.
  unfold GAN.discriminator_forward. intros H.
  inv_bind H. inv_bind H. clean_ok. exists v0. split; [assumption |].
  destruct (GAN.use_wgan (self s)).
  - inv_bind H. inv_bind H. inv_bind H.
    apply ret_inv in H. destruct H as [H ->]. clean_ok. eauto 10.
  - inv_bind H. apply lift_inv in H. destruct H as [H ->]. eauto 10.
Qed.


Lemma gan_train_step_ok tf data (s s' : Frame GAN.t) r :
  GAN.train_step tf data s = (Ok r, s') ->
  exists bs fake combined labels d_loss s_f grads_d d_opt sl vals
         g_loss grads_g g_opt sl' vals',
    let o := self s in
    let D := GAN.discriminator o in
    let G := GAN.generator o in
    let s1 := with_world (advance_rng (Tensor.numel [bs; GAN.latent_dim o])) s in
    let dw := weights_of (world s) (model_id D) in
    let s_d := {| self := o; world := after_optimizer d_opt D sl vals (world s_f) |} in
    let s2 := with_world (advance_rng (Tensor.numel [bs; GAN.latent_dim o])) s_d in
    let z2 := draw (Normal 0 1) [bs; GAN.latent_dim o] (world s_d) in
    let gw := weights_of (world s_d) (model_id G) in
    Tensor.shape0 data = Ok bs
    /\ call G (weights_of (world s) (model_id G)) None
         (draw (Normal 0 1) [bs; GAN.latent_dim o] (world s)) = Ok fake
    /\ Tensor.concat [fake; data] 0 = Ok combined
    /\ GAN.desc_labels bs = Ok labels
    /\ GAN.discriminator_forward tf data fake combined labels bs dw s1 = (Ok d_loss, s_f)
    /\ self s_f = o
    /\ tape_gradient tf
         (fun w => fst (GAN.discriminator_forward tf data fake combined labels bs w s1)) dw
       = Ok grads_d
    /\ GAN.d_optimizer o = Some d_opt
    /\ apply_gradients d_opt (slots_of (world s_f) (optimizer_id d_opt))
         (combine grads_d (weights_of (world s_f) (model_id D))) = (Ok tt, (sl, vals))
    /\ GAN.generator_forward z2 (Tensor.zeros [bs; 1]) gw s2 = (Ok g_loss, s2)
    /\ tape_gradient tf
         (fun w => fst (GAN.generator_forward z2 (Tensor.zeros [bs; 1]) w s2)) gw
       = Ok grads_g
    /\ GAN.g_optimizer o = Some g_opt
    /\ apply_gradients g_opt (slots_of (world s2) (optimizer_id g_opt))
         (combine grads_g (weights_of (world s2) (model_id G))) = (Ok tt, (sl', vals'))
    /\ s' = {| self := GAN.set_disc_loss_tracker
                         (update_state d_loss (GAN.disc_loss_tracker o))
                         (GAN.set_gen_loss_tracker
                            (update_state g_loss (GAN.gen_loss_tracker o)) o);
               world := after_optimizer g_opt G sl' vals' (world s2) |}
    /\ r = losses_dict (update_state g_loss (GAN.gen_loss_tracker o))
             (update_state d_loss (GAN.disc_loss_tracker o)).
Proof.
  intros H. unfold GAN.train_step in H. cbv zeta in H.
  do 20 inv_bind H.
  apply ret_inv in H. destruct H as [H ->].
  clean_ok.
  pose proof E6 as Hself. apply keeps_self_gan_discriminator_forward in Hself.
  apply optimizer_apply_gradients_inv in E9. destruct E9 as (sl & vals & Ed & ->).
  destruct v9.
  pose proof E12 as Hg. apply gan_generator_forward_ok in Hg. destruct Hg as [-> _].
  apply optimizer_apply_gradients_inv in E15. destruct E15 as (sl' & vals' & Eg & ->).
  destruct v15.
  cbn [self world with_world with_self] in *.
  rewrite Hself in *.
  exists v, v2, v3, v4, v6, st, v7, v8, sl, vals, v12, v13, v14, sl', vals'.
  cbv zeta. cbn [self world with_world with_self].
  repeat (split; [first [eassumption | reflexivity] |]).
  reflexivity.
Qed.

(** ** Wasserstein losses *)

Lemma init_gp_weight D G n wgan o :
  GAN.__init__ D G n wgan = Ok o -> GAN.gp_weight o = 10%Q /\ GAN.use_wgan o = wgan.
Proof.
  unfold GAN.__init__. destruct (nth_error (output_shape G) 1); [| discriminate].
  intros [= <-]. split; reflexivity.
Qed.

Lemma compile_keeps_gp_weight avail d g loss (s : Frame GAN.t) :
  GAN.gp_weight (self (snd (GAN.compile avail d g loss s))) = GAN.gp_weight (self s).
Proof.
  unfold GAN.compile, bind, modify, logger_warning, ret.
  destruct (negb _); reflexivity.
Qed.

Lemma weights_after_optimizer opt m sl vals w :
  weights_of (after_optimizer opt m sl vals w) (model_id m)
  = write_back vals (weights_of w (model_id m)).
Proof.
  unfold after_optimizer. cbn [weights_of set_weights_of set_slots_of].
  rewrite Nat.eqb_refl. reflexivity.
Qed.

(** What [gradient_penalty] has computed when it returns. *)
Lemma gan_gradient_penalty_ok tf dw bs real fake (s s' : Frame GAN.t) gp :
  GAN.gradient_penalty tf dw bs real fake s = (Ok gp, s') ->
  exists interpolated pred grads sq,
    GAN.gradient_penalty_interpolated bs real fake s = (Ok interpolated, s')
    /\ s' = with_world (advance_rng (Tensor.numel [bs; 1; 1])) s
    /\ call (GAN.discriminator (self s)) dw (Some true) interpolated = Ok pred
    /\ tape_gradient_input tf (call (GAN.discriminator (self s)) dw (Some true)) interpolated
       = Ok grads
    /\ Tensor.reduce_sum_axes_1_2 (Tensor.map_entries (fun g => g * g)%Q grads) = Ok sq
    /\ gp = Tensor.reduce_mean
              (Tensor.map_entries (fun n => (n - 1) ^ 2)%Q
                 (Tensor.map_entries (tf_sqrt tf) sq)).
Proof.
  unfold GAN.gradient_penalty. intros H.
  apply bind_inv_ok in H. destruct H as (interpolated & s1 & Hi & H).
  assert (Hs1 : s1 = with_world (advance_rng (Tensor.numel [bs; 1; 1])) s).
  { revert Hi. unfold GAN.gradient_penalty_interpolated, GAN.gradient_penalty_alpha,
      tf_random_normal, tf_random, bind, lift.
    destruct (Tensor.sub fake real); [| discriminate].
    destruct (Tensor.mul _ _); [| discriminate].
    intros [= _ <-]. reflexivity. }
  subst s1. cbv beta zeta in H.
  apply bind_inv_ok in H. destruct H as (s2 & s3 & Hg & H).
  apply get_state_inv in Hg. destruct Hg as [Hg E3]. subst s3.
  assert (E2 : s2 = with_world (advance_rng (Tensor.numel [bs; 1; 1])) s) by congruence.
  subst s2. clear Hg.
  apply bind_inv_ok in H. destruct H as (pred & s4 & Hp & H).
  apply lift_inv in Hp. destruct Hp as [Hp E4]. subst s4.
  apply bind_inv_ok in H. destruct H as (grads & s5 & Hgr & H).
  apply lift_inv in Hgr. destruct Hgr as [Hgr E5]. subst s5.
  apply bind_inv_ok in H. destruct H as (sq & s6 & Hsq & H).
  apply lift_inv in Hsq. destruct Hsq as [Hsq E6]. subst s6.
  apply ret_inv in H. destruct H as [H E']. subst s'.
  assert (Hgp : gp = Tensor.reduce_mean
                       (Tensor.map_entries (fun n => (n - 1) ^ 2)%Q
                          (Tensor.map_entries (tf_sqrt tf) sq))) by congruence.
  cbn [self with_world] in Hp, Hgr.
  exists interpolated, pred, grads, sq. repeat split; assumption.
Qed.

(** C4. With [use_wgan] set and [gp_weight] at the 10.0 that [__init__]
    gives it, a training step that returns has recorded
    d_loss = (mean of the logits on the fake batch - mean of the logits on
    the real batch) + 10 * gradient penalty, and
    g_loss = - mean of the discriminator's output on a fresh fake batch.
    The fresh batch is the generator's output on a latent drawn after the
    first latent and the interpolation coefficients, in the store the
    discriminator's optimizer has left: the discriminator scores it with
    the variables that optimizer has just written.  [gp_weight] is still
    10 afterwards. *)
Theorem wgan_train_step_losses tf data (s s' : Frame GAN.t) r :
  GAN.use_wgan (self s) = true ->
  GAN.gp_weight (self s) = 10%Q ->
  GAN.train_step tf data s = (Ok r, s') ->
  exists bs fake combined labels fake_logits real_logits gp grads_d d_opt sl vals
         fresh_fake predictions,
    let o := self s in
    let D := GAN.discriminator o in
    let G := GAN.generator o in
    let L := GAN.latent_dim o in
    let dw := weights_of (world s) (model_id D) in
    let s1 := with_world (advance_rng (Tensor.numel [bs; L])) s in
    let w_gp := advance_rng (Tensor.numel [bs; 1; 1]) (world s1) in
    let w_d := after_optimizer d_opt D sl vals w_gp in
    let fresh_latent := draw (Normal 0 1) [bs; L] w_d in
    let d_loss :=
      (Tensor.reduce_mean fake_logits - Tensor.reduce_mean real_logits + 10 * gp)%Q in
    let g_loss := (- Tensor.reduce_mean predictions)%Q in
    Tensor.shape0 data = Ok bs
    /\ call G (weights_of (world s) (model_id G)) None
         (draw (Normal 0 1) [bs; L] (world s)) = Ok fake
    /\ Tensor.concat [fake; data] 0 = Ok combined
    /\ GAN.desc_labels bs = Ok labels
    /\ call D dw (Some true) fake = Ok fake_logits
    /\ call D dw (Some true) data = Ok real_logits
    /\ GAN.gradient_penalty tf dw bs data fake s1 = (Ok gp, {| self := o; world := w_gp |})
    /\ tape_gradient tf
         (fun w => fst (GAN.discriminator_forward tf data fake combined labels bs w s1)) dw
       = Ok grads_d
    /\ GAN.d_optimizer o = Some d_opt
    /\ apply_gradients d_opt (slots_of (world s) (optimizer_id d_opt)) (combine grads_d dw)
       = (Ok tt, (sl, vals))
    /\ weights_of w_d (model_id D) = write_back vals dw
    /\ entropy w_d = entropy (world s)
    /\ rng_counter w_d = rng_counter (world s) + bs * L + bs
    /\ call G (weights_of w_d (model_id G)) None fresh_latent = Ok fresh_fake
    /\ call D (weights_of w_d (model_id D)) None fresh_fake = Ok predictions
    /\ GAN.disc_loss_tracker (self s') = update_state d_loss (GAN.disc_loss_tracker o)
    /\ GAN.gen_loss_tracker (self s') = update_state g_loss (GAN.gen_loss_tracker o)
    /\ r = losses_dict (GAN.gen_loss_tracker (self s')) (GAN.disc_loss_tracker (self s'))
    /\ GAN.gp_weight (self s') = 10%Q.
Proof.
  intros Hwgan Hgp H.
  pose proof H as Hstep. apply gan_train_step_ok in Hstep.
  destruct Hstep
    as (bs & fake & combined & labels & d_loss & s_f & grads_d & d_opt & sl & vals
        & g_loss & grads_g & g_opt & sl' & vals' & Hstep).
  cbv zeta in Hstep.
  destruct Hstep
    as (Hbs & Hfake & Hcomb & Hlab & Hd & Hself & Htape & Hopt & Hstepd & Hg & _ & _ & _
        & -> & ->).
  apply gan_discriminator_forward_ok in Hd. destruct Hd as (preds & _ & Hd).
  cbn [self world with_world] in Hd. rewrite Hwgan in Hd.
  destruct Hd as (fake_logits & real_logits & gp & Hfl & Hrl & Hpen & ->).
  pose proof Hpen as Hsf. apply gan_gradient_penalty_ok in Hsf.
  destruct Hsf as (_ & _ & _ & _ & _ & Hsf & _). subst s_f.
  apply gan_generator_forward_ok in Hg.
  destruct Hg as (_ & fresh & predictions & Hfresh & Hp & Hg).
  cbn [self world with_world] in Hfresh, Hp, Hg, Hstepd. rewrite Hwgan in Hg.
  subst g_loss.
  exists bs, fake, combined, labels, fake_logits, real_logits, gp, grads_d, d_opt, sl, vals,
    fresh, predictions.
  cbv zeta. cbn [self world with_world].
  repeat (split; [first [assumption | reflexivity] |]).
  split; [rewrite weights_after_optimizer; reflexivity |].
  split; [reflexivity |].
  split; [cbn; lia |].
  split; [assumption |].
  split; [assumption |].
  split.
  { cbn. unfold GAN.wgan_discriminator_loss. rewrite Hgp, (Qmult_comm_eq gp 10). reflexivity. }
  split; [reflexivity |].
  split; [reflexivity |].
  cbn. exact Hgp.
Qed.

Lemma wgan_train_step_losses_witness :
  exists fake_logits real_logits gp predictions,
    GAN.disc_loss_tracker
      (self (snd (GAN.train_step Doubles.engine Doubles.real_batch (gan_frame true))))
    = update_state
        (Tensor.reduce_mean fake_logits - Tensor.reduce_mean real_logits + 10 * gp)%Q
        Mean_init
    /\ GAN.gen_loss_tracker
         (self (snd (GAN.train_step Doubles.engine Doubles.real_batch (gan_frame true))))
       = update_state (- Tensor.reduce_mean predictions)%Q Mean_init.
Proof.
  destruct (@wgan_train_step_losses Doubles.engine Doubles.real_batch
              (gan_frame true)
              (snd (GAN.train_step Doubles.engine Doubles.real_batch (gan_frame true)))
              (returned (fst (GAN.train_step Doubles.engine Doubles.real_batch
                                (gan_frame true))) []))
    as (bs & fake & combined & labels & fake_logits & real_logits & gp & grads_d & d_opt
        & sl & vals & fresh & preds & Hw).
  - reflexivity.
  - reflexivity.
  - vm_compute. reflexivity.
  - cbv zeta in Hw.
    destruct Hw as (_ & _ & _ & _ & _ & _ & _ & _ & _ & _ & _ & _ & _ & _ & _ & Hd & Hg & _).
    exists fake_logits, real_logits, gp, preds. split; [exact Hd | exact Hg].
Defined.

Lemma cgan_discriminator_forward_ok combined labels01 dw (s s' : Frame ConditionalGAN.t) d_loss :
  ConditionalGAN.discriminator_forward combined labels01 dw s = (Ok d_loss, s') ->
  s' = s
  /\ exists predictions loss,
       call (ConditionalGAN.discriminator (self s)) dw None combined = Ok predictions
       /\ ConditionalGAN.loss_fn (self s) = Some loss
       /\ loss labels01 predictions = Ok d_loss.
Proof.
  unfold ConditionalGAN.discriminator_forward. intros H.
  inv_bind H. inv_bind H. inv_bind H. clean_ok.
  apply lift_inv in H. destruct H as [H ->]. eauto 10.
Qed.

Lemma cgan_generator_forward_ok rvl rep ml gw (s s' : Frame ConditionalGAN.t) g_loss :
  ConditionalGAN.generator_forward rvl rep ml gw s = (Ok g_loss, s') ->
  s' = s
  /\ exists fake_samples fake_data predictions loss,
       call (ConditionalGAN.generator (self s)) gw None rvl = Ok fake_samples
       /\ Tensor.concat [fake_samples; rep] (-1) = Ok fake_data
       /\ call (ConditionalGAN.discriminator (self s))
            (weights_of (world s) (model_id (ConditionalGAN.discriminator (self s))))
            None fake_data = Ok predictions
       /\ ConditionalGAN.loss_fn (self s) = Some loss
       /\ loss ml predictions = Ok g_loss.
Proof.
  unfold ConditionalGAN.generator_forward. intros H.
  do 5 inv_bind H. clean_ok.
  apply lift_inv in H. destruct H as [H ->]. eauto 12.
Qed.

Lemma cgan_train_step_ok tf real_ts labels (c c' : Frame ConditionalGAN.t) r :
  ConditionalGAN.train_step tf (real_ts, labels) c = (Ok r, c') ->
  exists output_dim bs rep z c1 generated fake_data real_data combined labels01
         d_loss c2 z2 c3 g_loss,
    let o := self c in
    let D := ConditionalGAN.discriminator o in
    let G := ConditionalGAN.generator o in
    ConditionalGAN._get_output_shape o labels = Ok output_dim
    /\ Tensor.shape0 real_ts = Ok bs
    /\ ConditionalGAN.rep_labels o labels output_dim = Ok rep
    /\ ConditionalGAN._get_random_vector_labels bs labels c = (Ok z, c1)
    /\ call G (weights_of (world c1) (model_id G)) None z = Ok generated
    /\ Tensor.concat [generated; rep] (-1) = Ok fake_data
    /\ Tensor.concat [real_ts; rep] (-1) = Ok real_data
    /\ Tensor.concat [fake_data; real_data] 0 = Ok combined
    /\ ConditionalGAN.desc_labels bs = Ok labels01
    /\ ConditionalGAN.discriminator_forward combined labels01
         (weights_of (world c1) (model_id D)) c1 = (Ok d_loss, c1)
    /\ self c2 = o
    /\ ConditionalGAN._get_random_vector_labels bs labels c2 = (Ok z2, c3)
    /\ ConditionalGAN.generator_forward z2 rep (Tensor.zeros [bs; 1])
         (weights_of (world c3) (model_id G)) c3 = (Ok g_loss, c3)
    /\ self c' = ConditionalGAN.set_disc_loss_tracker
                   (update_state d_loss (ConditionalGAN.disc_loss_tracker o))
                   (ConditionalGAN.set_gen_loss_tracker
                      (update_state g_loss (ConditionalGAN.gen_loss_tracker o)) o)
    /\ r = losses_dict (update_state g_loss (ConditionalGAN.gen_loss_tracker o))
             (update_state d_loss (ConditionalGAN.disc_loss_tracker o)).
Proof.
  intros H. unfold ConditionalGAN.train_step in H. cbv zeta in H.
  repeat inv_bind H.
  clean_ok.
  pose proof E3 as K1. apply keeps_self_cgan_random_vector in K1.
  pose proof E11 as K2. apply cgan_discriminator_forward_ok in K2. destruct K2 as [-> _].
  assert (K3 : self st1 = self st).
  { refine ((_ : keeps_self _) _ _ _ E13). keeps_self_blocks. }
  pose proof E14 as K4. apply keeps_self_cgan_random_vector in K4.
  pose proof E16 as K5. apply cgan_generator_forward_ok in K5. destruct K5 as [-> _].
  assert (K6 : self st4 = self st2).
  { refine ((_ : keeps_self _) _ _ _ E18). keeps_self_blocks. }
  exists v0, v1, v2, v3, st, v5, v6, v7, v8, v9, v11, st1, v14, st2, v16.
  cbv zeta. cbn [self world with_world with_self].
  apply ret_inv in H. destruct H as [H ->]. injection H as ->.
  cbn [self with_self].
  assert (K : self st4 = self c) by congruence.
  assert (K' : self st1 = self c) by congruence.
  assert (K'' : self st2 = self c) by congruence.
  repeat (split; [first [eassumption | reflexivity | congruence] |]).
  rewrite K. split; reflexivity.
Qed.

(** ** The order of the two phases *)

(** *** Running a method symbolically *)

Lemma wp_bind {S A B} (m : M S A) (k : A -> M S B) (Q : result B -> S -> Prop) s :
  wp m (fun r s1 => match r with
                    | Ok a => wp (k a) Q s1
                    | Raise e => Q (Raise e) s1
                    end) s ->
  wp (bind m k) Q s.
Proof. unfold wp, bind. destruct (m s) as [[a | e] s1]; cbn; auto. Qed.

Lemma wp_lift {S A} (r : result A) (Q : result A -> S -> Prop) s :
  Q r s -> wp (lift r) Q s.
Proof. auto. Qed.

Lemma wp_get_state {S} (Q : result S -> S -> Prop) s : Q (Ok s) s -> wp get_state Q s.
Proof. auto. Qed.

Lemma wp_ret {S A} (a : A) (Q : result A -> S -> Prop) s : Q (Ok a) s -> wp (ret a) Q s.
Proof. auto. Qed.

Lemma wp_modify {S} (f : S -> S) (Q : result unit -> S -> Prop) s :
  Q (Ok tt) (f s) -> wp (modify f) Q s.
Proof. auto. Qed.

Lemma wp_getattr {S A} (o : option A) (Q : result A -> S -> Prop) s :
  match o with Some a => Q (Ok a) s | None => Q (Raise AttributeError) s end ->
  wp (getattr o) Q s.
Proof. destruct o; auto. Qed.

Lemma wp_as_dim {S} (o : option nat) (Q : result nat -> S -> Prop) s :
  match o with Some a => Q (Ok a) s | None => Q (Raise TypeError) s end ->
  wp (ConditionalGAN.as_dim o) Q s.
Proof. destruct o; auto. Qed.

Lemma wp_tf_random_normal {Self} sh mean stddev
    (Q : result Tensor.t -> Frame Self -> Prop) s :
  Q (Ok (draw (Normal mean stddev) sh (world s)))
    (with_world (advance_rng (Tensor.numel sh)) s) ->
  wp (tf_random_normal sh mean stddev) Q s.
Proof. auto. Qed.

Lemma wp_apply_gradients {Self} opt grads m (Q : result unit -> Frame Self -> Prop) s :
  (forall r sl vals,
      Q r {| self := self s; world := after_optimizer opt m sl vals (world s) |}) ->
  wp (optimizer_apply_gradients opt grads m) Q s.
Proof.
  intros H. unfold wp, optimizer_apply_gradients.
  destruct (apply_gradients _ _ _) as [r [sl vals]]. cbn. apply H.
Qed.

Lemma wp_minimize {Self} opt loss m tape (Q : result unit -> Frame Self -> Prop) s :
  (forall r sl vals,
      Q r {| self := self s; world := after_optimizer opt m sl vals (world s) |}) ->
  wp (optimizer_minimize opt loss m tape) Q s.
Proof.
  intros H. unfold wp, optimizer_minimize.
  destruct (minimize _ _ _ _ _) as [r [sl vals]]. cbn. apply H.
Qed.

Lemma wp_run {S A} (m : M S A) (Q : result A -> S -> Prop) s :
  wp m Q s -> Q (fst (m s)) (snd (m s)).
Proof. auto. Qed.

(** One step of symbolic execution: the next statement of the method is
    run, and the goal splits where it can return or raise. *)
Ltac wp_step :=
  lazymatch goal with
  | |- wp (bind _ _) _ _ => apply wp_bind
  | |- wp (lift ?r) _ _ => apply wp_lift; destruct r
  | |- wp get_state _ _ => apply wp_get_state
  | |- wp (ret _) _ _ => apply wp_ret
  | |- wp (modify _) _ _ => apply wp_modify
  | |- wp (getattr ?o) _ _ => apply wp_getattr; destruct o
  | |- wp (ConditionalGAN.as_dim ?o) _ _ => apply wp_as_dim; destruct o
  | |- wp (tf_random_normal _ _ _) _ _ => apply wp_tf_random_normal
  | |- wp (optimizer_apply_gradients _ _ _) _ _ =>
      apply wp_apply_gradients; intros [[] | ?] ? ?
  | |- wp (optimizer_minimize _ _ _ _) _ _ =>
      apply wp_minimize; intros [[] | ?] ? ?
  | |- wp (if ?b then _ else _) _ _ => destruct b
  | |- wp (GAN._get_random_vector_labels _ _) _ _ =>
      unfold GAN._get_random_vector_labels
  | |- wp (GAN.discriminator_forward _ _ _ _ _ _ _) _ _ =>
      unfold GAN.discriminator_forward
  | |- wp (GAN.generator_forward _ _ _) _ _ => unfold GAN.generator_forward
  | |- wp (GAN.gradient_penalty _ _ _ _ _) _ _ => unfold GAN.gradient_penalty
  | |- wp (GAN.gradient_penalty_interpolated _ _ _) _ _ =>
      unfold GAN.gradient_penalty_interpolated
  | |- wp (GAN.gradient_penalty_alpha _) _ _ => unfold GAN.gradient_penalty_alpha
  | |- wp (ConditionalGAN._get_random_vector_labels _ _) _ _ =>
      unfold ConditionalGAN._get_random_vector_labels
  | |- wp (ConditionalGAN.discriminator_forward _ _ _) _ _ =>
      unfold ConditionalGAN.discriminator_forward
  | |- wp (ConditionalGAN.generator_forward _ _ _ _) _ _ =>
      unfold ConditionalGAN.generator_forward
  end;
  cbv beta zeta; cbn [self world with_world with_self].



Lemma lift_ok {S A} (r : result A) (a : A) (s : S) : r = Ok a -> lift r s = (Ok a, s).
Proof. intros ->. reflexivity. Qed.

Lemma getattr_ok {S A} (o : option A) (a : A) (s : S) :
  o = Some a -> getattr o s = (Ok a, s).
Proof. intros ->. reflexivity. Qed.

Lemma optimizer_apply_gradients_run {Self} opt grads m r sl vals (s : Frame Self) :
  apply_gradients opt (slots_of (world s) (optimizer_id opt))
    (combine grads (weights_of (world s) (model_id m))) = (r, (sl, vals)) ->
  optimizer_apply_gradients opt grads m s
  = (r, {| self := self s; world := after_optimizer opt m sl vals (world s) |}).
Proof. unfold optimizer_apply_gradients. intros ->. reflexivity. Qed.

Lemma optimizer_minimize_run {Self} opt loss m tape r sl vals (s : Frame Self) :
  minimize opt (slots_of (world s) (optimizer_id opt)) loss
    (weights_of (world s) (model_id m)) tape = (r, (sl, vals)) ->
  optimizer_minimize opt loss m tape s
  = (r, {| self := self s; world := after_optimizer opt m sl vals (world s) |}).
Proof. unfold optimizer_minimize. intros ->. reflexivity. Qed.

(** The store a discriminator block that returns has left: the one it
    started from, after the draw of the interpolation coefficients when
    the gradient penalty is computed. *)
Lemma gan_discriminator_forward_store tf real fake combined labels bs dw
    (s s' : Frame GAN.t) d_loss :
  GAN.discriminator_forward tf real fake combined labels bs dw s = (Ok d_loss, s') ->
  s' = if GAN.use_wgan (self s)
       then with_world (advance_rng (Tensor.numel [bs; 1; 1])) s
       else s.
Proof.
  intros H. apply gan_discriminator_forward_ok in H. destruct H as (preds & _ & H).
  destruct (GAN.use_wgan (self s)).
  - destruct H as (fl & rl & gp & _ & _ & Hgp & _).
    apply gan_gradient_penalty_ok in Hgp.
    destruct Hgp as (_ & _ & _ & _ & _ & Hs & _). exact Hs.
  - destruct H as [H _]. exact H.
Qed.

(** Closes [weights_of w' id = weights_of w id] where [w'] is [w] after
    draws and optimizer steps on models other than [id]. *)
Ltac other_weights_solve :=
  unfold after_optimizer;
  cbn [weights_of slots_of entropy rng_counter records
         set_weights_of set_slots_of advance_rng];
  rewrite ?Nat.eqb_refl;
  repeat match goal with
         | |- context [?a =? ?b] =>
             destruct (Nat.eqb_spec a b); [exfalso; congruence |]
         end;
  reflexivity.

(** Once the optimizer of the discriminator has stepped, the rest of a
    training step leaves the discriminator's variables as that step wrote
    them, whether it then returns or raises. *)
Lemma gan_discriminator_step_stays tf data (s : Frame GAN.t)
    bs fake combined labels d_loss s_f grads d_opt sl vals :
  let o := self s in
  let D := GAN.discriminator o in
  let G := GAN.generator o in
  let dw := weights_of (world s) (model_id D) in
  let s1 := with_world (advance_rng (Tensor.numel [bs; GAN.latent_dim o])) s in
  Tensor.shape0 data = Ok bs ->
  call G (weights_of (world s) (model_id G)) None
    (draw (Normal 0 1) [bs; GAN.latent_dim o] (world s)) = Ok fake ->
  Tensor.concat [fake; data] 0 = Ok combined ->
  GAN.desc_labels bs = Ok labels ->
  GAN.discriminator_forward tf data fake combined labels bs dw s1 = (Ok d_loss, s_f) ->
  tape_gradient tf
    (fun w => fst (GAN.discriminator_forward tf data fake combined labels bs w s1)) dw
  = Ok grads ->
  GAN.d_optimizer o = Some d_opt ->
  apply_gradients d_opt (slots_of (world s) (optimizer_id d_opt)) (combine grads dw)
  = (Ok tt, (sl, vals)) ->
  model_id G <> model_id D ->
  weights_of (world (snd (GAN.train_step tf data s))) (model_id D) = write_back vals dw.
Proof.
  intros o D G dw s1 Hbs Hfake Hcomb Hlab Hd Htape Hopt Hstep Hid.
  pose proof (keeps_self_gan_discriminator_forward _ _ _ _ _ _ _ _ _ _ Hd) as Hself.
  pose proof (gan_discriminator_forward_store _ _ _ _ _ _ _ _ _ _ Hd) as Hsf.
  assert (Hw : weights_of (world s_f) = weights_of (world s)
               /\ slots_of (world s_f) = slots_of (world s)).
  { rewrite Hsf. destruct (GAN.use_wgan (self s1)); split; reflexivity. }
  destruct Hw as [Hw Hsl].
  unfold GAN.train_step. cbv zeta.
  erewrite bind_ok; [| apply lift_ok; exact Hbs].
  erewrite bind_ok; [| reflexivity].
  erewrite bind_ok; [| reflexivity].
  erewrite bind_ok; [| apply lift_ok; exact Hfake].
  erewrite bind_ok; [| apply lift_ok; exact Hcomb].
  erewrite bind_ok; [| apply lift_ok; exact Hlab].
  erewrite bind_ok; [| reflexivity].
  erewrite bind_ok; [| exact Hd].
  erewrite bind_ok; [| apply lift_ok; exact Htape].
  erewrite bind_ok; [| apply getattr_ok; exact Hopt].
  erewrite bind_ok;
    [| apply optimizer_apply_gradients_run; rewrite Hw, Hsl; exact Hstep].
  match goal with
  | |- weights_of (world (snd (?m ?s0))) ?id = _ =>
      transitivity (weights_of (world s0) id);
      [ apply (wp_run m (fun _ s' => weights_of (world s') id = weights_of (world s0) id) s0)
      | ]
  end.
  - subst o D G dw s1. cbn [self world with_world with_self] in *.
    repeat wp_step; rewrite ?Hself; other_weights_solve.
  - cbn [world]. rewrite weights_after_optimizer, Hw. reflexivity.
Qed.

Lemma cgan_discriminator_step_stays tf real_ts labels (c : Frame ConditionalGAN.t)
    output_dim bs rep z c1 generated fake_data real_data combined labels01 d_loss
    is_dp d_opt sl vals :
  let o := self c in
  let D := ConditionalGAN.discriminator o in
  let G := ConditionalGAN.generator o in
  let dw := weights_of (world c1) (model_id D) in
  let recorded_d := fun w => fst (ConditionalGAN.discriminator_forward combined labels01 w c1) in
  ConditionalGAN._get_output_shape o labels = Ok output_dim ->
  Tensor.shape0 real_ts = Ok bs ->
  ConditionalGAN.rep_labels o labels output_dim = Ok rep ->
  ConditionalGAN._get_random_vector_labels bs labels c = (Ok z, c1) ->
  call G (weights_of (world c1) (model_id G)) None z = Ok generated ->
  Tensor.concat [generated; rep] (-1) = Ok fake_data ->
  Tensor.concat [real_ts; rep] (-1) = Ok real_data ->
  Tensor.concat [fake_data; real_data] 0 = Ok combined ->
  ConditionalGAN.desc_labels bs = Ok labels01 ->
  recorded_d dw = Ok d_loss ->
  ConditionalGAN.dp o = Some is_dp ->
  ConditionalGAN.d_optimizer o = Some d_opt ->
  (if is_dp
   then minimize d_opt (slots_of (world c1) (optimizer_id d_opt)) recorded_d dw
          (tape_gradient tf) = (Ok tt, (sl, vals))
   else exists grads,
          tape_gradient tf recorded_d dw = Ok grads
          /\ apply_gradients d_opt (slots_of (world c1) (optimizer_id d_opt))
               (combine grads dw) = (Ok tt, (sl, vals))) ->
  model_id G <> model_id D ->
  weights_of (world (snd (ConditionalGAN.train_step tf (real_ts, labels) c))) (model_id D)
  = write_back vals dw.
Proof.
  intros o D G dw recorded_d Hout Hbs Hrep Hz Hgen Hfd Hrd Hcomb Hlab Hd Hdp Hopt Hstep Hid.
  pose proof (keeps_self_cgan_random_vector _ _ _ _ _ Hz) as Hself.
  assert (Hd' : ConditionalGAN.discriminator_forward combined labels01 dw c1 = (Ok d_loss, c1)).
  { subst recorded_d. cbv beta in Hd.
    destruct (ConditionalGAN.discriminator_forward combined labels01 dw c1) as [r c1'] eqn:E.
    cbn [fst] in Hd. subst r.
    pose proof E as E'. apply cgan_discriminator_forward_ok in E'. destruct E' as [-> _].
    reflexivity. }
  subst o D G dw recorded_d. cbv beta in *.
  unfold ConditionalGAN.train_step. cbv zeta.
  erewrite bind_ok; [| reflexivity].
  erewrite bind_ok; [| apply lift_ok; exact Hout].
  erewrite bind_ok; [| apply lift_ok; exact Hbs].
  erewrite bind_ok; [| apply lift_ok; exact Hrep].
  erewrite bind_ok; [| exact Hz].
  erewrite bind_ok; [| reflexivity].
  rewrite !Hself.
  erewrite bind_ok; [| apply lift_ok; exact Hgen].
  erewrite bind_ok; [| apply lift_ok; exact Hfd].
  erewrite bind_ok; [| apply lift_ok; exact Hrd].
  erewrite bind_ok; [| apply lift_ok; exact Hcomb].
  erewrite bind_ok; [| apply lift_ok; exact Hlab].
  erewrite bind_ok; [| reflexivity].
  rewrite !Hself.
  erewrite bind_ok; [| exact Hd'].
  erewrite bind_ok; [| apply getattr_ok; exact Hdp].
  erewrite bind_ok.
  2:{ destruct is_dp.
      - erewrite bind_ok; [| apply getattr_ok; exact Hopt].
        apply optimizer_minimize_run. exact Hstep.
      - destruct Hstep as (grads & Htape & Hstep).
        erewrite bind_ok; [| apply lift_ok; exact Htape].
        erewrite bind_ok; [| apply getattr_ok; exact Hopt].
        apply optimizer_apply_gradients_run. exact Hstep. }
  match goal with
  | |- weights_of (world (snd (?m ?s0))) ?id = _ =>
      transitivity (weights_of (world s0) id);
      [ apply (wp_run m (fun _ s' => weights_of (world s') id = weights_of (world s0) id) s0)
      | ]
  end.
  - cbn [self world with_world with_self] in *.
    repeat wp_step; other_weights_solve.
  - cbn [world]. apply weights_after_optimizer.
Qed.

(** C6. In a training step of either trainer the two trackers are
    updated once each, after both optimizers have stepped: a step that
    raises leaves the trainer, trackers included, as it was, and a step
    that returns has applied one [update_state] to each tracker.  The
    optimizer of the discriminator steps before the generator phase
    begins: once it has stepped, the discriminator variables in the store
    the step leaves are the ones it wrote, whether the generator phase
    then returns or raises.  And a step can indeed raise in its generator
    phase, with the discriminator variables changed and the generator
    variables untouched. *)
Theorem train_step_tracker_updates :
  (forall tf data (s : Frame GAN.t),
      gan_step_effect (self s) (fst (GAN.train_step tf data s))
        (self (snd (GAN.train_step tf data s))))
  /\ (forall tf data (c : Frame ConditionalGAN.t),
         cgan_step_effect (self c) (fst (ConditionalGAN.train_step tf data c))
           (self (snd (ConditionalGAN.train_step tf data c))))
  /\ (forall tf data (s : Frame GAN.t) bs fake combined labels d_loss s_f grads d_opt sl vals,
         let o := self s in
         let D := GAN.discriminator o in
         let G := GAN.generator o in
         let dw := weights_of (world s) (model_id D) in
         let s1 := with_world (advance_rng (Tensor.numel [bs; GAN.latent_dim o])) s in
         Tensor.shape0 data = Ok bs ->
         call G (weights_of (world s) (model_id G)) None
           (draw (Normal 0 1) [bs; GAN.latent_dim o] (world s)) = Ok fake ->
         Tensor.concat [fake; data] 0 = Ok combined ->
         GAN.desc_labels bs = Ok labels ->
         GAN.discriminator_forward tf data fake combined labels bs dw s1 = (Ok d_loss, s_f) ->
         tape_gradient tf
           (fun w => fst (GAN.discriminator_forward tf data fake combined labels bs w s1)) dw
         = Ok grads ->
         GAN.d_optimizer o = Some d_opt ->
         apply_gradients d_opt (slots_of (world s) (optimizer_id d_opt)) (combine grads dw)
         = (Ok tt, (sl, vals)) ->
         model_id G <> model_id D ->
         weights_of (world (snd (GAN.train_step tf data s))) (model_id D)
         = write_back vals dw)
  /\ (forall tf real_ts labels (c : Frame ConditionalGAN.t)
             output_dim bs rep z c1 generated fake_data real_data combined labels01 d_loss
             is_dp d_opt sl vals,
         let o := self c in
         let D := ConditionalGAN.discriminator o in
         let G := ConditionalGAN.generator o in
         let dw := weights_of (world c1) (model_id D) in
         let recorded_d :=
           fun w => fst (ConditionalGAN.discriminator_forward combined labels01 w c1) in
         ConditionalGAN._get_output_shape o labels = Ok output_dim ->
         Tensor.shape0 real_ts = Ok bs ->
         ConditionalGAN.rep_labels o labels output_dim = Ok rep ->
         ConditionalGAN._get_random_vector_labels bs labels c = (Ok z, c1) ->
         call G (weights_of (world c1) (model_id G)) None z = Ok generated ->
         Tensor.concat [generated; rep] (-1) = Ok fake_data ->
         Tensor.concat [real_ts; rep] (-1) = Ok real_data ->
         Tensor.concat [fake_data; real_data] 0 = Ok combined ->
         ConditionalGAN.desc_labels bs = Ok labels01 ->
         recorded_d dw = Ok d_loss ->
         ConditionalGAN.dp o = Some is_dp ->
         ConditionalGAN.d_optimizer o = Some d_opt ->
         (if is_dp
          then minimize d_opt (slots_of (world c1) (optimizer_id d_opt)) recorded_d dw
                 (tape_gradient tf) = (Ok tt, (sl, vals))
          else exists grads,
                 tape_gradient tf recorded_d dw = Ok grads
                 /\ apply_gradients d_opt (slots_of (world c1) (optimizer_id d_opt))
                      (combine grads dw) = (Ok tt, (sl, vals))) ->
         model_id G <> model_id D ->
         weights_of (world (snd (ConditionalGAN.train_step tf (real_ts, labels) c)))
           (model_id D)
         = write_back vals dw)
  /\ (exists tf data (s : Frame GAN.t) e,
         let out := GAN.train_step tf data s in
         let D := model_id (GAN.discriminator (self s)) in
         let G := model_id (GAN.generator (self s)) in
         fst out = Raise e
         /\ weights_of (world (snd out)) D <> weights_of (world s) D
         /\ weights_of (world (snd out)) G = weights_of (world s) G
         /\ self (snd out) = self s)
  /\ (exists tf data (c : Frame ConditionalGAN.t) e,
         let out := ConditionalGAN.train_step tf data c in
         let D := model_id (ConditionalGAN.discriminator (self c)) in
         let G := model_id (ConditionalGAN.generator (self c)) in
         fst out = Raise e
         /\ weights_of (world (snd out)) D <> weights_of (world c) D
         /\ weights_of (world (snd out)) G = weights_of (world c) G
         /\ self (snd out) = self c).
Proof.
  split; [| split; [| split; [| split; [| split]]]].
  - intros tf data s. apply (gan_train_step_effect tf data).
    apply surjective_pairing.
  - intros tf data c. apply (cgan_train_step_effect tf data).
    apply surjective_pairing.
  - intros tf data s bs fake combined labels d_loss s_f grads d_opt sl vals.
    apply gan_discriminator_step_stays.
  - intros tf real_ts labels c output_dim bs rep z c1 generated fake_data real_data combined
      labels01 d_loss is_dp d_opt sl vals.
    apply cgan_discriminator_step_stays.
  - exists Doubles.engine, Doubles.real_batch, brittle_gan_frame,
      (ExternalError "discriminator").
    cbv zeta. repeat split; try reflexivity.
    vm_compute. discriminate.
  - exists Doubles.engine, (Doubles.real_batch, one_label), brittle_cgan_frame,
      (ExternalError "discriminator").
    cbv zeta. repeat split; try reflexivity.
    vm_compute. discriminate.
Qed.

Lemma train_step_tracker_updates_witness :
  fst (GAN.train_step Doubles.engine Doubles.real_batch brittle_gan_frame)
  = Raise (ExternalError "discriminator")
  /\ weights_of (world (snd (GAN.train_step Doubles.engine Doubles.real_batch
                               brittle_gan_frame))) 1
     = write_back [Tensor.mk [] [(2 - 1)%Q]] [Tensor.scalar 2].
Proof.
  split; [vm_compute; reflexivity |].
  eapply (proj1 (proj2 (proj2 train_step_tracker_updates))
            Doubles.engine Doubles.real_batch brittle_gan_frame).
  - reflexivity.
  - reflexivity.
  - reflexivity.
  - reflexivity.
  - reflexivity.
  - reflexivity.
  - reflexivity.
  - reflexivity.
  - cbn. lia.
Defined.

(** ** Lists and tensors *)

Lemma slice_all {A} (l : list A) : Tensor.slice l 0 (length l) = l.
Proof. unfold Tensor.slice. cbn [skipn]. apply firstn_all. Qed.

Lemma slice_app_l {A} (a b : list A) start len :
  start + len <= length a -> Tensor.slice (a ++ b) start len = Tensor.slice a start len.
Proof.
  intros H. unfold Tensor.slice. rewrite skipn_app, firstn_app, length_skipn.
  replace (len - (length a - start)) with 0 by lia.
  cbn [firstn]. apply app_nil_r.
Qed.

Lemma slice_app_r {A} (a b : list A) start len :
  Tensor.slice (a ++ b) (length a + start) len = Tensor.slice b start len.
Proof.
  unfold Tensor.slice. rewrite skipn_app.
  rewrite skipn_all2 by lia.
  replace (length a + start - length a) with start by lia. reflexivity.
Qed.

Lemma concat_compatible_axis0 (x y : nat) (rest : list nat) :
  Tensor.concat_compatible 0 (x :: rest) (y :: rest) = true.
Proof.
  unfold Tensor.concat_compatible. cbn [length]. rewrite Nat.eqb_refl. cbn [andb].
  apply forallb_forall. intros n Hn. apply in_map_iff in Hn.
  destruct Hn as (i & <- & _).
  destruct i as [| i]; [reflexivity |].
  cbn [Nat.eqb nth]. rewrite Nat.eqb_refl. reflexivity.
Qed.

(** Concatenation along the batch axis puts the rows of the first
    tensor before those of the second. *)
Lemma concat_axis0 (a b : Tensor.t) (da db : nat) (rest : list nat) :
  Tensor.shape a = da :: rest -> Tensor.shape b = db :: rest ->
  Tensor.well_formed a -> Tensor.well_formed b ->
  Tensor.concat [a; b] 0
  = Ok (Tensor.mk (da + db :: rest) (Tensor.data a ++ Tensor.data b)).
Proof.
  intros Ha Hb Wa Wb. unfold Tensor.concat, Tensor.rank.
  rewrite Ha. cbn [length Tensor.normalize_axis Z.leb Z.compare Z.to_nat Nat.ltb Nat.leb].
  cbn [forallb]. rewrite Hb, concat_compatible_axis0. cbn [andb].
  cbn [firstn Tensor.numel fold_right seq flat_map skipn map nth].
  rewrite Ha, Hb. cbn [nth Tensor.replace_nth Nat.mul].
  unfold Tensor.well_formed in Wa, Wb. rewrite Ha in Wa. rewrite Hb in Wb.
  change (fold_right Nat.mul 1 (da :: rest)) with (Tensor.numel (da :: rest)).
  change (fold_right Nat.mul 1 (db :: rest)) with (Tensor.numel (db :: rest)).
  rewrite <- Wa, <- Wb, !slice_all, !app_nil_r, Nat.add_0_r.
  reflexivity.
Qed.

Lemma desc_labels_value (bs : nat) :
  GAN.desc_labels bs = Ok (Tensor.mk [bs + bs; 1] (repeat 1%Q bs ++ repeat 0%Q bs)).
Proof.
  unfold GAN.desc_labels.
  rewrite concat_axis0 with (da := bs) (db := bs) (rest := [1]); try reflexivity.
  - unfold Tensor.ones, Tensor.zeros. cbn [Tensor.data Tensor.numel fold_right].
    rewrite !Nat.mul_1_r. reflexivity.
  - unfold Tensor.well_formed, Tensor.ones. cbn [Tensor.data Tensor.shape]. apply repeat_length.
  - unfold Tensor.well_formed, Tensor.zeros. cbn [Tensor.data Tensor.shape]. apply repeat_length.
Qed.

Lemma cgan_desc_labels_value (bs : nat) :
  ConditionalGAN.desc_labels bs = GAN.desc_labels bs.
Proof. reflexivity. Qed.

Lemma at_index_column (n : nat) (d : list Q) (i : nat) :
  i < n -> Tensor.at_index (Tensor.mk [n; 1] d) [i; 0] = nth_error d i.
Proof.
  intros Hi. unfold Tensor.at_index. cbn [Tensor.shape Tensor.data Tensor.ravel].
  destruct (Nat.ltb_spec i n) as [_ | Hge]; [| lia].
  cbn. f_equal. lia.
Qed.

(** ** Labels of the discriminator batch *)

Lemma nth_error_repeat {A} (x : A) (n i : nat) :
  i < n -> nth_error (repeat x n) i = Some x.
Proof.
  revert i. induction n as [| n IH]; intros i Hi; [lia |].
  destruct i as [| i]; [reflexivity |]. cbn. apply IH. lia.
Qed.

Lemma sample_of_concat (bs : nat) (rest : list nat) (fake real : Tensor.t) (i : nat) :
  Tensor.shape fake = bs :: rest -> Tensor.shape real = bs :: rest ->
  Tensor.well_formed fake -> Tensor.well_formed real ->
  i < bs ->
  let combined := Tensor.mk (bs + bs :: rest) (Tensor.data fake ++ Tensor.data real) in
  sample combined i = sample fake i /\ sample combined (bs + i) = sample real i.
Proof.
  intros Hf Hr Wf Wr Hi combined. unfold sample, combined.
  cbn [Tensor.shape Tensor.data tl]. rewrite Hf, Hr. cbn [tl].
  unfold Tensor.well_formed in Wf, Wr. rewrite Hf in Wf. rewrite Hr in Wr.
  cbn [Tensor.numel fold_right] in Wf, Wr.
  change (fold_right Nat.mul 1 rest) with (Tensor.numel rest) in Wf, Wr.
  split.
  - apply slice_app_l. rewrite Wf. nia.
  - replace ((bs + i) * Tensor.numel rest)
      with (length (Tensor.data fake) + i * Tensor.numel rest) by (rewrite Wf; nia).
    apply slice_app_r.
Qed.

(** C1, as the code has it.  The label vector both trainers hand to the
    loss function is [1] on the first [batch_size] rows and [0] on the
    last [batch_size] rows, while the batch the discriminator scores is
    [fake; real]: the rows that carry 1 are the generated samples and the
    rows that carry 0 are the real ones. *)
Theorem desc_labels_mark_fake_rows (bs : nat) (rest : list nat) (fake real : Tensor.t) :
  Tensor.shape fake = bs :: rest -> Tensor.shape real = bs :: rest ->
  Tensor.well_formed fake -> Tensor.well_formed real ->
  exists labels combined,
    GAN.desc_labels bs = Ok labels
    /\ ConditionalGAN.desc_labels bs = Ok labels
    /\ Tensor.concat [fake; real] 0 = Ok combined
    /\ forall i, i < bs ->
         (sample combined i = sample fake i
          /\ Tensor.at_index labels [i; 0] = Some 1%Q)
         /\ (sample combined (bs + i) = sample real i
             /\ Tensor.at_index labels [bs + i; 0] = Some 0%Q).
Proof.
  intros Hf Hr Wf Wr.
  exists (Tensor.mk [bs + bs; 1] (repeat 1%Q bs ++ repeat 0%Q bs)),
    (Tensor.mk (bs + bs :: rest) (Tensor.data fake ++ Tensor.data real)).
  split; [apply desc_labels_value |].
  split; [rewrite cgan_desc_labels_value; apply desc_labels_value |].
  split; [apply concat_axis0; assumption |].
  intros i Hi.
  destruct (sample_of_concat bs rest fake real i Hf Hr Wf Wr Hi) as [Hs1 Hs2].
  rewrite !at_index_column by lia.
  repeat split; try assumption.
  - rewrite nth_error_app1 by (rewrite repeat_length; lia).
    apply nth_error_repeat. exact Hi.
  - rewrite nth_error_app2 by (rewrite repeat_length; lia).
    rewrite repeat_length. replace (bs + i - bs) with i by lia.
    apply nth_error_repeat. exact Hi.
Qed.

Lemma desc_labels_mark_fake_rows_witness :
  exists labels combined,
    GAN.desc_labels 1 = Ok labels
    /\ Tensor.concat [Tensor.mk [1; 2; 1] [7%Q; 7%Q]; Doubles.real_batch] 0 = Ok combined
    /\ (sample combined 0 = [7%Q; 7%Q] /\ Tensor.at_index labels [0; 0] = Some 1%Q)
    /\ (sample combined 1 = [9%Q; 9%Q] /\ Tensor.at_index labels [1; 0] = Some 0%Q).
Proof.
  destruct (desc_labels_mark_fake_rows 1 [2; 1]
              (Tensor.mk [1; 2; 1] [7%Q; 7%Q]) Doubles.real_batch
              eq_refl eq_refl eq_refl eq_refl)
    as (labels & combined & Hl & _ & Hc & Hrows).
  exists labels, combined.
  destruct (Hrows 0 (Nat.lt_0_succ 0)) as [[Hs0 Ha0] [Hs1 Ha1]].
  repeat split; assumption.
Defined.

(** The arguments of the loss function in the discriminator phase of the
    unconditional trainer: the labels above, and the discriminator's
    output on [fake; real]. *)
Lemma gan_train_step_loss_call tf data (s s' : Frame GAN.t) r :
  GAN.use_wgan (self s) = false ->
  GAN.train_step tf data s = (Ok r, s') ->
  exists bs fake combined labels predictions loss d_loss,
    let o := self s in
    Tensor.shape0 data = Ok bs
    /\ call (GAN.generator o) (weights_of (world s) (model_id (GAN.generator o))) None
         (draw (Normal 0 1) [bs; GAN.latent_dim o] (world s)) = Ok fake
    /\ Tensor.concat [fake; data] 0 = Ok combined
    /\ GAN.desc_labels bs = Ok labels
    /\ call (GAN.discriminator o) (weights_of (world s) (model_id (GAN.discriminator o)))
         None combined = Ok predictions
    /\ GAN.loss_fn o = Some loss
    /\ loss labels predictions = Ok d_loss
    /\ GAN.disc_loss_tracker (self s') = update_state d_loss (GAN.disc_loss_tracker o).
Proof.
  intros Hwgan H. apply gan_train_step_ok in H.
  destruct H
    as (bs & fake & combined & labels & d_loss & s_f & grads_d & d_opt & sl & vals
        & g_loss & grads_g & g_opt & sl' & vals' & Hstep).
  cbv zeta in Hstep.
  destruct Hstep as (Hbs & Hfake & Hc & Hl & Hd & _ & _ & _ & _ & _ & _ & _ & _ & -> & _).
  apply gan_discriminator_forward_ok in Hd. destruct Hd as (preds & Hp & Hd).
  cbn [self world with_world] in Hd, Hp. rewrite Hwgan in Hd.
  destruct Hd as (_ & loss & Hloss & Hcall).
  exists bs, fake, combined, labels, preds, loss, d_loss.
  cbv zeta. repeat (split; [assumption |]). reflexivity.
Qed.

(** The same for the conditional trainer, where the label channel
    [rep_labels] is appended to the generated and to the real sequences
    before they are stacked. *)
Lemma cgan_train_step_loss_call tf real_ts labels (c c' : Frame ConditionalGAN.t) r :
  ConditionalGAN.train_step tf (real_ts, labels) c = (Ok r, c') ->
  exists output_dim bs rep z c1 generated fake_data real_data combined labels01
         predictions loss d_loss,
    let o := self c in
    ConditionalGAN._get_output_shape o labels = Ok output_dim
    /\ Tensor.shape0 real_ts = Ok bs
    /\ ConditionalGAN.rep_labels o labels output_dim = Ok rep
    /\ ConditionalGAN._get_random_vector_labels bs labels c = (Ok z, c1)
    /\ call (ConditionalGAN.generator o)
         (weights_of (world c1) (model_id (ConditionalGAN.generator o))) None z = Ok generated
    /\ Tensor.concat [generated; rep] (-1) = Ok fake_data
    /\ Tensor.concat [real_ts; rep] (-1) = Ok real_data
    /\ Tensor.concat [fake_data; real_data] 0 = Ok combined
    /\ ConditionalGAN.desc_labels bs = Ok labels01
    /\ call (ConditionalGAN.discriminator o)
         (weights_of (world c1) (model_id (ConditionalGAN.discriminator o)))
         None combined = Ok predictions
    /\ ConditionalGAN.loss_fn o = Some loss
    /\ loss labels01 predictions = Ok d_loss
    /\ ConditionalGAN.disc_loss_tracker (self c')
       = update_state d_loss (ConditionalGAN.disc_loss_tracker o).
Proof.
  intros H. apply cgan_train_step_ok in H.
  destruct H
    as (output_dim & bs & rep & z & c1 & generated & fake_data & real_data & combined
        & labels01 & d_loss & c2 & z2 & c3 & g_loss & Hstep).
  cbv zeta in Hstep.
  destruct Hstep
    as (Ho & Hbs & Hrep & Hz & Hgen & Hf & Hr & Hc & Hl & Hd & _ & _ & _ & Hself & _).
  pose proof Hz as K. apply keeps_self_cgan_random_vector in K.
  apply cgan_discriminator_forward_ok in Hd.
  destruct Hd as (_ & preds & loss & Hp & Hloss & Hcall).
  rewrite K in Hp, Hloss.
  exists output_dim, bs, rep, z, c1, generated, fake_data, real_data, combined, labels01,
    preds, loss, d_loss.
  cbv zeta. repeat (split; [assumption |]).
  rewrite Hself. reflexivity.
Qed.

(** With the loss that adds up the scores of the rows labelled 1, and a
    discriminator that scores a sample by its first entry, the first
    discriminator loss is the score 7 of the generated sample, not the
    score 9 of the real one. *)
Example gan_step_scores_fake_row :
  GAN.disc_loss_tracker
    (self (snd (GAN.train_step Doubles.engine Doubles.real_batch (gan_frame false))))
  = {| total := Qmake 7 1; count := Qmake 1 1 |}.
Proof. vm_compute. reflexivity. Qed.

Example cgan_step_scores_fake_row :
  ConditionalGAN.disc_loss_tracker
    (self (snd (ConditionalGAN.train_step Doubles.engine (Doubles.real_batch, one_label)
                  (cgan_frame false))))
  = {| total := Qmake 7 1; count := Qmake 1 1 |}.
Proof. vm_compute. reflexivity. Qed.

(** ** The label channel *)

Lemma length_flat_map_repeat {A} (l : list A) (n : nat) :
  length (flat_map (fun v => repeat v n) l) = length l * n.
Proof.
  induction l as [| x l IH]; [reflexivity |].
  cbn [flat_map length]. rewrite length_app, repeat_length, IH. lia.
Qed.

(** Entry [i] of a list whose entries were each repeated [n] times. *)
Lemma nth_error_flat_map_repeat {A} (l : list A) (n i : nat) :
  0 < n ->
  nth_error (flat_map (fun v => repeat v n) l) i = nth_error l (i / n).
Proof.
  intros Hn. revert i. induction l as [| x l IH]; intros i.
  - cbn. destruct i, (_ / n); reflexivity.
  - cbn [flat_map]. destruct (Nat.lt_ge_cases i n) as [Hlt | Hge].
    + rewrite nth_error_app1 by (rewrite repeat_length; exact Hlt).
      rewrite Nat.div_small by exact Hlt. cbn. apply nth_error_repeat. exact Hlt.
    + rewrite nth_error_app2 by (rewrite repeat_length; exact Hge).
      rewrite repeat_length, IH.
      replace i with ((i - n) + 1 * n) at 2 by lia.
      rewrite Nat.div_add by lia.
      rewrite Nat.add_1_r. reflexivity.
Qed.

Lemma at_index_rank3 (B T D : nat) (d : list Q) (b t k : nat) :
  b < B -> t < T -> k < D ->
  Tensor.at_index (Tensor.mk [B; T; D] d) [b; t; k] = nth_error d ((b * T + t) * D + k).
Proof.
  intros Hb Ht Hk. unfold Tensor.at_index. cbn [Tensor.shape Tensor.data Tensor.ravel].
  destruct (Nat.ltb_spec b B); [| lia].
  destruct (Nat.ltb_spec t T); [| lia].
  destruct (Nat.ltb_spec k D); [| lia].
  cbn [option_map Tensor.numel fold_right]. f_equal. nia.
Qed.

Lemma at_index_rank2 (B D : nat) (d : list Q) (b k : nat) :
  b < B -> k < D ->
  Tensor.at_index (Tensor.mk [B; D] d) [b; k] = nth_error d (b * D + k).
Proof.
  intros Hb Hk. unfold Tensor.at_index. cbn [Tensor.shape Tensor.data Tensor.ravel].
  destruct (Nat.ltb_spec b B); [| lia].
  destruct (Nat.ltb_spec k D); [| lia].
  cbn [option_map Tensor.numel fold_right]. f_equal. nia.
Qed.

Lemma rep_labels_static_value (me : ConditionalGAN.t) (labels : Tensor.t) (B D T : nat) :
  ConditionalGAN._temporal me = false ->
  ConditionalGAN._seq_len me = Some T ->
  Tensor.shape labels = [B; D] -> Tensor.well_formed labels ->
  0 < T -> 0 < D ->
  ConditionalGAN.rep_labels me labels D
  = Ok (Tensor.mk [B; T; D] (flat_map (fun v => repeat v T) (Tensor.data labels))).
Proof.
  intros Htemp Hseq Hsh Wf HT HD.
  unfold ConditionalGAN.rep_labels, Tensor.getitem_slice_slice_newaxis.
  rewrite Htemp, Hseq, Hsh. cbn [negb].
  unfold Tensor.reshape_infer, Tensor.repeat_flat. cbn [Tensor.data].
  rewrite length_flat_map_repeat.
  unfold Tensor.well_formed in Wf. rewrite Hsh in Wf. cbn [Tensor.numel fold_right] in Wf.
  rewrite Wf.
  destruct (Nat.eqb_spec (T * D) 0) as [H0 | _]; [nia |].
  replace (B * (D * 1) * T) with (B * (T * D)) by nia.
  rewrite Nat.Div0.mod_mul, Nat.div_mul by nia.
  reflexivity.
Qed.

(** C3, as the code has it.  For labels of shape (B, label_dim) the
    non-temporal trainer builds [rep_labels] of shape
    (B, seq_len, label_dim), and appends it on the last axis to the
    generated and to the real sequences before the discriminator sees
    them.  Its entries are those of the flattened labels, each repeated
    seq_len times in a row and then cut into rows of label_dim:
    rep_labels[b, t, k] is entry ((b * seq_len + t) * label_dim + k) / seq_len
    of the flattened labels.  That is labels[b, k], the label of sample b
    at every timestep, when label_dim is 1. *)
Theorem rep_labels_entries (me : ConditionalGAN.t) (labels : Tensor.t) (B D T : nat) :
  ConditionalGAN._temporal me = false ->
  ConditionalGAN._seq_len me = Some T ->
  Tensor.shape labels = [B; D] -> Tensor.well_formed labels ->
  0 < T -> 0 < D ->
  exists rep,
    ConditionalGAN._get_output_shape me labels = Ok D
    /\ ConditionalGAN.rep_labels me labels D = Ok rep
    /\ Tensor.shape rep = [B; T; D]
    /\ (forall b t k, b < B -> t < T -> k < D ->
        Tensor.at_index rep [b; t; k]
        = nth_error (Tensor.data labels) (((b * T + t) * D + k) / T))
    /\ (D = 1 -> forall b t, b < B -> t < T ->
        Tensor.at_index rep [b; t; 0] = Tensor.at_index labels [b; 0])
    /\ (forall tf real_ts (c c' : Frame ConditionalGAN.t) r,
        self c = me ->
        ConditionalGAN.train_step tf (real_ts, labels) c = (Ok r, c') ->
        exists generated fake_data real_data combined dw predictions,
          Tensor.concat [generated; rep] (-1) = Ok fake_data
          /\ Tensor.concat [real_ts; rep] (-1) = Ok real_data
          /\ Tensor.concat [fake_data; real_data] 0 = Ok combined
          /\ call (ConditionalGAN.discriminator me) dw None combined = Ok predictions).
Proof.
  intros Htemp Hseq Hsh Wf HT HD.
  assert (Hout : ConditionalGAN._get_output_shape me labels = Ok D).
  { unfold ConditionalGAN._get_output_shape, Tensor.shape_getitem.
    rewrite Htemp, Hsh. reflexivity. }
  pose proof (rep_labels_static_value me labels B D T Htemp Hseq Hsh Wf HT HD) as Hrep.
  eexists. split; [exact Hout |]. split; [exact Hrep |]. split; [reflexivity |].
  assert (Hentry : forall b t k, b < B -> t < T -> k < D ->
            Tensor.at_index
              (Tensor.mk [B; T; D] (flat_map (fun v => repeat v T) (Tensor.data labels)))
              [b; t; k]
            = nth_error (Tensor.data labels) (((b * T + t) * D + k) / T)).
  { intros b t k Hb Ht Hk. rewrite at_index_rank3 by assumption.
    apply nth_error_flat_map_repeat. exact HT. }
  split; [exact Hentry |].
  split.
  - intros -> b t Hb Ht. rewrite Hentry by lia.
    destruct labels as [sh d]. cbn [Tensor.shape Tensor.data] in *. subst sh.
    rewrite at_index_rank2 by lia.
    f_equal.
    replace ((b * T + t) * 1 + 0) with (t + b * T) by lia.
    rewrite Nat.div_add by lia.
    rewrite Nat.div_small by exact Ht. lia.
  - intros tf real_ts c c' r Hme Hstep. subst me.
    apply cgan_train_step_loss_call in Hstep.
    destruct Hstep
      as (output_dim & bs & rep & z & c1 & generated & fake_data & real_data & combined
          & labels01 & preds & loss & d_loss & Hs).
    cbv zeta in Hs.
    destruct Hs as (Ho & _ & Hr & _ & _ & Hf & Hre & Hc & _ & Hp & _).
    rewrite Hout in Ho. injection Ho as <-.
    rewrite Hrep in Hr. injection Hr as <-.
    exists generated, fake_data, real_data, combined,
      (weights_of (world c1) (model_id (ConditionalGAN.discriminator (self c)))), preds.
    repeat split; assumption.
Qed.

Lemma rep_labels_entries_witness :
  exists rep,
    ConditionalGAN.rep_labels (Doubles.plain_cgan false) (Tensor.mk [1; 2] [1%Q; 2%Q]) 2 = Ok rep
    /\ Tensor.at_index rep [0; 0; 1] = Some 1%Q
    /\ Tensor.at_index (Tensor.mk [1; 2] [1%Q; 2%Q]) [0; 1] = Some 2%Q.
Proof.
  destruct (rep_labels_entries (Doubles.plain_cgan false) (Tensor.mk [1; 2] [1%Q; 2%Q]) 1 2 2
              eq_refl eq_refl eq_refl eq_refl (Nat.lt_0_succ 1) (Nat.lt_0_succ 1))
    as (rep & _ & Hrep & _ & Hentry & _).
  exists rep. split; [exact Hrep |]. split; [| reflexivity].
  rewrite (Hentry 0 0 1 (Nat.lt_0_succ 0) (Nat.lt_0_succ 1) (Nat.lt_succ_diag_r 1)).
  reflexivity.
Defined.

(** On labels [[1, 2]] with two timesteps the channel is
    [[[1, 1], [2, 2]]], where broadcasting the label of the sample over
    the timesteps would give [[[1, 2], [1, 2]]]. *)
Example rep_labels_two_classes :
  ConditionalGAN.rep_labels (Doubles.plain_cgan false) (Tensor.mk [1; 2] [1%Q; 2%Q]) 2
  = Ok (Tensor.mk [1; 2; 2] [1%Q; 1%Q; 2%Q; 2%Q]).
Proof. reflexivity. Qed.

(** ** The generator input of the conditional trainer *)

Lemma length_slice {A} (l : list A) (start len : nat) :
  start + len <= length l -> length (Tensor.slice l start len) = len.
Proof.
  intros H. unfold Tensor.slice. rewrite length_firstn, length_skipn. lia.
Qed.

Lemma nth_error_slice {A} (l : list A) (start len j : nat) :
  j < len -> nth_error (Tensor.slice l start len) j = nth_error l (start + j).
Proof.
  intros Hj. unfold Tensor.slice. rewrite nth_error_firstn, nth_error_skipn.
  destruct (Nat.ltb_spec j len); [reflexivity | lia].
Qed.

Lemma length_flat_map_chunks {A} (f : nat -> list A) (n m : nat) :
  (forall o, o < m -> length (f o) = n) ->
  length (flat_map f (seq 0 m)) = m * n.
Proof.
  induction m as [| m IH]; intros Hlen; [reflexivity |].
  rewrite seq_S, flat_map_app, length_app, IH by (intros o Ho; apply Hlen; lia).
  cbn [flat_map Nat.add]. rewrite app_nil_r, Hlen by lia. lia.
Qed.

(** Entry [j] of chunk [o] in a concatenation of [m] chunks of length [n]. *)
Lemma nth_error_flat_map_chunks {A} (f : nat -> list A) (n m o j : nat) :
  (forall i, i < m -> length (f i) = n) ->
  o < m -> j < n ->
  nth_error (flat_map f (seq 0 m)) (o * n + j) = nth_error (f o) j.
Proof.
  induction m as [| m IH]; intros Hlen Ho Hj; [lia |].
  rewrite seq_S, flat_map_app. cbn [flat_map Nat.add]. rewrite app_nil_r.
  assert (Hpre : length (flat_map f (seq 0 m)) = m * n)
    by (apply length_flat_map_chunks; intros i Hi; apply Hlen; lia).
  destruct (Nat.eq_dec o m) as [-> | Hne].
  - rewrite nth_error_app2 by (rewrite Hpre; lia).
    rewrite Hpre. f_equal. lia.
  - rewrite nth_error_app1 by (rewrite Hpre; nia).
    apply IH; [intros i Hi; apply Hlen; lia | lia | exact Hj].
Qed.

(** Entry [j] of row [o] when rows of length [L] and rows of length [D]
    are laid side by side. *)
Lemma nth_error_side_by_side {A} (da db : list A) (M L D o j : nat) :
  length da = M * L -> length db = M * D -> o < M -> j < L + D ->
  nth_error
    (flat_map (fun o => Tensor.slice da (o * L) L ++ Tensor.slice db (o * D) D ++ [])
       (seq 0 M))
    (o * (L + D) + j)
  = if j <? L then nth_error da (o * L + j) else nth_error db (o * D + (j - L)).
Proof.
  intros Wa Wb Ho Hj.
  rewrite (nth_error_flat_map_chunks _ (L + D) M o j); try assumption.
  - rewrite app_nil_r.
    destruct (Nat.ltb_spec j L) as [Hlt | Hge].
    + rewrite nth_error_app1 by (rewrite length_slice; [exact Hlt | nia]).
      apply nth_error_slice. exact Hlt.
    + rewrite nth_error_app2 by (rewrite length_slice; [exact Hge | nia]).
      rewrite length_slice by nia.
      apply nth_error_slice. lia.
  - intros k Hk. rewrite app_nil_r, length_app, !length_slice by nia. reflexivity.
Qed.

Lemma draw_well_formed d sh w : Tensor.well_formed (draw d sh w).
Proof.
  unfold Tensor.well_formed, draw. cbn [Tensor.data Tensor.shape].
  rewrite length_map, length_seq. reflexivity.
Qed.

Lemma concat_compatible_axis1_rank2 (B L D : nat) :
  Tensor.concat_compatible 1 [B; L] [B; D] = true.
Proof.
  unfold Tensor.concat_compatible. cbn [length Nat.eqb andb seq map nth forallb].
  rewrite Nat.eqb_refl. reflexivity.
Qed.

(** Concatenation of a (B, L) and a (B, D) tensor along axis 1. *)
Lemma concat_axis1_rank2 (a b : Tensor.t) (B L D : nat) :
  Tensor.shape a = [B; L] -> Tensor.shape b = [B; D] ->
  Tensor.well_formed a -> Tensor.well_formed b ->
  exists x,
    Tensor.concat [a; b] 1 = Ok x
    /\ Tensor.shape x = [B; L + D]
    /\ forall i j, i < B -> j < L + D ->
         Tensor.at_index x [i; j]
         = if j <? L then Tensor.at_index a [i; j] else Tensor.at_index b [i; j - L].
Proof.
  intros Ha Hb Wa Wb. destruct a as [sa da], b as [sb db].
  cbn [Tensor.shape] in Ha, Hb. subst sa sb.
  unfold Tensor.well_formed in Wa, Wb. cbn [Tensor.shape Tensor.data Tensor.numel fold_right] in Wa, Wb.
  unfold Tensor.concat, Tensor.rank. cbn [Tensor.shape length].
  change (Tensor.normalize_axis 2 1) with (Some 1).
  cbn [forallb Tensor.shape]. rewrite (concat_compatible_axis1_rank2 B L D). cbn [andb].
  eexists. split; [reflexivity |].
  cbn [Tensor.replace_nth map nth fold_right Tensor.shape Tensor.data firstn skipn
         Tensor.numel flat_map].
  split; [rewrite Nat.add_0_r; reflexivity |].
  intros i j Hi Hj. rewrite Nat.add_0_r, !Nat.mul_1_r.
  rewrite Nat.mul_1_r in Wa, Wb.
  rewrite at_index_rank2 by assumption.
  rewrite (nth_error_side_by_side da db B L D i j Wa Wb Hi Hj).
  destruct (Nat.ltb_spec j L); rewrite at_index_rank2 by lia; reflexivity.
Qed.

Lemma concat_compatible_axis2_rank3 (B T L D : nat) :
  Tensor.concat_compatible 2 [B; T; L] [B; T; D] = true.
Proof.
  unfold Tensor.concat_compatible. cbn [length Nat.eqb andb seq map nth forallb].
  rewrite !Nat.eqb_refl. reflexivity.
Qed.

(** Concatenation of a (B, T, L) and a (B, T, D) tensor along axis 2. *)
Lemma concat_axis2_rank3 (a b : Tensor.t) (B T L D : nat) :
  Tensor.shape a = [B; T; L] -> Tensor.shape b = [B; T; D] ->
  Tensor.well_formed a -> Tensor.well_formed b ->
  exists x,
    Tensor.concat [a; b] 2 = Ok x
    /\ Tensor.shape x = [B; T; L + D]
    /\ forall i t j, i < B -> t < T -> j < L + D ->
         Tensor.at_index x [i; t; j]
         = if j <? L then Tensor.at_index a [i; t; j] else Tensor.at_index b [i; t; j - L].
Proof.
  intros Ha Hb Wa Wb. destruct a as [sa da], b as [sb db].
  cbn [Tensor.shape] in Ha, Hb. subst sa sb.
  unfold Tensor.well_formed in Wa, Wb. cbn [Tensor.shape Tensor.data Tensor.numel fold_right] in Wa, Wb.
  unfold Tensor.concat, Tensor.rank. cbn [Tensor.shape length].
  change (Tensor.normalize_axis 3 2) with (Some 2).
  cbn [forallb Tensor.shape]. rewrite (concat_compatible_axis2_rank3 B T L D). cbn [andb].
  eexists. split; [reflexivity |].
  cbn [Tensor.replace_nth map nth fold_right Tensor.shape Tensor.data firstn skipn
         Tensor.numel flat_map].
  split; [rewrite Nat.add_0_r; reflexivity |].
  intros i t j Hi Ht Hj. rewrite Nat.add_0_r, !Nat.mul_1_r.
  rewrite Nat.mul_1_r, Nat.mul_assoc in Wa, Wb.
  rewrite at_index_rank3 by assumption.
  assert (Ho : i * T + t < B * T) by nia.
  rewrite (nth_error_side_by_side da db (B * T) L D (i * T + t) j Wa Wb Ho Hj).
  destruct (Nat.ltb_spec j L); rewrite at_index_rank3 by lia; reflexivity.
Qed.

Lemma at_index_newaxis (B T : nat) (d : list Q) (i t : nat) :
  i < B -> t < T ->
  Tensor.at_index (Tensor.mk [B; T; 1] d) [i; t; 0] = Tensor.at_index (Tensor.mk [B; T] d) [i; t].
Proof.
  intros Hi Ht. rewrite at_index_rank3, at_index_rank2 by lia. f_equal. lia.
Qed.

Lemma concat_rank_mismatch (a b : Tensor.t) (axis : Z) :
  Tensor.rank a <> Tensor.rank b -> Tensor.concat [a; b] axis = Raise InvalidArgumentError.
Proof.
  intros Hr. unfold Tensor.concat.
  destruct (Tensor.normalize_axis (Tensor.rank a) axis) as [ax |]; [| reflexivity].
  cbn [forallb]. unfold Tensor.concat_compatible.
  destruct (Nat.eqb_spec (length (Tensor.shape a)) (length (Tensor.shape b))) as [E | _];
    [contradiction |].
  reflexivity.
Qed.

(** C8, as the code has it.  [_get_random_vector_labels] of the
    conditional trainer returns, when not temporal and for labels of
    shape (B, label_dim), the (B, latent_dim) latent vector followed by
    the labels on axis 1, of shape (B, latent_dim + label_dim); when
    temporal and for labels of shape (B, seq_len), the
    (B, seq_len, latent_dim) latent tensor followed by the labels as one
    more channel, of shape (B, seq_len, latent_dim + 1).  When temporal
    and for 3-D labels it raises, although [_get_output_shape] accepts
    such labels: the new axis is added to them as well, and a 4-D tensor
    cannot be concatenated to the 3-D latent tensor. *)
Theorem cgan_random_vector_labels_cases
    (bs : nat) (labels : Tensor.t) (c : Frame ConditionalGAN.t) :
  let o := self c in
  let L := ConditionalGAN.latent_dim o in
  let out := fst (ConditionalGAN._get_random_vector_labels bs labels c) in
  (ConditionalGAN._temporal o = false ->
   forall D, Tensor.shape labels = [bs; D] -> Tensor.well_formed labels ->
   exists x,
     out = Ok x
     /\ Tensor.shape x = [bs; L + D]
     /\ forall i j, i < bs -> j < L + D ->
          Tensor.at_index x [i; j]
          = if j <? L
            then Tensor.at_index (draw (Normal 0 1) [bs; L] (world c)) [i; j]
            else Tensor.at_index labels [i; j - L])
  /\ (ConditionalGAN._temporal o = true ->
      forall T, ConditionalGAN._seq_len o = Some T ->
      Tensor.shape labels = [bs; T] -> Tensor.well_formed labels ->
      exists x,
        out = Ok x
        /\ Tensor.shape x = [bs; T; L + 1]
        /\ forall i t j, i < bs -> t < T -> j < L + 1 ->
             Tensor.at_index x [i; t; j]
             = if j <? L
               then Tensor.at_index (draw (Normal 0 1) [bs; T; L] (world c)) [i; t; j]
               else Tensor.at_index labels [i; t])
  /\ (ConditionalGAN._temporal o = true ->
      forall T d0 d1 d2, ConditionalGAN._seq_len o = Some T ->
      Tensor.shape labels = [d0; d1; d2] ->
      out = Raise InvalidArgumentError
      /\ ConditionalGAN._get_output_shape o labels = Ok d2).
Proof.
  intros o L out. subst out.
  unfold ConditionalGAN._get_random_vector_labels, bind, get_state.
  fold o. fold L.
  split; [| split].
  - intros Htemp D Hsh Wf. rewrite Htemp.
    unfold tf_random_normal, tf_random, lift. cbn [fst].
    destruct (concat_axis1_rank2 (draw (Normal 0 1) [bs; L] (world c)) labels bs L D
                eq_refl Hsh (draw_well_formed _ _ _) Wf) as (x & Hx & Hshape & Hentries).
    exists x. split; [exact Hx |]. split; [exact Hshape | exact Hentries].
  - intros Htemp T Hseq Hsh Wf. rewrite Htemp, Hseq.
    unfold ConditionalGAN.as_dim, ret, tf_random_normal, tf_random, lift,
      Tensor.getitem_slice_slice_newaxis.
    rewrite Hsh. cbn [fst].
    destruct labels as [sh d]. cbn [Tensor.shape Tensor.data] in *. subst sh.
    assert (Wc : Tensor.well_formed (Tensor.mk [bs; T; 1] d)).
    { unfold Tensor.well_formed in *. cbn [Tensor.shape Tensor.data Tensor.numel fold_right] in *.
      lia. }
    destruct (concat_axis2_rank3 (draw (Normal 0 1) [bs; T; L] (world c))
                (Tensor.mk [bs; T; 1] d) bs T L 1
                eq_refl eq_refl (draw_well_formed _ _ _) Wc) as (x & Hx & Hshape & Hentries).
    exists x. split; [exact Hx |]. split; [exact Hshape |].
    intros i t j Hi Ht Hj. rewrite (Hentries i t j Hi Ht Hj).
    destruct (Nat.ltb_spec j L) as [_ | Hge]; [reflexivity |].
    replace (j - L) with 0 by lia. apply at_index_newaxis; assumption.
  - intros Htemp T d0 d1 d2 Hseq Hsh. rewrite Htemp, Hseq.
    unfold ConditionalGAN.as_dim, ret, tf_random_normal, tf_random, lift,
      Tensor.getitem_slice_slice_newaxis.
    rewrite Hsh. cbn [fst]. split.
    + apply concat_rank_mismatch. unfold Tensor.rank. cbn. discriminate.
    + unfold ConditionalGAN._get_output_shape, Tensor.shape_getitem.
      fold o. rewrite Htemp, Hsh. reflexivity.
Qed.

Lemma cgan_random_vector_labels_cases_witness :
  (* five labels per sample, not temporal: 3 + 5 features *)
  (exists x, fst (ConditionalGAN._get_random_vector_labels 2 (Tensor.zeros [2; 5])
                    (cgan_frame false)) = Ok x
             /\ Tensor.shape x = [2; 8])
  (* one label per timestep: 3 + 1 channels *)
  /\ (exists x, fst (ConditionalGAN._get_random_vector_labels 1 (Tensor.zeros [1; 2])
                       (cgan_frame true)) = Ok x
                /\ Tensor.shape x = [1; 2; 4])
  (* two labels per timestep: the call raises *)
  /\ fst (ConditionalGAN._get_random_vector_labels 1 (Tensor.zeros [1; 2; 2])
            (cgan_frame true)) = Raise InvalidArgumentError.
Proof.
  split; [| split].
  - destruct (cgan_random_vector_labels_cases 2 (Tensor.zeros [2; 5]) (cgan_frame false))
      as (Hstatic & _ & _).
    destruct (Hstatic eq_refl 5 eq_refl eq_refl) as (x & Hx & Hshape & _).
    exists x. split; [exact Hx | exact Hshape].
  - destruct (cgan_random_vector_labels_cases 1 (Tensor.zeros [1; 2]) (cgan_frame true))
      as (_ & Htemporal & _).
    destruct (Htemporal eq_refl 2 eq_refl eq_refl eq_refl) as (x & Hx & Hshape & _).
    exists x. split; [exact Hx | exact Hshape].
  - destruct (cgan_random_vector_labels_cases 1 (Tensor.zeros [1; 2; 2]) (cgan_frame true))
      as (_ & _ & Hraise).
    destruct (Hraise eq_refl 2 1 2 2 eq_refl eq_refl) as [Hr _]. exact Hr.
Defined.

(** ** The mixing coefficient of the gradient penalty *)

Lemma world0_faithful : faithful_entropy Doubles.world0.
Proof.
  intros [mean stddev | lo hi] n; cbn; [exact I |].
  intros Hlt. split; [apply Qle_refl | exact Hlt].
Qed.

(** What a uniform draw would guarantee: every entry in [0, 1). *)
Lemma uniform_draw_in_unit_interval (sh : list nat) (w : World) (x : Q) :
  faithful_entropy w ->
  In x (Tensor.data (draw (Uniform 0 1) sh w)) -> (0 <= x /\ x < 1)%Q.
Proof.
  intros Hw Hin. unfold draw in Hin. cbn [Tensor.data] in Hin.
  apply in_map_iff in Hin. destruct Hin as (i & <- & _).
  apply (Hw (Uniform 0 1)). reflexivity.
Qed.

(** C2, as the code has it.  The mixing coefficients of
    [gradient_penalty] are one number per sample, shape
    (batch_size, 1, 1), drawn with [tf.random.normal] at mean 0 and
    standard deviation 1, not with [tf.random.uniform] on [0, 1): a
    coefficient can be 3/2, and the "interpolated" sample then lies
    beyond the fake one (real 0, fake 2, interpolated 3). *)
Theorem gradient_penalty_alpha_is_normal :
  (forall bs (s : Frame GAN.t),
      fst (GAN.gradient_penalty_alpha bs s) = Ok (draw (Normal 0 1) [bs; 1; 1] (world s))
      /\ Tensor.shape (draw (Normal 0 1) [bs; 1; 1] (world s)) = [bs; 1; 1]
      /\ length (Tensor.data (draw (Normal 0 1) [bs; 1; 1] (world s))) = bs)
  /\ (forall bs real fake (s : Frame GAN.t),
         fst (GAN.gradient_penalty_interpolated bs real fake s)
         = rbind (Tensor.sub fake real)
             (fun diff => rbind (Tensor.mul (draw (Normal 0 1) [bs; 1; 1] (world s)) diff)
                            (fun scaled => Tensor.add real scaled)))
  /\ faithful_entropy Doubles.world0
  /\ fst (GAN.gradient_penalty_alpha 1 (gan_frame true))
     = Ok (Tensor.mk [1; 1; 1] [Qmake 3 2])
  /\ (1 <= Qmake 3 2)%Q
  /\ fst (GAN.gradient_penalty_interpolated 1
            (Tensor.mk [1; 2; 1] [0%Q; 0%Q]) (Tensor.mk [1; 2; 1] [2%Q; 2%Q])
            (gan_frame true))
     = Ok (Tensor.mk [1; 2; 1] [Qmake 6 2; Qmake 6 2])
  /\ (Qmake 6 2 == 3)%Q.
Proof.
  split.
  { intros bs s. split; [reflexivity |]. split; [reflexivity |].
    unfold draw. cbn [Tensor.data Tensor.numel fold_right].
    rewrite length_map, length_seq. lia. }
  split.
  { intros bs real fake s.
    unfold GAN.gradient_penalty_interpolated, GAN.gradient_penalty_alpha,
      tf_random_normal, tf_random, bind, lift, rbind.
    destruct (Tensor.sub fake real) as [diff | e]; [| reflexivity].
    destruct (Tensor.mul _ diff) as [scaled | e]; reflexivity. }
  split; [exact world0_faithful |].
  split; [reflexivity |].
  split; [discriminate |].
  split; reflexivity.
Qed.

(** * Further properties *)

(** ** What a training step leaves alone *)

Lemma world_frame_refl models optimizers w : world_frame models optimizers w w.
Proof. repeat split; auto. Qed.

(** Closes a goal [world_frame _ _ w w'] where [w'] is [w] after draws and
    optimizer steps on listed models and optimizers. *)
Ltac world_frame_solve :=
  unfold world_frame, after_optimizer;
  cbn [weights_of slots_of entropy rng_counter records
         set_weights_of set_slots_of advance_rng In];
  repeat split; try reflexivity; try lia;
  intros id Hid;
  repeat match goal with
         | |- context [id =? ?x] =>
             destruct (Nat.eqb_spec id x); [exfalso; apply Hid; cbn; auto 6 |]
         end;
  reflexivity.

(** X1. A training step of the unconditional trainer, whether it returns
    or raises, changes nothing but the variables of its discriminator and
    generator, the slots of its two optimizers, the draw counter, which
    only moves forward, and, on the trainer object, the two loss
    trackers.  The variables of every other model and the slots of every
    other optimizer in the store, the random source, the log and every
    other attribute of the trainer are as before. *)
Theorem gan_train_step_frame tf data (s : Frame GAN.t) :
  world_frame
    [model_id (GAN.discriminator (self s)); model_id (GAN.generator (self s))]
    (bound_optimizer_ids (GAN.d_optimizer (self s)) (GAN.g_optimizer (self s)))
    (world s) (world (snd (GAN.train_step tf data s)))
  /\ exists g d,
       self (snd (GAN.train_step tf data s))
       = GAN.set_disc_loss_tracker d (GAN.set_gen_loss_tracker g (self s)).
Proof.
  split.
  - apply (wp_run (GAN.train_step tf data)
             (fun _ s' => world_frame
                [model_id (GAN.discriminator (self s)); model_id (GAN.generator (self s))]
                (bound_optimizer_ids (GAN.d_optimizer (self s)) (GAN.g_optimizer (self s)))
                (world s) (world s'))).
    unfold GAN.train_step. cbv zeta.
    repeat wp_step; unfold bound_optimizer_ids; world_frame_solve.
  - destruct (GAN.train_step tf data s) as [r s'] eqn:E.
    pose proof (gan_train_step_effect tf data s r s' E) as H.
    unfold gan_step_effect in H. cbn [snd]. destruct r as [d | e].
    + destruct H as (g_loss & d_loss & -> & _). eexists _, _. reflexivity.
    + rewrite H. exists (GAN.gen_loss_tracker (self s)), (GAN.disc_loss_tracker (self s)).
      destruct (self s). reflexivity.
Qed.

(** X2. A training step of the conditional trainer, whether it returns
    or raises and on either of its optimizer paths, changes nothing but
    the variables of its discriminator and generator, the slots of its
    two optimizers, the draw counter, which only moves forward, and, on
    the trainer object, the two loss trackers.  The variables of every
    other model and the slots of every other optimizer in the store, the
    random source, the log and every other attribute of the trainer are
    as before. *)
Theorem cgan_train_step_frame tf data (c : Frame ConditionalGAN.t) :
  world_frame
    [model_id (ConditionalGAN.discriminator (self c));
     model_id (ConditionalGAN.generator (self c))]
    (bound_optimizer_ids (ConditionalGAN.d_optimizer (self c))
       (ConditionalGAN.g_optimizer (self c)))
    (world c) (world (snd (ConditionalGAN.train_step tf data c)))
  /\ exists g d,
       self (snd (ConditionalGAN.train_step tf data c))
       = ConditionalGAN.set_disc_loss_tracker d
           (ConditionalGAN.set_gen_loss_tracker g (self c)).
Proof.
  split.
  - apply (wp_run (ConditionalGAN.train_step tf data)
             (fun _ c' => world_frame
                [model_id (ConditionalGAN.discriminator (self c));
                 model_id (ConditionalGAN.generator (self c))]
                (bound_optimizer_ids (ConditionalGAN.d_optimizer (self c))
                   (ConditionalGAN.g_optimizer (self c)))
                (world c) (world c'))).
    unfold ConditionalGAN.train_step. destruct data as [real_ts labels]. cbv zeta.
    repeat wp_step; unfold bound_optimizer_ids; world_frame_solve.
  - destruct (ConditionalGAN.train_step tf data c) as [r c'] eqn:E.
    pose proof (cgan_train_step_effect tf data c r c' E) as H.
    unfold cgan_step_effect in H. cbn [snd]. destruct r as [d | e].
    + destruct H as (g_loss & d_loss & -> & _). eexists _, _. reflexivity.
    + rewrite H.
      exists (ConditionalGAN.gen_loss_tracker (self c)),
        (ConditionalGAN.disc_loss_tracker (self c)).
      destruct (self c). reflexivity.
Qed.

(** ** Construction, [compile] and the attributes they fix *)

Lemma gan_init_unbound D G n wgan o :
  GAN.__init__ D G n wgan = Ok o ->
  GAN.d_optimizer o = None /\ GAN.g_optimizer o = None /\ GAN.loss_fn o = None
  /\ GAN.dp o = None.
Proof.
  unfold GAN.__init__. destruct (nth_error (output_shape G) 1); [| discriminate].
  intros [= <-]. repeat split.
Qed.

Lemma cgan_init_unbound D G n temporal wgan o :
  ConditionalGAN.__init__ D G n temporal wgan = Ok o ->
  ConditionalGAN.d_optimizer o = None /\ ConditionalGAN.g_optimizer o = None
  /\ ConditionalGAN.loss_fn o = None /\ ConditionalGAN.dp o = None.
Proof.
  unfold ConditionalGAN.__init__. destruct (nth_error (output_shape G) 1); [| discriminate].
  intros [= <-]. repeat split.
Qed.

(** X3. A trainer that has been constructed and not compiled cannot be
    trained: on either trainer [train_step] raises, whatever the batch
    and the store, and leaves the trainer as it was. *)
Theorem train_step_needs_compile :
  (forall D G n wgan o tf data w,
      GAN.__init__ D G n wgan = Ok o ->
      exists e, fst (GAN.train_step tf data {| self := o; world := w |}) = Raise e
                /\ self (snd (GAN.train_step tf data {| self := o; world := w |})) = o)
  /\ (forall D G n temporal wgan o tf data w,
         ConditionalGAN.__init__ D G n temporal wgan = Ok o ->
         exists e,
           fst (ConditionalGAN.train_step tf data {| self := o; world := w |}) = Raise e
           /\ self (snd (ConditionalGAN.train_step tf data {| self := o; world := w |})) = o).
Proof.
  split.
  - intros D G n wgan o tf data w Hinit.
    destruct (gan_init_unbound _ _ _ _ _ Hinit) as (Hd & _).
    destruct (GAN.train_step tf data {| self := o; world := w |}) as [[r | e] s'] eqn:Hstep.
    + exfalso. apply gan_train_step_ok in Hstep.
      destruct Hstep as (bs & fake & combined & labels & d_loss & s_f & grads_d & d_opt
                         & sl & vals & g_loss & grads_g & g_opt & sl' & vals' & Hs).
      cbv zeta in Hs. cbn [self] in Hs.
      destruct Hs as (_ & _ & _ & _ & _ & _ & _ & Hopt & _). congruence.
    + exists e. split; [reflexivity |].
      apply (gan_train_step_effect tf data) in Hstep. exact Hstep.
  - intros D G n temporal wgan o tf [real_ts labels] w Hinit.
    destruct (cgan_init_unbound _ _ _ _ _ _ Hinit) as (_ & _ & Hloss & _).
    destruct (ConditionalGAN.train_step tf (real_ts, labels) {| self := o; world := w |})
      as [[r | e] s'] eqn:Hstep.
    + exfalso. apply cgan_train_step_loss_call in Hstep.
      destruct Hstep as (output_dim & bs & rep & z & c1 & generated & fake_data & real_data
                         & combined & labels01 & preds & loss & d_loss & Hs).
      cbv zeta in Hs. cbn [self] in Hs.
      destruct Hs as (_ & _ & _ & _ & _ & _ & _ & _ & _ & _ & Hl & _). congruence.
    + exists e. split; [reflexivity |].
      apply (cgan_train_step_effect tf (real_ts, labels)) in Hstep. exact Hstep.
Qed.

Lemma train_step_needs_compile_witness :
  exists o e,
    GAN.__init__ (Doubles.head_discriminator 1) (Doubles.filling_generator 0 2 1) 3 false = Ok o
    /\ fst (GAN.train_step Doubles.engine Doubles.real_batch
              {| self := o; world := Doubles.world0 |}) = Raise e.
Proof.
  eexists. 
  destruct (proj1 train_step_needs_compile
              (Doubles.head_discriminator 1) (Doubles.filling_generator 0 2 1) 3 false
              _ Doubles.engine Doubles.real_batch Doubles.world0 eq_refl)
    as (e & He & _).
  exists e. split; [reflexivity | exact He].
Defined.

Lemma gan_compile_self avail d g loss (s : Frame GAN.t) :
  self (snd (GAN.compile avail d g loss s))
  = {| GAN.discriminator := GAN.discriminator (self s);
       GAN.generator := GAN.generator (self s);
       GAN.latent_dim := GAN.latent_dim (self s);
       GAN._seq_len := GAN._seq_len (self s);
       GAN.use_wgan := GAN.use_wgan (self s);
       GAN.gp_weight := GAN.gp_weight (self s);
       GAN.gen_loss_tracker := GAN.gen_loss_tracker (self s);
       GAN.disc_loss_tracker := GAN.disc_loss_tracker (self s);
       GAN.d_optimizer := Some d;
       GAN.g_optimizer := Some g;
       GAN.loss_fn := Some loss;
       GAN.dp := Some (_is_dp_optimizer avail d && _is_dp_optimizer avail g) |}.
Proof.
  unfold GAN.compile, bind, modify, logger_warning, ret.
  destruct (negb _); reflexivity.
Qed.

Lemma cgan_compile_self avail d g loss (c : Frame ConditionalGAN.t) :
  self (snd (ConditionalGAN.compile avail d g loss c))
  = {| ConditionalGAN.discriminator := ConditionalGAN.discriminator (self c);
       ConditionalGAN.generator := ConditionalGAN.generator (self c);
       ConditionalGAN.latent_dim := ConditionalGAN.latent_dim (self c);
       ConditionalGAN._seq_len := ConditionalGAN._seq_len (self c);
       ConditionalGAN.gen_loss_tracker := ConditionalGAN.gen_loss_tracker (self c);
       ConditionalGAN.disc_loss_tracker := ConditionalGAN.disc_loss_tracker (self c);
       ConditionalGAN._temporal := ConditionalGAN._temporal (self c);
       ConditionalGAN.d_optimizer := Some d;
       ConditionalGAN.g_optimizer := Some g;
       ConditionalGAN.loss_fn := Some loss;
       ConditionalGAN.dp := Some (_is_dp_optimizer avail d && _is_dp_optimizer avail g) |}.
Proof.
  unfold ConditionalGAN.compile, bind, modify, logger_warning, ret.
  destruct (negb _); reflexivity.
Qed.

Lemma keeps_self_gan_generate num : keeps_self (GAN.generate num).
Proof. unfold GAN.generate. keeps_self_blocks. Qed.

Lemma keeps_self_cgan_generate labels : keeps_self (ConditionalGAN.generate labels).
Proof. unfold ConditionalGAN.generate. keeps_self_blocks. Qed.

Lemma gan_clone_self mw (s : Frame GAN.t) : self (snd (GAN.clone mw s)) = self s.
Proof.
  unfold GAN.clone. destruct (GAN.__init__ _ _ _ _) as [copy | e]; [| reflexivity].
  destruct (GAN.set_weights _ _ _ _) as [r [o' w']]. reflexivity.
Qed.

(** X4. No method of the unconditional trainer changes what [__init__]
    fixed: after [compile], [train_step], [generate] or [clone], returning
    or raising, the two models, [latent_dim], [_seq_len], [use_wgan] and
    [gp_weight] are those the trainer had before. *)
Theorem gan_architecture_fixed avail d g loss tf data num mw (s : Frame GAN.t) :
  gan_architecture (self (snd (GAN.compile avail d g loss s))) = gan_architecture (self s)
  /\ gan_architecture (self (snd (GAN.train_step tf data s))) = gan_architecture (self s)
  /\ gan_architecture (self (snd (GAN.generate num s))) = gan_architecture (self s)
  /\ gan_architecture (self (snd (GAN.clone mw s))) = gan_architecture (self s).
Proof.
  split; [rewrite gan_compile_self; reflexivity |].
  split.
  { destruct (GAN.train_step tf data s) as [r s'] eqn:E.
    pose proof (gan_train_step_effect tf data s r s' E) as H.
    cbn [snd]. unfold gan_step_effect in H. destruct r.
    - destruct H as (g_loss & d_loss & -> & _). reflexivity.
    - rewrite H. reflexivity. }
  split.
  { rewrite (keeps_self_gan_generate num s _ _ (surjective_pairing _)). reflexivity. }
  rewrite gan_clone_self. reflexivity.
Qed.

(** X5. No method of the conditional trainer changes what [__init__]
    fixed: after [compile], [train_step] or [generate], returning or
    raising, the two models, [latent_dim], [_seq_len] and [_temporal] are
    those the trainer had before. *)
Theorem cgan_architecture_fixed avail d g loss tf data labels (c : Frame ConditionalGAN.t) :
  cgan_architecture (self (snd (ConditionalGAN.compile avail d g loss c)))
  = cgan_architecture (self c)
  /\ cgan_architecture (self (snd (ConditionalGAN.train_step tf data c)))
     = cgan_architecture (self c)
  /\ cgan_architecture (self (snd (ConditionalGAN.generate labels c)))
     = cgan_architecture (self c).
Proof.
  split; [rewrite cgan_compile_self; reflexivity |].
  split.
  { destruct (ConditionalGAN.train_step tf data c) as [r c'] eqn:E.
    pose proof (cgan_train_step_effect tf data c r c' E) as H.
    cbn [snd]. unfold cgan_step_effect in H. destruct r.
    - destruct H as (g_loss & d_loss & -> & _). reflexivity.
    - rewrite H. reflexivity. }
  rewrite (keeps_self_cgan_generate labels c _ _ (surjective_pairing _)). reflexivity.
Qed.

Lemma gan_compile_records avail d g loss (s : Frame GAN.t) :
  records (world (snd (GAN.compile avail d g loss s)))
  = records (world s)
    ++ (if Bool.eqb (_is_dp_optimizer avail d) (_is_dp_optimizer avail g)
        then [] else [dp_warning (_is_dp_optimizer avail d) (_is_dp_optimizer avail g)]).
Proof. apply (gan_compile_run avail d g loss s). Qed.

Lemma cgan_compile_records avail d g loss (c : Frame ConditionalGAN.t) :
  records (world (snd (ConditionalGAN.compile avail d g loss c)))
  = records (world c)
    ++ (if Bool.eqb (_is_dp_optimizer avail d) (_is_dp_optimizer avail g)
        then [] else [dp_warning (_is_dp_optimizer avail d) (_is_dp_optimizer avail g)]).
Proof. apply (cgan_compile_run avail d g loss c). Qed.

(** X6. [compile] may be called again and the last call wins: after two
    calls the optimizers, the loss and [dp] are those of the second call
    alone, the trackers are still those from before the first, and the
    log has kept the warning of each call that had one. *)
Theorem compile_rebinds avail d1 g1 loss1 d2 g2 loss2
    (s : Frame GAN.t) (c : Frame ConditionalGAN.t) :
  let s1 := snd (GAN.compile avail d1 g1 loss1 s) in
  let c1 := snd (ConditionalGAN.compile avail d1 g1 loss1 c) in
  let note d g :=
    if Bool.eqb (_is_dp_optimizer avail d) (_is_dp_optimizer avail g)
    then [] else [dp_warning (_is_dp_optimizer avail d) (_is_dp_optimizer avail g)] in
  self (snd (GAN.compile avail d2 g2 loss2 s1)) = self (snd (GAN.compile avail d2 g2 loss2 s))
  /\ GAN.metrics (self (snd (GAN.compile avail d2 g2 loss2 s1))) = GAN.metrics (self s)
  /\ records (world (snd (GAN.compile avail d2 g2 loss2 s1)))
     = records (world s) ++ note d1 g1 ++ note d2 g2
  /\ self (snd (ConditionalGAN.compile avail d2 g2 loss2 c1))
     = self (snd (ConditionalGAN.compile avail d2 g2 loss2 c))
  /\ ConditionalGAN.metrics (self (snd (ConditionalGAN.compile avail d2 g2 loss2 c1)))
     = ConditionalGAN.metrics (self c)
  /\ records (world (snd (ConditionalGAN.compile avail d2 g2 loss2 c1)))
     = records (world c) ++ note d1 g1 ++ note d2 g2.
Proof.
  intros s1 c1 note. subst s1 c1.
  rewrite !gan_compile_self, !cgan_compile_self, !gan_compile_records, !cgan_compile_records.
  rewrite <- !app_assoc.
  repeat split; reflexivity.
Qed.

(** ** The losses of the standard path *)

(** X7. Without [use_wgan], a training step of the unconditional trainer
    that returns has taken the discriminator loss as
    loss_fn(desc_labels, D([fake; real])) under the variables D had before
    the step, has stepped D with its optimizer, and has then taken the
    generator loss as loss_fn(zeros((B, 1)), D(G(z'))) on a fresh latent
    z', where D already runs on the variables its optimizer has just
    written. *)
Theorem gan_standard_step_losses tf data (s s' : Frame GAN.t) r :
  GAN.use_wgan (self s) = false ->
  GAN.train_step tf data s = (Ok r, s') ->
  exists bs fake combined labels preds loss d_loss grads d_opt sl vals fresh preds_g g_loss,
    let o := self s in
    let D := GAN.discriminator o in
    let G := GAN.generator o in
    let dw := weights_of (world s) (model_id D) in
    let w1 := advance_rng (Tensor.numel [bs; GAN.latent_dim o]) (world s) in
    let w_d := after_optimizer d_opt D sl vals w1 in
    Tensor.shape0 data = Ok bs
    /\ call G (weights_of (world s) (model_id G)) None
         (draw (Normal 0 1) [bs; GAN.latent_dim o] (world s)) = Ok fake
    /\ Tensor.concat [fake; data] 0 = Ok combined
    /\ GAN.desc_labels bs = Ok labels
    /\ call D dw None combined = Ok preds
    /\ GAN.loss_fn o = Some loss
    /\ loss labels preds = Ok d_loss
    /\ GAN.d_optimizer o = Some d_opt
    /\ apply_gradients d_opt (slots_of (world s) (optimizer_id d_opt)) (combine grads dw)
       = (Ok tt, (sl, vals))
    /\ weights_of w_d (model_id D) = write_back vals dw
    /\ call G (weights_of w_d (model_id G)) None
         (draw (Normal 0 1) [bs; GAN.latent_dim o] w_d) = Ok fresh
    /\ call D (write_back vals dw) None fresh = Ok preds_g
    /\ loss (Tensor.zeros [bs; 1]) preds_g = Ok g_loss
    /\ GAN.disc_loss_tracker (self s') = update_state d_loss (GAN.disc_loss_tracker o)
    /\ GAN.gen_loss_tracker (self s') = update_state g_loss (GAN.gen_loss_tracker o).
Proof.
  intros Hwgan H. apply gan_train_step_ok in H.
  destruct H
    as (bs & fake & combined & labels & d_loss & s_f & grads_d & d_opt & sl & vals
        & g_loss & grads_g & g_opt & sl' & vals' & Hstep).
  cbv zeta in Hstep.
  destruct Hstep as (Hbs & Hfake & Hc & Hl & Hd & Hself & _ & Hopt & Happ & Hg & _ & _ & _
                     & -> & _).
  apply gan_discriminator_forward_ok in Hd. destruct Hd as (preds & Hp & Hd).
  cbn [self world with_world] in Hd, Hp. rewrite Hwgan in Hd.
  destruct Hd as (-> & loss & Hloss & Hcall).
  apply gan_generator_forward_ok in Hg.
  destruct Hg as (_ & fresh & preds_g & Hfresh & Hpg & Hg).
  cbn [self world with_world advance_rng weights_of slots_of] in Happ, Hfresh, Hpg, Hg.
  rewrite Hwgan in Hg. destruct Hg as (loss' & Hloss' & Hcall').
  assert (loss' = loss) by congruence. subst loss'.
  rewrite weights_after_optimizer in Hpg.
  cbn [weights_of advance_rng] in Hpg.
  exists bs, fake, combined, labels, preds, loss, d_loss, grads_d, d_opt, sl, vals,
    fresh, preds_g, g_loss.
  cbv zeta.
  repeat (split; [first [assumption | reflexivity] |]).
  split; [rewrite weights_after_optimizer; reflexivity |].
  repeat (split; [first [assumption | reflexivity] |]).
  reflexivity.
Qed.

Lemma gan_standard_step_losses_witness :
  exists d_loss g_loss,
    GAN.disc_loss_tracker
      (self (snd (GAN.train_step Doubles.engine Doubles.real_batch (gan_frame false))))
    = update_state d_loss Mean_init
    /\ GAN.gen_loss_tracker
         (self (snd (GAN.train_step Doubles.engine Doubles.real_batch (gan_frame false))))
       = update_state g_loss Mean_init.
Proof.
  destruct (gan_standard_step_losses Doubles.engine Doubles.real_batch (gan_frame false)
              (snd (GAN.train_step Doubles.engine Doubles.real_batch (gan_frame false)))
              (returned (fst (GAN.train_step Doubles.engine Doubles.real_batch
                                (gan_frame false))) []))
    as (bs & fake & combined & labels & preds & loss & d_loss & grads & d_opt & sl & vals
        & fresh & preds_g & g_loss & Hs).
  - reflexivity.
  - vm_compute. reflexivity.
  - cbv zeta in Hs.
    destruct Hs as (_ & _ & _ & _ & _ & _ & _ & _ & _ & _ & _ & _ & _ & Hd & Hg).
    exists d_loss, g_loss. split; assumption.
Defined.

Lemma optimizer_phase_inv {Self} tf (is_dp : bool) (attr : option Optimizer) (m : Model)
    (recorded : list Tensor.t -> result Q) (s s' : Frame Self) (v : unit) :
  (if is_dp
   then bind (getattr attr)
          (fun opt => optimizer_minimize opt recorded m (tape_gradient tf))
   else bind (lift (tape_gradient tf recorded (weights_of (world s) (model_id m))))
          (fun grads =>
             bind (getattr attr) (fun opt => optimizer_apply_gradients opt grads m))) s
  = (Ok v, s') ->
  exists opt sl vals,
    attr = Some opt
    /\ (if is_dp
        then minimize opt (slots_of (world s) (optimizer_id opt)) recorded
               (weights_of (world s) (model_id m)) (tape_gradient tf) = (Ok tt, (sl, vals))
        else exists grads,
               tape_gradient tf recorded (weights_of (world s) (model_id m)) = Ok grads
               /\ apply_gradients opt (slots_of (world s) (optimizer_id opt))
                    (combine grads (weights_of (world s) (model_id m))) = (Ok tt, (sl, vals)))
    /\ s' = {| self := self s; world := after_optimizer opt m sl vals (world s) |}.
Proof.
  destruct is_dp; intros H.
  - apply bind_inv_ok in H. destruct H as (opt & s1 & Ha & H).
    apply getattr_inv in Ha. destruct Ha as [Ha ->].
    apply optimizer_minimize_inv in H. destruct H as (sl & vals & Hm & ->).
    destruct v. exists opt, sl, vals. auto.
  - apply bind_inv_ok in H. destruct H as (grads & s1 & Hg & H).
    apply lift_inv in Hg. destruct Hg as [Hg ->].
    apply bind_inv_ok in H. destruct H as (opt & s1 & Ha & H).
    apply getattr_inv in Ha. destruct Ha as [Ha ->].
    apply optimizer_apply_gradients_inv in H. destruct H as (sl & vals & Hm & ->).
    destruct v. exists opt, sl, vals. eauto.
Qed.

Lemma cgan_train_step_run tf real_ts labels (c c' : Frame ConditionalGAN.t) r :
  ConditionalGAN.train_step tf (real_ts, labels) c = (Ok r, c') ->
  exists output_dim bs rep z c1 generated fake_data real_data combined labels01 d_loss
         is_dp d_opt sl vals z2 c3 g_loss g_opt sl' vals',
    let o := self c in
    let D := ConditionalGAN.discriminator o in
    let G := ConditionalGAN.generator o in
    let dw := weights_of (world c1) (model_id D) in
    let recorded_d :=
      fun w => fst (ConditionalGAN.discriminator_forward combined labels01 w c1) in
    let c2 := {| self := o; world := after_optimizer d_opt D sl vals (world c1) |} in
    let gw := weights_of (world c3) (model_id G) in
    let recorded_g :=
      fun w => fst (ConditionalGAN.generator_forward z2 rep (Tensor.zeros [bs; 1]) w c3) in
    ConditionalGAN._get_output_shape o labels = Ok output_dim
    /\ Tensor.shape0 real_ts = Ok bs
    /\ ConditionalGAN.rep_labels o labels output_dim = Ok rep
    /\ ConditionalGAN._get_random_vector_labels bs labels c = (Ok z, c1)
    /\ call G (weights_of (world c1) (model_id G)) None z = Ok generated
    /\ Tensor.concat [generated; rep] (-1) = Ok fake_data
    /\ Tensor.concat [real_ts; rep] (-1) = Ok real_data
    /\ Tensor.concat [fake_data; real_data] 0 = Ok combined
    /\ ConditionalGAN.desc_labels bs = Ok labels01
    /\ recorded_d dw = Ok d_loss
    /\ ConditionalGAN.dp o = Some is_dp
    /\ ConditionalGAN.d_optimizer o = Some d_opt
    /\ (if is_dp
        then minimize d_opt (slots_of (world c1) (optimizer_id d_opt)) recorded_d dw
               (tape_gradient tf) = (Ok tt, (sl, vals))
        else exists grads,
               tape_gradient tf recorded_d dw = Ok grads
               /\ apply_gradients d_opt (slots_of (world c1) (optimizer_id d_opt))
                    (combine grads dw) = (Ok tt, (sl, vals)))
    /\ ConditionalGAN._get_random_vector_labels bs labels c2 = (Ok z2, c3)
    /\ recorded_g gw = Ok g_loss
    /\ ConditionalGAN.g_optimizer o = Some g_opt
    /\ (if is_dp
        then minimize g_opt (slots_of (world c3) (optimizer_id g_opt)) recorded_g gw
               (tape_gradient tf) = (Ok tt, (sl', vals'))
        else exists grads,
               tape_gradient tf recorded_g gw = Ok grads
               /\ apply_gradients g_opt (slots_of (world c3) (optimizer_id g_opt))
                    (combine grads gw) = (Ok tt, (sl', vals')))
    /\ c' = {| self := ConditionalGAN.set_disc_loss_tracker
                         (update_state d_loss (ConditionalGAN.disc_loss_tracker o))
                         (ConditionalGAN.set_gen_loss_tracker
                            (update_state g_loss (ConditionalGAN.gen_loss_tracker o)) o);
               world := after_optimizer g_opt G sl' vals' (world c3) |}
    /\ r = losses_dict (update_state g_loss (ConditionalGAN.gen_loss_tracker o))
             (update_state d_loss (ConditionalGAN.disc_loss_tracker o)).
Proof.
  intros H. unfold ConditionalGAN.train_step in H. cbv zeta in H.
  repeat inv_bind H.
  clean_ok.
  pose proof E3 as K1. apply keeps_self_cgan_random_vector in K1.
  pose proof E11 as K2. apply cgan_discriminator_forward_ok in K2. destruct K2 as [-> _].
  apply optimizer_phase_inv in E13. destruct E13 as (d_opt & sl & vals & Hdo & Hdstep & ->).
  pose proof E14 as K3. apply keeps_self_cgan_random_vector in K3. cbn [self] in K3.
  pose proof E16 as K4. apply cgan_generator_forward_ok in K4. destruct K4 as [-> _].
  apply optimizer_phase_inv in E18. destruct E18 as (g_opt & sl' & vals' & Hgo & Hgstep & ->).
  assert (v17 = v12) by congruence. subst v17.
  apply ret_inv in H. destruct H as [H ->]. injection H as ->.
  rewrite K3 in *. rewrite K1 in *.
  exists v0, v1, v2, v3, st, v5, v6, v7, v8, v9, v11, v12, d_opt, sl, vals, v14, st2, v16,
    g_opt, sl', vals'.
  cbv zeta. cbn [self world with_world with_self].
  repeat (split; [first [eassumption | reflexivity] |]).
  split; [rewrite E11; reflexivity |].
  repeat (split; [first [eassumption | reflexivity] |]).
  split; [rewrite E16; reflexivity |].
  repeat (split; [first [eassumption | reflexivity] |]).
  reflexivity.
Qed.

Lemma cgan_random_vector_store bs labels (s : Frame ConditionalGAN.t) :
  weights_of (world (snd (ConditionalGAN._get_random_vector_labels bs labels s)))
  = weights_of (world s)
  /\ entropy (world (snd (ConditionalGAN._get_random_vector_labels bs labels s)))
     = entropy (world s)
  /\ rng_counter (world s)
     <= rng_counter (world (snd (ConditionalGAN._get_random_vector_labels bs labels s))).
Proof.
  apply (wp_run (ConditionalGAN._get_random_vector_labels bs labels)
           (fun _ s' => weights_of (world s') = weights_of (world s)
                        /\ entropy (world s') = entropy (world s)
                        /\ rng_counter (world s) <= rng_counter (world s'))).
  unfold ConditionalGAN._get_random_vector_labels.
  repeat wp_step; cbn [weights_of entropy rng_counter advance_rng];
    repeat split; try reflexivity; lia.
Qed.

(** X8. A training step of the conditional trainer that returns has
    scored, in its discriminator phase, the stack of (generated ++ rep)
    and (real ++ rep) against [desc_labels], and in its generator phase
    the fresh samples extended by the very same label channel [rep]
    against all-zero labels.  The fresh samples are the generator's
    output on a second latent, drawn for the same [labels] in the store
    the discriminator's optimizer has left, after the first latent; the
    discriminator scores them with the variables that optimizer has just
    written. *)
Theorem cgan_step_losses tf real_ts labels (c c' : Frame ConditionalGAN.t) r :
  ConditionalGAN.train_step tf (real_ts, labels) c = (Ok r, c') ->
  exists output_dim bs rep z c1 generated fake_data real_data combined labels01
         preds loss d_loss is_dp d_opt sl vals z2 c3 fresh fresh_data preds_g g_loss,
    let o := self c in
    let D := ConditionalGAN.discriminator o in
    let G := ConditionalGAN.generator o in
    let dw := weights_of (world c1) (model_id D) in
    let recorded_d :=
      fun w => fst (ConditionalGAN.discriminator_forward combined labels01 w c1) in
    let c2 := {| self := o; world := after_optimizer d_opt D sl vals (world c1) |} in
    ConditionalGAN._get_output_shape o labels = Ok output_dim
    /\ Tensor.shape0 real_ts = Ok bs
    /\ ConditionalGAN.rep_labels o labels output_dim = Ok rep
    /\ ConditionalGAN._get_random_vector_labels bs labels c = (Ok z, c1)
    /\ call G (weights_of (world c1) (model_id G)) None z = Ok generated
    /\ Tensor.concat [generated; rep] (-1) = Ok fake_data
    /\ Tensor.concat [real_ts; rep] (-1) = Ok real_data
    /\ Tensor.concat [fake_data; real_data] 0 = Ok combined
    /\ ConditionalGAN.desc_labels bs = Ok labels01
    /\ call D dw None combined = Ok preds
    /\ ConditionalGAN.loss_fn o = Some loss
    /\ loss labels01 preds = Ok d_loss
    /\ ConditionalGAN.dp o = Some is_dp
    /\ ConditionalGAN.d_optimizer o = Some d_opt
    /\ (if is_dp
        then minimize d_opt (slots_of (world c1) (optimizer_id d_opt)) recorded_d dw
               (tape_gradient tf) = (Ok tt, (sl, vals))
        else exists grads,
               tape_gradient tf recorded_d dw = Ok grads
               /\ apply_gradients d_opt (slots_of (world c1) (optimizer_id d_opt))
                    (combine grads dw) = (Ok tt, (sl, vals)))
    /\ entropy (world c2) = entropy (world c1)
    /\ rng_counter (world c2) = rng_counter (world c1)
    /\ ConditionalGAN._get_random_vector_labels bs labels c2 = (Ok z2, c3)
    /\ call G (weights_of (world c2) (model_id G)) None z2 = Ok fresh
    /\ Tensor.concat [fresh; rep] (-1) = Ok fresh_data
    /\ call D (write_back vals dw) None fresh_data = Ok preds_g
    /\ loss (Tensor.zeros [bs; 1]) preds_g = Ok g_loss
    /\ ConditionalGAN.disc_loss_tracker (self c')
       = update_state d_loss (ConditionalGAN.disc_loss_tracker o)
    /\ ConditionalGAN.gen_loss_tracker (self c')
       = update_state g_loss (ConditionalGAN.gen_loss_tracker o).
Proof.
  intros H. apply cgan_train_step_run in H.
  destruct H
    as (output_dim & bs & rep & z & c1 & generated & fake_data & real_data & combined
        & labels01 & d_loss & is_dp & d_opt & sl & vals & z2 & c3 & g_loss & g_opt
        & sl' & vals' & Hstep).
  cbv zeta in Hstep.
  destruct Hstep
    as (Ho & Hbs & Hrep & Hz & Hgen & Hf & Hr & Hc & Hl & Hd & Hdp & Hdo & Hdstep & Hz2
        & Hg & _ & _ & -> & _).
  pose proof Hz as K1. apply keeps_self_cgan_random_vector in K1.
  pose proof Hz2 as K2. apply keeps_self_cgan_random_vector in K2. cbn [self] in K2.
  pose proof (cgan_random_vector_store bs labels
                {| self := self c;
                   world := after_optimizer d_opt (ConditionalGAN.discriminator (self c))
                              sl vals (world c1) |}) as Hw.
  rewrite Hz2 in Hw. cbn [snd world] in Hw. destruct Hw as (Hw & _ & _).
  destruct (ConditionalGAN.discriminator_forward combined labels01
              (weights_of (world c1) (model_id (ConditionalGAN.discriminator (self c)))) c1)
    as [rd cd] eqn:Ed.
  cbn [fst] in Hd. subst rd.
  apply cgan_discriminator_forward_ok in Ed.
  destruct Ed as (_ & preds & loss & Hp & Hloss & Hcall).
  destruct (ConditionalGAN.generator_forward z2 rep (Tensor.zeros [bs; 1])
              (weights_of (world c3) (model_id (ConditionalGAN.generator (self c)))) c3)
    as [rg cg] eqn:Eg.
  cbn [fst] in Hg. subst rg.
  apply cgan_generator_forward_ok in Eg.
  destruct Eg as (_ & fresh & fresh_data & preds_g & loss' & Hfresh & Hfd & Hpg & Hloss'
                  & Hcall').
  rewrite K1 in Hp, Hloss. rewrite K2 in Hfresh, Hpg, Hloss'.
  rewrite Hw in Hfresh, Hpg. rewrite weights_after_optimizer in Hpg.
  assert (loss' = loss) by congruence. subst loss'.
  exists output_dim, bs, rep, z, c1, generated, fake_data, real_data, combined, labels01,
    preds, loss, d_loss, is_dp, d_opt, sl, vals, z2, c3, fresh, fresh_data, preds_g, g_loss.
  cbv zeta. cbn [self world].
  repeat (split; [first [assumption | reflexivity] |]).
  reflexivity.
Qed.

Lemma cgan_step_losses_witness :
  exists d_loss g_loss,
    ConditionalGAN.disc_loss_tracker
      (self (snd (ConditionalGAN.train_step Doubles.engine (Doubles.real_batch, one_label)
                    (cgan_frame false))))
    = update_state d_loss Mean_init
    /\ ConditionalGAN.gen_loss_tracker
         (self (snd (ConditionalGAN.train_step Doubles.engine (Doubles.real_batch, one_label)
                       (cgan_frame false))))
       = update_state g_loss Mean_init.
Proof.
  destruct (cgan_step_losses Doubles.engine Doubles.real_batch one_label (cgan_frame false)
              (snd (ConditionalGAN.train_step Doubles.engine (Doubles.real_batch, one_label)
                      (cgan_frame false)))
              (returned (fst (ConditionalGAN.train_step Doubles.engine
                                (Doubles.real_batch, one_label) (cgan_frame false))) []))
    as (output_dim & bs & rep & z & c1 & generated & fake_data & real_data & combined
        & labels01 & preds & loss & d_loss & is_dp & d_opt & sl & vals & z2 & c3 & fresh
        & fresh_data & preds_g & g_loss & Hs).
  - vm_compute. reflexivity.
  - cbv zeta in Hs.
    destruct Hs as (_ & _ & _ & _ & _ & _ & _ & _ & _ & _ & _ & _ & _ & _ & _ & _ & _ & _
                    & _ & _ & _ & _ & Hd & Hg).
    exists d_loss, g_loss. split; assumption.
Defined.

(** ** What a training step returns *)

Lemma running_mean_is_loss (t n v : Q) :
  (0 <= n)%Q -> ((t + v) / (n + 1) == v <-> t == n * v)%Q.
Proof.
  intros Hn.
  assert (Hnz : ~ (n + 1 == 0)%Q).
  { intros E. assert (H1 : (0 < n + 1)%Q).
    { apply Qlt_le_trans with (y := (0 + 1)%Q); [reflexivity |].
      apply Qplus_le_l. exact Hn. }
    rewrite E in H1. exact (Qlt_irrefl 0 H1). }
  split; intros H.
  - assert (H2 : (t + v == v * (n + 1))%Q).
    { rewrite <- H at 2. field. exact Hnz. }
    apply (Qplus_inj_r _ _ v). rewrite H2. ring.
  - rewrite H. field. exact Hnz.
Qed.

(** X9. The dict a training step returns holds, under "g_loss" and
    "d_loss" in this order, the results of the two trackers after their
    update: the running means (total + loss) / (count + 1), where loss is
    what the generator block, respectively the discriminator block, of
    this step has computed.  For a tracker with a count that is not
    negative, the returned value equals the loss of the step exactly when
    the total the tracker held is count times that loss: on a tracker
    that has seen nothing yet, or when the mean so far already was that
    loss. *)
Theorem train_step_returns_running_means :
  (forall tf data (s s' : Frame GAN.t) r,
      GAN.train_step tf data s = (Ok r, s') ->
      exists g_loss d_loss,
        let g := GAN.gen_loss_tracker (self s) in
        let d := GAN.disc_loss_tracker (self s) in
        let g_mean := ((total g + g_loss) / (count g + 1))%Q in
        let d_mean := ((total d + d_loss) / (count d + 1))%Q in
        gan_losses_of_step tf data s d_loss g_loss
        /\ GAN.metrics (self s') = [update_state g_loss g; update_state d_loss d]
        /\ r = [("g_loss"%string, g_mean); ("d_loss"%string, d_mean)]
        /\ ((0 <= count g)%Q -> (g_mean == g_loss <-> total g == count g * g_loss)%Q)
        /\ ((0 <= count d)%Q -> (d_mean == d_loss <-> total d == count d * d_loss)%Q))
  /\ (forall tf real_ts labels (c c' : Frame ConditionalGAN.t) r,
         ConditionalGAN.train_step tf (real_ts, labels) c = (Ok r, c') ->
         exists g_loss d_loss,
           let g := ConditionalGAN.gen_loss_tracker (self c) in
           let d := ConditionalGAN.disc_loss_tracker (self c) in
           let g_mean := ((total g + g_loss) / (count g + 1))%Q in
           let d_mean := ((total d + d_loss) / (count d + 1))%Q in
           cgan_losses_of_step tf real_ts labels c d_loss g_loss
           /\ ConditionalGAN.metrics (self c') = [update_state g_loss g; update_state d_loss d]
           /\ r = [("g_loss"%string, g_mean); ("d_loss"%string, d_mean)]
           /\ ((0 <= count g)%Q -> (g_mean == g_loss <-> total g == count g * g_loss)%Q)
           /\ ((0 <= count d)%Q -> (d_mean == d_loss <-> total d == count d * d_loss)%Q)).
Proof.
  split.
  - intros tf data s s' r H. apply gan_train_step_ok in H.
    destruct H
      as (bs & fake & combined & labels & d_loss & s_f & grads_d & d_opt & sl & vals
          & g_loss & grads_g & g_opt & sl' & vals' & Hstep).
    cbv zeta in Hstep.
    destruct Hstep as (Hbs & Hfake & Hc & Hl & Hd & _ & Ht & Hopt & Happ & Hg & _ & _ & _
                       & -> & ->).
    exists g_loss, d_loss. cbv zeta.
    split.
    { exists bs, fake, combined, labels, s_f, grads_d, d_opt, sl, vals. cbv zeta.
      repeat (split; [assumption |]). assumption. }
    split; [reflexivity |]. split; [reflexivity |].
    split; apply running_mean_is_loss.
  - intros tf real_ts labels c c' r H. apply cgan_train_step_run in H.
    destruct H
      as (output_dim & bs & rep & z & c1 & generated & fake_data & real_data & combined
          & labels01 & d_loss & is_dp & d_opt & sl & vals & z2 & c3 & g_loss & g_opt
          & sl' & vals' & Hstep).
    cbv zeta in Hstep.
    destruct Hstep
      as (Ho & Hbs & Hrep & Hz & Hgen & Hf & Hr & Hc & Hl & Hd & Hdp & Hdo & Hdstep & Hz2
          & Hg & _ & _ & -> & ->).
    exists g_loss, d_loss. cbv zeta.
    split.
    { exists output_dim, bs, rep, z, c1, generated, fake_data, real_data, combined, labels01,
        is_dp, d_opt, sl, vals, z2, c3. cbv zeta.
      repeat (split; [assumption |]). assumption. }
    split; [reflexivity |]. split; [reflexivity |].
    split; apply running_mean_is_loss.
Qed.

Lemma train_step_returns_running_means_witness :
  exists g_loss d_loss,
    gan_losses_of_step Doubles.engine Doubles.real_batch (gan_frame false) d_loss g_loss
    /\ fst (GAN.train_step Doubles.engine Doubles.real_batch (gan_frame false))
       = Ok [("g_loss"%string, ((0 + g_loss) / (0 + 1))%Q);
             ("d_loss"%string, ((0 + d_loss) / (0 + 1))%Q)]
    /\ ((0 + g_loss) / (0 + 1) == g_loss)%Q.
Proof.
  destruct (proj1 train_step_returns_running_means Doubles.engine Doubles.real_batch
              (gan_frame false)
              (snd (GAN.train_step Doubles.engine Doubles.real_batch (gan_frame false)))
              (returned (fst (GAN.train_step Doubles.engine Doubles.real_batch
                                (gan_frame false))) []))
    as (g_loss & d_loss & Hs).
  - vm_compute. reflexivity.
  - cbv zeta in Hs. destruct Hs as (Hl & _ & Hr & Hg & _).
    exists g_loss, d_loss. split; [exact Hl |]. split.
    + cbn [gan_frame self Doubles.plain_gan Doubles.gan0 GAN.gen_loss_tracker
             GAN.disc_loss_tracker Mean_init total count] in Hr.
      rewrite <- Hr. vm_compute. reflexivity.
    + cbn [gan_frame self Doubles.plain_gan Doubles.gan0 GAN.gen_loss_tracker
             Mean_init total count] in Hg.
      apply Hg; [discriminate | ring].
Defined.
(** ** The differentially private path *)







(** ** The gradient penalty *)

Lemma Qsquare_nonneg (x : Q) : (0 <= x ^ 2)%Q.
Proof.
  change (x ^ 2)%Q with (x * x)%Q. unfold Qle, Qmult. cbn.
  rewrite Z.mul_1_r. apply Z.square_nonneg.
Qed.

Lemma sumQ_nonneg (l : list Q) :
  (forall x, In x l -> (0 <= x)%Q) -> (0 <= Tensor.sumQ l)%Q.
Proof.
  induction l as [| x l IH]; intros H; cbn; [apply Qle_refl |].
  replace 0%Q with (0 + 0)%Q by reflexivity.
  apply Qplus_le_compat; [apply H; left; reflexivity | apply IH; intros y Hy; apply H; right; exact Hy].
Qed.

Lemma sumQ_zero (l : list Q) :
  (forall x, In x l -> (x == 0)%Q) -> (Tensor.sumQ l == 0)%Q.
Proof.
  induction l as [| x l IH]; intros H; cbn; [reflexivity |].
  rewrite (H x (or_introl eq_refl)), IH by (intros y Hy; apply H; right; exact Hy).
  reflexivity.
Qed.

Lemma reduce_mean_nonneg (x : Tensor.t) :
  (forall q, In q (Tensor.data x) -> (0 <= q)%Q) -> (0 <= Tensor.reduce_mean x)%Q.
Proof.
  intros H. unfold Tensor.reduce_mean, Qdiv.
  apply Qmult_le_0_compat; [apply sumQ_nonneg; exact H |].
  apply Qinv_le_0_compat. unfold Qle. cbn. lia.
Qed.

Lemma reduce_mean_zero (x : Tensor.t) :
  (forall q, In q (Tensor.data x) -> (q == 0)%Q) -> (Tensor.reduce_mean x == 0)%Q.
Proof.
  intros H. unfold Tensor.reduce_mean, Qdiv.
  rewrite (sumQ_zero _ H). apply Qmult_0_l.
Qed.

(** X11. The gradient penalty is never negative, and it is zero when the
    norm the code takes of every sample's gradient (the square root of
    the sum of its squared entries) is 1. *)
Theorem gradient_penalty_nonneg tf dw bs real fake (s s' : Frame GAN.t) gp :
  GAN.gradient_penalty tf dw bs real fake s = (Ok gp, s') ->
  (0 <= gp)%Q
  /\ exists interpolated grads sq,
       fst (GAN.gradient_penalty_interpolated bs real fake s) = Ok interpolated
       /\ tape_gradient_input tf (call (GAN.discriminator (self s)) dw (Some true))
            interpolated = Ok grads
       /\ Tensor.reduce_sum_axes_1_2 (Tensor.map_entries (fun g => g * g)%Q grads) = Ok sq
       /\ ((forall q, In q (Tensor.data sq) -> (tf_sqrt tf q == 1)%Q) -> (gp == 0)%Q).
Proof.
  intros H. apply gan_gradient_penalty_ok in H.
  destruct H as (interpolated & pred & grads & sq & Hi & _ & _ & Hg & Hsq & ->).
  split.
  - apply reduce_mean_nonneg. intros q Hq.
    cbn [Tensor.map_entries Tensor.data] in Hq.
    apply in_map_iff in Hq. destruct Hq as (n & <- & _). apply Qsquare_nonneg.
  - exists interpolated, grads, sq. rewrite Hi.
    repeat (split; [first [assumption | reflexivity] |]).
    intros Hunit. apply reduce_mean_zero. intros q Hq.
    cbn [Tensor.map_entries Tensor.data] in Hq.
    apply in_map_iff in Hq. destruct Hq as (n & <- & Hn).
    apply in_map_iff in Hn. destruct Hn as (v & <- & Hv).
    rewrite (Hunit v Hv). reflexivity.
Qed.

Lemma gradient_penalty_nonneg_witness :
  Qle 0 (returned (fst (GAN.gradient_penalty Doubles.engine [Tensor.scalar 2] 1
                          Doubles.real_batch (Tensor.mk [1; 2; 1] [7%Q; 7%Q])
                          (gan_frame true))) (-1)%Q).
Proof.
  apply (gradient_penalty_nonneg Doubles.engine [Tensor.scalar 2] 1
           Doubles.real_batch (Tensor.mk [1; 2; 1] [7%Q; 7%Q]) (gan_frame true)
           (snd (GAN.gradient_penalty Doubles.engine [Tensor.scalar 2] 1
                   Doubles.real_batch (Tensor.mk [1; 2; 1] [7%Q; 7%Q]) (gan_frame true)))).
  vm_compute. reflexivity.
Defined.

(** X12. With [use_wgan] set and [gp_weight] at 10, the discriminator loss
    of a step is never below the Wasserstein cost
    mean(fake logits) - mean(real logits): the penalty only adds to it. *)
Theorem wgan_loss_at_least_cost tf data (s s' : Frame GAN.t) r :
  GAN.use_wgan (self s) = true ->
  GAN.gp_weight (self s) = 10%Q ->
  GAN.train_step tf data s = (Ok r, s') ->
  exists bs fake fake_logits real_logits d_loss,
    let o := self s in
    let D := GAN.discriminator o in
    let dw := weights_of (world s) (model_id D) in
    Tensor.shape0 data = Ok bs
    /\ call (GAN.generator o) (weights_of (world s) (model_id (GAN.generator o))) None
         (draw (Normal 0 1) [bs; GAN.latent_dim o] (world s)) = Ok fake
    /\ call D dw (Some true) fake = Ok fake_logits
    /\ call D dw (Some true) data = Ok real_logits
    /\ GAN.disc_loss_tracker (self s') = update_state d_loss (GAN.disc_loss_tracker o)
    /\ (Tensor.reduce_mean fake_logits - Tensor.reduce_mean real_logits <= d_loss)%Q.
Proof.
  intros Hwgan Hgp H. apply gan_train_step_ok in H.
  destruct H
    as (bs & fake & combined & labels & d_loss & s_f & grads_d & d_opt & sl & vals
        & g_loss & grads_g & g_opt & sl' & vals' & Hstep).
  cbv zeta in Hstep.
  destruct Hstep as (Hbs & Hfake & _ & _ & Hd & _ & _ & _ & _ & _ & _ & _ & _ & -> & _).
  apply gan_discriminator_forward_ok in Hd. destruct Hd as (preds & _ & Hd).
  cbn [self world with_world] in Hd. rewrite Hwgan in Hd.
  destruct Hd as (fake_logits & real_logits & gp & Hfl & Hrl & Hpen & ->).
  pose proof Hpen as Hpos. apply gan_gradient_penalty_ok in Hpos.
  destruct Hpos as (interpolated & pred & grads & sq & _ & _ & _ & _ & _ & Hval).
  assert (Hnn : (0 <= gp)%Q).
  { rewrite Hval. apply reduce_mean_nonneg. intros q Hq.
    cbn [Tensor.map_entries Tensor.data] in Hq.
    apply in_map_iff in Hq. destruct Hq as (n & <- & _). apply Qsquare_nonneg. }
  exists bs, fake, fake_logits, real_logits,
    (GAN.wgan_discriminator_loss real_logits fake_logits + gp * GAN.gp_weight (self s))%Q.
  cbv zeta. repeat (split; [first [assumption | reflexivity] |]).
  unfold GAN.wgan_discriminator_loss. rewrite Hgp.
  rewrite <- (Qplus_0_r (Tensor.reduce_mean fake_logits - Tensor.reduce_mean real_logits)) at 1.
  apply Qplus_le_compat; [apply Qle_refl |].
  apply Qmult_le_0_compat; [exact Hnn | discriminate].
Qed.

Lemma wgan_loss_at_least_cost_witness :
  exists fake_logits real_logits d_loss,
    GAN.disc_loss_tracker
      (self (snd (GAN.train_step Doubles.engine Doubles.real_batch (gan_frame true))))
    = update_state d_loss Mean_init
    /\ (Tensor.reduce_mean fake_logits - Tensor.reduce_mean real_logits <= d_loss)%Q.
Proof.
  destruct (wgan_loss_at_least_cost Doubles.engine Doubles.real_batch (gan_frame true)
              (snd (GAN.train_step Doubles.engine Doubles.real_batch (gan_frame true)))
              (returned (fst (GAN.train_step Doubles.engine Doubles.real_batch
                                (gan_frame true))) []))
    as (bs & fake & fake_logits & real_logits & d_loss & Hs).
  - reflexivity.
  - reflexivity.
  - vm_compute. reflexivity.
  - cbv zeta in Hs. destruct Hs as (_ & _ & _ & _ & Hd & Hle).
    exists fake_logits, real_logits, d_loss. split; assumption.
Defined.

(** ** The interpolated samples of the gradient penalty *)

Lemma offset_rank3_lt (B T F b t f : nat) :
  b < B -> t < T -> f < F -> (b * T + t) * F + f < Tensor.numel [B; T; F].
Proof.
  intros Hb Ht Hf. cbn [Tensor.numel fold_right]. rewrite Nat.mul_1_r.
  assert (H1 : b * T + t + 1 <= B * T) by nia.
  assert (H2 : (b * T + t + 1) * F <= B * T * F) by (apply Nat.mul_le_mono_r; exact H1).
  lia.
Qed.

Lemma unravel_rank3 (B T F b t f : nat) :
  b < B -> t < T -> f < F ->
  Tensor.unravel [B; T; F] ((b * T + t) * F + f) = [b; t; f].
Proof.
  intros Hb Ht Hf. cbn [Tensor.unravel Tensor.numel fold_right].
  rewrite !Nat.mul_1_r, Nat.div_1_r.
  assert (H1 : ((b * T + t) * F + f) / (T * F) = b).
  { symmetry. apply (Nat.div_unique _ _ b (t * F + f)); nia. }
  assert (H2 : ((b * T + t) * F + f) / F = b * T + t).
  { symmetry. apply (Nat.div_unique _ _ (b * T + t) f); nia. }
  rewrite H1, H2. f_equal; [| f_equal; [| f_equal]].
  - apply Nat.mod_small. exact Hb.
  - symmetry. apply (Nat.mod_unique _ _ b t); nia.
  - symmetry. apply (Nat.mod_unique _ _ (b * T + t) f); nia.
Qed.

Lemma broadcast_offset_rank3 (B T F b t f : nat) :
  b < B -> t < T -> f < F ->
  Tensor.broadcast_offset [B; T; F] [b; t; f] = (b * T + t) * F + f.
Proof.
  intros Hb Ht Hf. cbn [Tensor.broadcast_offset Tensor.numel fold_right].
  destruct (Nat.eqb_spec B 1), (Nat.eqb_spec T 1), (Nat.eqb_spec F 1); nia.
Qed.

Lemma broadcast_offset_per_sample (B b t f : nat) :
  Tensor.broadcast_offset [B; 1; 1] [b; t; f] = if B =? 1 then 0 else b.
Proof.
  cbn [Tensor.broadcast_offset Tensor.numel fold_right Nat.eqb].
  destruct (B =? 1); lia.
Qed.

Lemma broadcast_shapes_same_rank3 (B T F : nat) :
  Tensor.broadcast_shapes [B; T; F] [B; T; F] = Some [B; T; F].
Proof.
  unfold Tensor.broadcast_shapes. cbn [rev app Tensor.broadcast_shapes_rev].
  rewrite !Nat.eqb_refl. reflexivity.
Qed.

Lemma broadcast_shapes_per_sample (B T F : nat) :
  Tensor.broadcast_shapes [B; 1; 1] [B; T; F] = Some [B; T; F].
Proof.
  unfold Tensor.broadcast_shapes. cbn [rev app Tensor.broadcast_shapes_rev].
  rewrite Nat.eqb_refl.
  destruct (Nat.eqb_spec 1 T) as [<- |], (Nat.eqb_spec 1 F) as [<- |]; reflexivity.
Qed.

Lemma nth_error_map_seq {A} (h : nat -> A) (n o : nat) :
  o < n -> nth_error (map h (seq 0 n)) o = Some (h o).
Proof.
  intros Ho. rewrite nth_error_map, nth_error_seq.
  destruct (Nat.ltb_spec o n); [reflexivity | lia].
Qed.

Lemma binop_rank3_entry (op : Q -> Q -> Q) (x y : Tensor.t) (B T F b t f : nat) :
  Tensor.shape x = [B; T; F] -> Tensor.shape y = [B; T; F] ->
  b < B -> t < T -> f < F ->
  exists z,
    Tensor.binop op x y = Ok z
    /\ Tensor.shape z = [B; T; F]
    /\ Tensor.well_formed z
    /\ nth ((b * T + t) * F + f) (Tensor.data z) 0%Q
       = op (nth ((b * T + t) * F + f) (Tensor.data x) 0%Q)
            (nth ((b * T + t) * F + f) (Tensor.data y) 0%Q).
Proof.
  intros Hx Hy Hb Ht Hf. unfold Tensor.binop.
  rewrite Hx, Hy, broadcast_shapes_same_rank3.
  eexists. split; [reflexivity |]. cbn [Tensor.shape Tensor.data].
  split; [reflexivity |]. split.
  - unfold Tensor.well_formed. cbn [Tensor.shape Tensor.data].
    rewrite length_map, length_seq. reflexivity.
  - assert (Ho : (b * T + t) * F + f < Tensor.numel [B; T; F])
      by (apply offset_rank3_lt; assumption).
    erewrite nth_error_nth; [| apply nth_error_map_seq; exact Ho].
    cbv zeta. rewrite unravel_rank3 by assumption.
    unfold Tensor.broadcast_read, Tensor.rank. rewrite Hx, Hy.
    cbn [length Nat.sub skipn]. rewrite broadcast_offset_rank3 by assumption.
    reflexivity.
Qed.

Lemma per_sample_mul_entry (a y : Tensor.t) (B T F b t f : nat) :
  Tensor.shape a = [B; 1; 1] -> Tensor.shape y = [B; T; F] ->
  b < B -> t < T -> f < F ->
  exists z,
    Tensor.mul a y = Ok z
    /\ Tensor.shape z = [B; T; F]
    /\ nth ((b * T + t) * F + f) (Tensor.data z) 0%Q
       = (nth b (Tensor.data a) 0 * nth ((b * T + t) * F + f) (Tensor.data y) 0)%Q.
Proof.
  intros Ha Hy Hb Ht Hf. unfold Tensor.mul, Tensor.binop.
  rewrite Ha, Hy, broadcast_shapes_per_sample.
  eexists. split; [reflexivity |]. cbn [Tensor.shape Tensor.data].
  split; [reflexivity |].
  assert (Ho : (b * T + t) * F + f < Tensor.numel [B; T; F])
    by (apply offset_rank3_lt; assumption).
  erewrite nth_error_nth; [| apply nth_error_map_seq; exact Ho].
  cbv zeta. rewrite unravel_rank3 by assumption.
  unfold Tensor.broadcast_read, Tensor.rank. rewrite Ha, Hy.
  cbn [length Nat.sub skipn].
  rewrite broadcast_offset_per_sample, broadcast_offset_rank3 by assumption.
  destruct (Nat.eqb_spec B 1) as [-> |]; [| reflexivity].
  replace b with 0 by lia. reflexivity.
Qed.

(** X13. The samples at which the gradient penalty scores the
    discriminator lie on the lines between real and generated ones, with
    one coefficient per sample: for real and generated batches of shape
    (B, T, F), entry [b, t, f] of the interpolated batch is
    real[b,t,f] + alpha[b] * (fake[b,t,f] - real[b,t,f]), where alpha[b]
    is the b-th of the next B standard-normal numbers of the stream,
    shared by all timesteps and features of sample b. *)
Theorem gradient_penalty_interpolates (real fake : Tensor.t) (B T F : nat) (s : Frame GAN.t) :
  Tensor.shape real = [B; T; F] ->
  Tensor.shape fake = [B; T; F] ->
  exists x,
    fst (GAN.gradient_penalty_interpolated B real fake s) = Ok x
    /\ Tensor.shape x = [B; T; F]
    /\ forall b t f, b < B -> t < T -> f < F ->
       let o := (b * T + t) * F + f in
       let alpha_b := entropy (world s) (Normal 0 1) (rng_counter (world s) + b) in
       nth o (Tensor.data x) 0%Q
       = (nth o (Tensor.data real) 0 + alpha_b * (nth o (Tensor.data fake) 0
                                                 - nth o (Tensor.data real) 0))%Q.
Proof.
  intros Hreal Hfake.
  unfold GAN.gradient_penalty_interpolated, GAN.gradient_penalty_alpha, bind,
    tf_random_normal, tf_random, lift.
  cbn [fst snd].
  set (alpha := draw (Normal 0 1) [B; 1; 1] (world s)).
  assert (Hsub : exists diff, Tensor.sub fake real = Ok diff
                              /\ Tensor.shape diff = [B; T; F]).
  { unfold Tensor.sub, Tensor.binop. rewrite Hreal, Hfake, broadcast_shapes_same_rank3.
    eexists. split; reflexivity. }
  destruct Hsub as (diff & Hdiff & Hdsh). rewrite Hdiff. cbn [fst snd].
  assert (Hmul : exists scaled, Tensor.mul alpha diff = Ok scaled
                                /\ Tensor.shape scaled = [B; T; F]).
  { unfold Tensor.mul, Tensor.binop. rewrite Hdsh.
    change (Tensor.shape alpha) with [B; 1; 1]. rewrite broadcast_shapes_per_sample.
    eexists. split; reflexivity. }
  destruct Hmul as (scaled & Hscaled & Hssh). rewrite Hscaled. cbn [fst snd].
  assert (Hadd : exists x, Tensor.add real scaled = Ok x /\ Tensor.shape x = [B; T; F]).
  { unfold Tensor.add, Tensor.binop. rewrite Hreal, Hssh, broadcast_shapes_same_rank3.
    eexists. split; reflexivity. }
  destruct Hadd as (x & Hx & Hxsh). rewrite Hx. cbn [fst].
  exists x. split; [reflexivity |]. split; [exact Hxsh |].
  intros b t f Hb Ht Hf. cbv zeta.
  destruct (binop_rank3_entry Qplus real scaled B T F b t f Hreal Hssh Hb Ht Hf)
    as (x' & Hx' & _ & _ & Hxe).
  change (Tensor.binop Qplus real scaled) with (Tensor.add real scaled) in Hx'.
  assert (x' = x) by congruence. subst x'.
  destruct (per_sample_mul_entry alpha diff B T F b t f eq_refl Hdsh Hb Ht Hf)
    as (scaled' & Hscaled' & _ & Hse).
  assert (scaled' = scaled) by congruence. subst scaled'.
  destruct (binop_rank3_entry Qminus fake real B T F b t f Hfake Hreal Hb Ht Hf)
    as (diff' & Hdiff' & _ & _ & Hde).
  change (Tensor.binop Qminus fake real) with (Tensor.sub fake real) in Hdiff'.
  assert (diff' = diff) by congruence. subst diff'.
  rewrite Hxe, Hse, Hde.
  assert (Ha : nth b (Tensor.data alpha) 0%Q
               = entropy (world s) (Normal 0 1) (rng_counter (world s) + b)).
  { unfold alpha, draw. cbn [Tensor.data].
    apply nth_error_nth.
    rewrite (nth_error_map_seq
               (fun i => entropy (world s) (Normal 0 1) (rng_counter (world s) + i)));
      [reflexivity | cbn [Tensor.numel fold_right]; lia]. }
  rewrite Ha. reflexivity.
Qed.

Lemma gradient_penalty_interpolates_witness :
  exists x,
    fst (GAN.gradient_penalty_interpolated 1 Doubles.real_batch
           (Tensor.zeros [1; 2; 1]) (gan_frame true)) = Ok x
    /\ Tensor.shape x = [1; 2; 1].
Proof.
  destruct (gradient_penalty_interpolates Doubles.real_batch (Tensor.zeros [1; 2; 1])
              1 2 1 (gan_frame true) eq_refl eq_refl) as (x & Hx & Hsh & _).
  exists x. split; [exact Hx | exact Hsh].
Defined.

(** ** Labels the conditional trainer rejects *)

(** X14. A trainer that is not temporal needs 2-D labels: on labels with
    fewer than two axes, such as a vector of class ids, [train_step]
    raises IndexError at once, before it has drawn a random number or
    touched a variable, so the whole store is as it was. *)
Theorem cgan_train_step_short_labels tf real_ts labels (c : Frame ConditionalGAN.t) :
  ConditionalGAN._temporal (self c) = false ->
  Tensor.rank labels < 2 ->
  ConditionalGAN.train_step tf (real_ts, labels) c = (Raise IndexError, c).
Proof.
  intros Htemp Hrank. unfold ConditionalGAN.train_step, bind, get_state, lift.
  unfold ConditionalGAN._get_output_shape, Tensor.shape_getitem. rewrite Htemp.
  unfold Tensor.rank in Hrank.
  destruct (Tensor.shape labels) as [| d0 [| d1 rest]]; cbn in Hrank |- *;
    [reflexivity | reflexivity | lia].
Qed.

Lemma cgan_train_step_short_labels_witness :
  ConditionalGAN.train_step Doubles.engine (Doubles.real_batch, Tensor.mk [1] [5%Q])
    (cgan_frame false)
  = (Raise IndexError, cgan_frame false).
Proof.
  apply (cgan_train_step_short_labels Doubles.engine Doubles.real_batch
           (Tensor.mk [1] [5%Q]) (cgan_frame false)).
  - reflexivity.
  - cbn. lia.
Defined.

Lemma concat_batch_mismatch (a b : Tensor.t) (B B' L D : nat) :
  Tensor.shape a = [B; L] -> Tensor.shape b = [B'; D] -> B <> B' ->
  Tensor.concat [a; b] 1 = Raise InvalidArgumentError.
Proof.
  intros Ha Hb Hne. unfold Tensor.concat, Tensor.rank. rewrite Ha.
  cbn [length]. change (Tensor.normalize_axis 2 1) with (Some 1).
  cbn [forallb]. rewrite Hb. unfold Tensor.concat_compatible.
  cbn [length Nat.eqb seq map nth forallb andb].
  destruct (Nat.eqb_spec B B') as [E | _]; [contradiction |].
  reflexivity.
Qed.

Lemma cgan_random_vector_batch_mismatch bs labels (c : Frame ConditionalGAN.t) B' D :
  ConditionalGAN._temporal (self c) = false ->
  Tensor.shape labels = [B'; D] -> bs <> B' ->
  fst (ConditionalGAN._get_random_vector_labels bs labels c) = Raise InvalidArgumentError.
Proof.
  intros Htemp Hsh Hne.
  unfold ConditionalGAN._get_random_vector_labels, bind, get_state.
  rewrite Htemp. unfold tf_random_normal, tf_random, lift. cbn [fst].
  apply (concat_batch_mismatch _ _ bs B' (ConditionalGAN.latent_dim (self c)) D);
    [reflexivity | exact Hsh | exact Hne].
Qed.

(** X15. A trainer that is not temporal rejects a batch whose labels do not
    number as many as its sequences: when labels of shape (B', label_dim)
    come with B sequences and B' differs from B, [train_step] raises
    and leaves the trainer, trackers included, as it was. *)
Theorem cgan_train_step_batch_mismatch tf real_ts labels (c : Frame ConditionalGAN.t)
    (B B' D : nat) :
  ConditionalGAN._temporal (self c) = false ->
  Tensor.shape0 real_ts = Ok B ->
  Tensor.shape labels = [B'; D] ->
  B <> B' ->
  exists e,
    fst (ConditionalGAN.train_step tf (real_ts, labels) c) = Raise e
    /\ self (snd (ConditionalGAN.train_step tf (real_ts, labels) c)) = self c.
Proof.
  intros Htemp HB Hsh Hne.
  destruct (ConditionalGAN.train_step tf (real_ts, labels) c) as [[r | e] c'] eqn:Hstep.
  - exfalso. apply cgan_train_step_ok in Hstep.
    destruct Hstep
      as (output_dim & bs & rep & z & c1 & generated & fake_data & real_data & combined
          & labels01 & d_loss & c2 & z2 & c3 & g_loss & Hs).
    cbv zeta in Hs. destruct Hs as (_ & Hbs & _ & Hz & _).
    assert (bs = B) by congruence. subst bs.
    pose proof (cgan_random_vector_batch_mismatch B labels c B' D Htemp Hsh Hne) as Hr.
    rewrite Hz in Hr. discriminate Hr.
  - exists e. split; [reflexivity |].
    apply (cgan_train_step_effect tf (real_ts, labels)) in Hstep. exact Hstep.
Qed.

Lemma cgan_train_step_batch_mismatch_witness :
  exists e,
    fst (ConditionalGAN.train_step Doubles.engine
           (Doubles.real_batch, Tensor.mk [2; 1] [5%Q; 6%Q]) (cgan_frame false))
    = Raise e.
Proof.
  destruct (cgan_train_step_batch_mismatch Doubles.engine Doubles.real_batch
              (Tensor.mk [2; 1] [5%Q; 6%Q]) (cgan_frame false) 1 2 1
              eq_refl eq_refl eq_refl) as (e & He & _).
  - discriminate.
  - exists e. exact He.
Defined.

Lemma cgan_random_vector_temporal_rank3 bs labels (c : Frame ConditionalGAN.t) d0 d1 d2 :
  ConditionalGAN._temporal (self c) = true ->
  Tensor.shape labels = [d0; d1; d2] ->
  exists e, fst (ConditionalGAN._get_random_vector_labels bs labels c) = Raise e.
Proof.
  intros Htemp Hsh.
  unfold ConditionalGAN._get_random_vector_labels, bind, get_state.
  rewrite Htemp.
  destruct (ConditionalGAN._seq_len (self c)) as [T |]; cbn [ConditionalGAN.as_dim].
  - unfold ret, tf_random_normal, tf_random, lift, Tensor.getitem_slice_slice_newaxis.
    rewrite Hsh. cbn [fst]. exists InvalidArgumentError.
    apply concat_rank_mismatch. unfold Tensor.rank. cbn. discriminate.
  - exists TypeError. reflexivity.
Qed.

(** X16. A temporal trainer cannot be used with 3-D labels (several label
    channels per timestep): [generate] raises on them, and [train_step]
    raises and leaves the trainer as it was, although [_get_output_shape]
    answers for such labels with their third dimension. *)
Theorem cgan_temporal_rank3_labels_rejected tf real_ts labels (c : Frame ConditionalGAN.t)
    (d0 d1 d2 : nat) :
  ConditionalGAN._temporal (self c) = true ->
  Tensor.shape labels = [d0; d1; d2] ->
  ConditionalGAN._get_output_shape (self c) labels = Ok d2
  /\ (exists e, fst (ConditionalGAN.generate labels c) = Raise e)
  /\ (exists e,
        fst (ConditionalGAN.train_step tf (real_ts, labels) c) = Raise e
        /\ self (snd (ConditionalGAN.train_step tf (real_ts, labels) c)) = self c).
Proof.
  intros Htemp Hsh. split; [| split].
  - unfold ConditionalGAN._get_output_shape, Tensor.shape_getitem.
    rewrite Htemp, Hsh. reflexivity.
  - destruct (cgan_random_vector_temporal_rank3 d0 labels c d0 d1 d2 Htemp Hsh) as (e & He).
    exists e. unfold ConditionalGAN.generate, bind, lift, Tensor.shape_getitem.
    rewrite Hsh. cbn [nth_error].
    destruct (ConditionalGAN._get_random_vector_labels d0 labels c) as [[z | e'] c1];
      cbn [fst] in He |- *; [discriminate He | exact He].
  - destruct (ConditionalGAN.train_step tf (real_ts, labels) c) as [[r | e] c'] eqn:Hstep.
    + exfalso. apply cgan_train_step_ok in Hstep.
      destruct Hstep
        as (output_dim & bs & rep & z & c1 & generated & fake_data & real_data & combined
            & labels01 & d_loss & c2 & z2 & c3 & g_loss & Hs).
      cbv zeta in Hs. destruct Hs as (_ & _ & _ & Hz & _).
      destruct (cgan_random_vector_temporal_rank3 bs labels c d0 d1 d2 Htemp Hsh) as (e & He).
      rewrite Hz in He. discriminate He.
    + exists e. split; [reflexivity |].
      apply (cgan_train_step_effect tf (real_ts, labels)) in Hstep. exact Hstep.
Qed.

Lemma cgan_temporal_rank3_labels_rejected_witness :
  (exists e, fst (ConditionalGAN.generate (Tensor.zeros [1; 2; 2]) (cgan_frame true)) = Raise e)
  /\ (exists e, fst (ConditionalGAN.train_step Doubles.engine
                       (Doubles.real_batch, Tensor.zeros [1; 2; 2]) (cgan_frame true))
                = Raise e).
Proof.
  destruct (cgan_temporal_rank3_labels_rejected Doubles.engine Doubles.real_batch
              (Tensor.zeros [1; 2; 2]) (cgan_frame true) 1 2 2 eq_refl eq_refl)
    as (_ & Hgen & e & He & _).
  split; [exact Hgen | exists e; exact He].
Defined.

(** ** [generate] *)

(** X17. [generate] of the unconditional trainer returns the generator's
    output on a standard-normal latent of shape (num, latent_dim) and has
    no other effect than num * latent_dim draws: trainer, trackers,
    variables, optimizer slots and log are untouched.  What it returns
    depends on the attributes [__init__] fixed, on the variables and on
    the random stream only, so it is the same before and after [compile],
    whatever the trackers hold and whatever has been logged. *)
Theorem gan_generate_effects num (s s2 : Frame GAN.t) :
  fst (GAN.generate num s)
  = call (GAN.generator (self s))
      (weights_of (world s) (model_id (GAN.generator (self s)))) None
      (draw (Normal 0 1) [num; GAN.latent_dim (self s)] (world s))
  /\ self (snd (GAN.generate num s)) = self s
  /\ world_frame [] [] (world s) (world (snd (GAN.generate num s)))
  /\ rng_counter (world (snd (GAN.generate num s)))
     = rng_counter (world s) + num * GAN.latent_dim (self s)
  /\ (gan_architecture (self s2) = gan_architecture (self s) ->
      weights_of (world s2) = weights_of (world s) ->
      entropy (world s2) = entropy (world s) ->
      rng_counter (world s2) = rng_counter (world s) ->
      fst (GAN.generate num s2) = fst (GAN.generate num s)).
Proof.
  assert (Hrun : GAN.generate num s
                 = (call (GAN.generator (self s))
                      (weights_of (world s) (model_id (GAN.generator (self s)))) None
                      (draw (Normal 0 1) [num; GAN.latent_dim (self s)] (world s)),
                    with_world (advance_rng (Tensor.numel [num; GAN.latent_dim (self s)])) s))
    by reflexivity.
  assert (Hrun2 : fst (GAN.generate num s2)
                  = call (GAN.generator (self s2))
                      (weights_of (world s2) (model_id (GAN.generator (self s2)))) None
                      (draw (Normal 0 1) [num; GAN.latent_dim (self s2)] (world s2)))
    by reflexivity.
  rewrite Hrun. cbn [fst snd self world with_world].
  split; [reflexivity |]. split; [reflexivity |].
  split; [world_frame_solve |].
  split; [cbn; lia |].
  intros Harch Hw He Hc. rewrite Hrun2. unfold draw. rewrite Hw, He, Hc.
  unfold gan_architecture in Harch. injection Harch as _ HG HL _ _ _.
  rewrite HG, HL. reflexivity.
Qed.

Lemma gan_generate_effects_witness :
  fst (GAN.generate 2 (snd (GAN.compile true (Doubles.dp_sgd 10) (Doubles.plain_sgd 11)
                              Doubles.dot_loss gan_frame0)))
  = fst (GAN.generate 2 gan_frame0).
Proof.
  apply (gan_generate_effects 2 gan_frame0
           (snd (GAN.compile true (Doubles.dp_sgd 10) (Doubles.plain_sgd 11)
                   Doubles.dot_loss gan_frame0))); reflexivity.
Defined.

(** X18. [generate] of a conditional trainer that is not temporal takes the
    batch size from the labels: for labels of shape (B, label_dim) the
    generator is called on an input of shape (B, latent_dim + label_dim)
    whose row b is a standard-normal latent followed by labels[b], the
    trainer is unchanged and B * latent_dim numbers are drawn.  Labels
    without any axis make it raise IndexError with the store untouched. *)
Theorem cgan_generate_static labels (c : Frame ConditionalGAN.t) :
  ConditionalGAN._temporal (self c) = false ->
  (forall B D, Tensor.shape labels = [B; D] -> Tensor.well_formed labels ->
   let L := ConditionalGAN.latent_dim (self c) in
   let G := ConditionalGAN.generator (self c) in
   exists x,
     Tensor.shape x = [B; L + D]
     /\ (forall i j, i < B -> j < L + D ->
         Tensor.at_index x [i; j]
         = if j <? L
           then Tensor.at_index (draw (Normal 0 1) [B; L] (world c)) [i; j]
           else Tensor.at_index labels [i; j - L])
     /\ fst (ConditionalGAN.generate labels c)
        = call G (weights_of (world c) (model_id G)) None x
     /\ self (snd (ConditionalGAN.generate labels c)) = self c
     /\ rng_counter (world (snd (ConditionalGAN.generate labels c)))
        = rng_counter (world c) + B * L)
  /\ (Tensor.shape labels = [] ->
      ConditionalGAN.generate labels c = (Raise IndexError, c)).
Proof.
  intros Htemp. split.
  - intros B D Hsh Wf L G.
    destruct (concat_axis1_rank2 (draw (Normal 0 1) [B; L] (world c)) labels B L D
                eq_refl Hsh (draw_well_formed _ _ _) Wf) as (x & Hx & Hshape & Hentries).
    exists x. split; [exact Hshape |]. split; [exact Hentries |].
    unfold ConditionalGAN.generate, bind, lift, Tensor.shape_getitem.
    rewrite Hsh. cbn [nth_error].
    unfold ConditionalGAN._get_random_vector_labels, bind, get_state.
    rewrite Htemp. unfold tf_random_normal, tf_random, lift.
    fold L. rewrite Hx. cbn [fst snd self world with_world advance_rng rng_counter].
    fold G.
    destruct (call G _ None x); cbn [fst snd self world with_world advance_rng rng_counter
                                       Tensor.numel fold_right];
      repeat split; try reflexivity; lia.
  - intros Hsh. unfold ConditionalGAN.generate, bind, lift, Tensor.shape_getitem.
    rewrite Hsh. reflexivity.
Qed.

Lemma cgan_generate_static_witness :
  exists x,
    Tensor.shape x = [2; 8]
    /\ fst (ConditionalGAN.generate (Tensor.zeros [2; 5]) (cgan_frame false))
       = call (Doubles.filling_generator 0 2 1) [Tensor.scalar 7] None x.
Proof.
  destruct (cgan_generate_static (Tensor.zeros [2; 5]) (cgan_frame false) eq_refl)
    as [Hgen _].
  destruct (Hgen 2 5 eq_refl eq_refl) as (x & Hshape & _ & Hcall & _).
  exists x. split; [exact Hshape | exact Hcall].
Defined.

(** ** Random numbers a training step consumes *)

(** X19. A training step of the unconditional trainer that returns on a
    batch of B sequences reads the random stream at consecutive
    positions: the latent of the discriminator phase is the next
    B * latent_dim standard-normal numbers, a WGAN then takes B more for
    the interpolation coefficients, and the latent on which the generator
    phase computes its loss is the B * latent_dim numbers after those.
    The generator phase therefore never reuses the latent of the
    discriminator phase, and the draw counter has advanced by exactly
    2 * B * latent_dim (+ B for a WGAN). *)
Theorem gan_train_step_draws tf data (s s' : Frame GAN.t) r B :
  GAN.train_step tf data s = (Ok r, s') ->
  Tensor.shape0 data = Ok B ->
  exists fake combined labels d_loss s_f grads_d d_opt sl vals g_loss,
    let o := self s in
    let D := GAN.discriminator o in
    let G := GAN.generator o in
    let L := GAN.latent_dim o in
    let k := if GAN.use_wgan o then B else 0 in
    let c0 := rng_counter (world s) in
    let dw := weights_of (world s) (model_id D) in
    let s1 := with_world (advance_rng (Tensor.numel [B; L])) s in
    let z1 := draw (Normal 0 1) [B; L] (world s) in
    let w_d := after_optimizer d_opt D sl vals (world s_f) in
    let z2 := draw (Normal 0 1) [B; L] w_d in
    let s2 := {| self := o; world := advance_rng (Tensor.numel [B; L]) w_d |} in
    Tensor.data z1 = map (fun i => entropy (world s) (Normal 0 1) (c0 + i)) (seq 0 (B * L))
    /\ call G (weights_of (world s) (model_id G)) None z1 = Ok fake
    /\ Tensor.concat [fake; data] 0 = Ok combined
    /\ GAN.desc_labels B = Ok labels
    /\ GAN.discriminator_forward tf data fake combined labels B dw s1 = (Ok d_loss, s_f)
    /\ tape_gradient tf
         (fun w => fst (GAN.discriminator_forward tf data fake combined labels B w s1)) dw
       = Ok grads_d
    /\ GAN.d_optimizer o = Some d_opt
    /\ apply_gradients d_opt (slots_of (world s_f) (optimizer_id d_opt))
         (combine grads_d (weights_of (world s_f) (model_id D))) = (Ok tt, (sl, vals))
    /\ Tensor.data z2
       = map (fun i => entropy (world s) (Normal 0 1) (c0 + B * L + k + i)) (seq 0 (B * L))
    /\ GAN.generator_forward z2 (Tensor.zeros [B; 1]) (weights_of w_d (model_id G)) s2
       = (Ok g_loss, s2)
    /\ GAN.gen_loss_tracker (self s') = update_state g_loss (GAN.gen_loss_tracker o)
    /\ rng_counter (world s') = c0 + 2 * (B * L) + k.
Proof.
  intros H HB. apply gan_train_step_ok in H.
  destruct H
    as (bs & fake & combined & labels & d_loss & s_f & grads_d & d_opt & sl & vals
        & g_loss & grads_g & g_opt & sl' & vals' & Hstep).
  cbv zeta in Hstep.
  destruct Hstep as (Hbs & Hfake & Hc & Hl & Hd & _ & Ht & Hopt & Happ & Hg & _ & _ & _
                     & -> & _).
  assert (bs = B) by congruence. subst bs.
  pose proof (gan_discriminator_forward_store _ _ _ _ _ _ _ _ _ _ Hd) as Hsf.
  cbn [self with_world] in Hsf.
  exists fake, combined, labels, d_loss, s_f, grads_d, d_opt, sl, vals, g_loss.
  cbv zeta.
  assert (Hn : Tensor.numel [B; GAN.latent_dim (self s)] = B * GAN.latent_dim (self s))
    by (cbn [Tensor.numel fold_right]; lia).
  split.
  { unfold draw. cbn [Tensor.data]. rewrite Hn. reflexivity. }
  repeat (split; [assumption |]).
  split.
  { unfold draw, after_optimizer.
    cbn [Tensor.data entropy rng_counter set_weights_of set_slots_of]. rewrite Hn.
    rewrite Hsf. apply map_ext. intros i.
    destruct (GAN.use_wgan (self s));
      cbn [world with_world entropy rng_counter advance_rng Tensor.numel fold_right];
      f_equal; lia. }
  split; [exact Hg |].
  split; [reflexivity |].
  unfold after_optimizer.
  cbn [world with_world rng_counter set_weights_of set_slots_of advance_rng].
  rewrite Hn, Hsf.
  destruct (GAN.use_wgan (self s));
    cbn [world with_world rng_counter advance_rng Tensor.numel fold_right]; lia.
Qed.

Lemma gan_train_step_draws_witness :
  rng_counter (world (snd (GAN.train_step Doubles.engine Doubles.real_batch (gan_frame true))))
  = rng_counter (world (gan_frame true)) + 2 * (1 * 3) + 1.
Proof.
  destruct (gan_train_step_draws Doubles.engine Doubles.real_batch (gan_frame true)
              (snd (GAN.train_step Doubles.engine Doubles.real_batch (gan_frame true)))
              (returned (fst (GAN.train_step Doubles.engine Doubles.real_batch
                                (gan_frame true))) [])
              1)
    as (fake & combined & labels & d_loss & s_f & grads_d & d_opt & sl & vals & g_loss & Hs).
  - vm_compute. reflexivity.
  - reflexivity.
  - cbv zeta in Hs.
    destruct Hs as (_ & _ & _ & _ & _ & _ & _ & _ & _ & _ & _ & Hc). exact Hc.
Defined.
